(** * DS3231 real-time-clock driver over a software TWI (I2C) master

    A shallow embedding of [avr/src/ds3231.c] and [avr/src/twi.c]
    (with [DS3231/ds3231.h] and [DS3231/twi.h]) and the properties
    checked against it.

    Conventions.
    - [uint8_t] values are integers in [0, 256); every store into a
      [uint8_t] object is written [u8 e] ([e] reduced modulo 256), and
      arithmetic is done on unbounded integers as C does it on [int]
      after integer promotion (no intermediate value of the driver
      leaves the 16-bit [int] range of the AVR).
    - [bool] is C99 [_Bool]: a store of an integer [e] keeps [e <> 0].
    - Hardware registers the code writes are fields of the machine
      state; registers the hardware changes under the code ([PIN_TWI],
      [USISR], [USIDR] after a shift) are read from scripts held in the
      state, one entry per read.
    - Delays ([_delay_us]) only let time pass and are left out. *)

From Stdlib Require Import ZArith List Bool Lia.
Import ListNotations.
Local Open Scope Z_scope.

(** ** Integer conversions *)

Definition u8 (x : Z) : Z := x mod 256.

Definition to_bool (x : Z) : bool := negb (x =? 0).

Definition is_u8 (x : Z) : Prop := 0 <= x < 256.

(** ** ds3231.h: selectors and modes *)

Definition ALARM_1 : Z := 0.
Definition ALARM_2 : Z := 1.

Definition ALARM_SEC : Z := 0.
Definition ALARM_SEC_M : Z := 1.
Definition ALARM_MIN_M : Z := 2.
Definition ALARM_HOUR_M : Z := 3.
Definition ALARM_MDAY_M : Z := 4.
Definition ALARM_WDAY_M : Z := 5.
Definition ALARM_MIN : Z := 6.

(** [struct time]: every field is a [uint8_t] (also [year]), [am] a [bool]. *)
Record time : Type := mk_time {
  sec : Z;
  min : Z;
  hour : Z;
  mday : Z;
  mon : Z;
  year : Z;
  wday : Z;
  am : bool;
  twelveHour : Z
}.

(** ** ds3231.c: register addresses *)

Definition READ_ADD : Z := 0xD1.
Definition WRITE_ADD : Z := 0xD0.
Definition SECDR : Z := 0x00.
Definition AL1DR : Z := 0x07.
Definition AL2DR : Z := 0x0B.
Definition CTRDR : Z := 0x0E.
Definition STSDR : Z := 0x0F.
Definition AGODR : Z := 0x10.
Definition TMPDR : Z := 0x11.

(** ** ds3231.c: BCD conversion *)

Definition dec2bcd (d : Z) : Z := u8 ((d / 10 * 16) + (d mod 10)).

Definition bcd2dec (b : Z) : Z := u8 ((b / 16 * 10) + (b mod 16)).


(** ** ds3231.c: the computations on message buffers

    A local array [uint8_t msgBuf[n]] is a list of [n] bytes; [upd]
    is the assignment [msgBuf[i] = v] and [sel] the read [msgBuf[i]].
    Every index the driver uses is inside its array; outside, [upd]
    leaves the list alone and [sel] gives 0. *)

Fixpoint upd (i : nat) (v : Z) (l : list Z) : list Z :=
  match l, i with
  | [], _ => []
  | _ :: t, O => v :: t
  | h :: t, S j => h :: upd j v t
  end.

Definition sel (i : nat) (l : list Z) : Z := nth i l 0.

(** [ds3231_get_time], "Update stored time" and "Deal with 12-hour
    mode": the value [_time] holds after the assignments, computed
    from the buffer of the 8-byte read. *)
Definition time_of_registers (msgBuf : list Z) : time :=
  let sec_ := bcd2dec (sel 1 msgBuf) in
  let min_ := bcd2dec (sel 2 msgBuf) in
  let hour_ := bcd2dec (sel 3 msgBuf) in
  let wday_ := bcd2dec (sel 4 msgBuf) in
  let mday_ := bcd2dec (sel 5 msgBuf) in
  let mon_ := u8 (Z.land (bcd2dec (sel 6 msgBuf)) 0x1F) in
  let century := u8 (Z.shiftr (Z.land (sel 6 msgBuf) 0x80) 7) in
  let year_ := u8 (if century =? 1 then 2000 + bcd2dec (sel 7 msgBuf)
                   else 1900 + bcd2dec (sel 7 msgBuf)) in
  if hour_ =? 0 then
    mk_time sec_ min_ hour_ mday_ mon_ year_ wday_ true 0
  else if hour_ <? 12 then
    mk_time sec_ min_ hour_ mday_ mon_ year_ wday_ true hour_
  else
    mk_time sec_ min_ hour_ mday_ mon_ year_ wday_ false (u8 (hour_ - 12)).

Definition with_year (y : Z) (t : time) : time :=
  mk_time (sec t) (min t) (hour t) (mday t) (mon t) y (wday t) (am t)
          (twelveHour t).

(** [ds3231_set_time], the century test: the century value and the
    caller's struct after [time_->year] has been rewritten. *)
Definition reduce_year (time_ : time) : Z * time :=
  if year time_ >? 2000 then (0x80, with_year (u8 (year time_ - 2000)) time_)
  else (0x00, with_year (u8 (year time_ - 1900)) time_).

(** [ds3231_set_time], the nine assignments to [msgBuf]. *)
Definition time_msg (century : Z) (time_ : time) (msgBuf : list Z) : list Z :=
  let msgBuf := upd 0 WRITE_ADD msgBuf in
  let msgBuf := upd 1 SECDR msgBuf in
  let msgBuf := upd 2 (dec2bcd (sec time_)) msgBuf in
  let msgBuf := upd 3 (dec2bcd (min time_)) msgBuf in
  let msgBuf := upd 4 (dec2bcd (hour time_)) msgBuf in
  let msgBuf := upd 5 (dec2bcd (wday time_)) msgBuf in
  let msgBuf := upd 6 (dec2bcd (mday time_)) msgBuf in
  let msgBuf := upd 7 (u8 (dec2bcd (mon time_) + century)) msgBuf in
  upd 8 (dec2bcd (year time_)) msgBuf.


(** [ds3231_set_alarm_s], the update of the control byte. *)
Definition intrpt_update (intrpt : bool) (alarm : Z) (b : Z) : Z :=
  if Bool.eqb intrpt true then u8 (Z.lor b (Z.shiftl 1 alarm))
  else u8 (Z.land b (Z.lnot (Z.shiftl 1 alarm))).

(** [ds3231_set_alarm_s], "Write the alarm time": the assignments to
    [msgBuf] before the last transfer. *)
Definition alarm_msg (day hour min sec alarm mode : Z) (msgBuf : list Z)
  : list Z :=
  let msgBuf := upd 0 WRITE_ADD msgBuf in
  if alarm =? ALARM_1 then
    let msgBuf := upd 1 AL1DR msgBuf in
    let msgBuf := upd 2 (u8 (Z.lor (dec2bcd sec)
                    (if mode =? ALARM_SEC then 0x80 else 0x00))) msgBuf in
    let msgBuf := upd 3 (u8 (Z.lor (dec2bcd min)
                    (if mode <=? ALARM_SEC_M then 0x80 else 0x00))) msgBuf in
    let msgBuf := upd 4 (u8 (Z.lor (dec2bcd hour)
                    (if mode <=? ALARM_MIN_M then 0x80 else 0x00))) msgBuf in
    upd 5 (u8 (Z.lor (Z.lor (dec2bcd day)
                    (if mode <=? ALARM_HOUR_M then 0x80 else 0x00))
                    (if mode =? ALARM_WDAY_M then 0x40 else 0x00))) msgBuf
  else
    let msgBuf := upd 1 AL2DR msgBuf in
    let msgBuf := upd 2 (u8 (Z.lor (dec2bcd min)
                    (if mode =? ALARM_MIN then 0x80 else 0x00))) msgBuf in
    let msgBuf := upd 3 (u8 (Z.lor (dec2bcd hour)
                    (if mode <=? ALARM_MIN_M then 0x80 else 0x00))) msgBuf in
    upd 4 (u8 (Z.lor (Z.lor (dec2bcd day)
                    (if mode <=? ALARM_HOUR_M then 0x80 else 0x00))
                    (if mode =? ALARM_WDAY_M then 0x40 else 0x00))) msgBuf.

(** [ds3231_get_alarm_s], "Get the Alarm Enabled bit": the value
    stored into [*intrpt]. *)
Definition intrpt_of_control (alarm : Z) (b : Z) : bool :=
  to_bool (Z.land b (Z.lnot (Z.shiftl 1 alarm))).

(** The values [ds3231_get_alarm_s] stores through its out-pointers. *)
Record alarm_fields : Type := mk_alarm {
  a_day : Z;
  a_hour : Z;
  a_min : Z;
  a_sec : option Z;      (* [None]: [*sec] is not assigned (alarm 2) *)
  a_mode : Z
}.

(** [ds3231_get_alarm_s], the decoding of the buffer read. *)
Definition alarm_of_registers (alarm : Z) (msgBuf : list Z) : alarm_fields :=
  if alarm =? ALARM_1 then
    let sec_ := bcd2dec (Z.land (sel 1 msgBuf) 0x7F) in
    let min_ := bcd2dec (Z.land (sel 2 msgBuf) 0x7F) in
    let hour_ := bcd2dec (Z.land (sel 3 msgBuf) 0x7F) in
    let day_ := bcd2dec (Z.land (sel 4 msgBuf)
                  (if Z.land (sel 4 msgBuf) 0x40 =? 0 then 0x3F else 0x0F)) in
    let mode_ :=
      if Z.land (sel 4 msgBuf) 0x80 =? 0 then
        (if Z.land (sel 4 msgBuf) 0x40 =? 0 then ALARM_MDAY_M
         else ALARM_WDAY_M)
      else if Z.land (sel 3 msgBuf) 0x80 =? 0 then ALARM_HOUR_M
      else if Z.land (sel 2 msgBuf) 0x80 =? 0 then ALARM_MIN_M
      else if Z.land (sel 1 msgBuf) 0x80 =? 0 then ALARM_SEC_M
      else ALARM_SEC in
    mk_alarm day_ hour_ min_ (Some sec_) mode_
  else
    let min_ := bcd2dec (Z.land (sel 1 msgBuf) 0x7F) in
    let hour_ := bcd2dec (Z.land (sel 2 msgBuf) 0x7F) in
    let day_ := bcd2dec (Z.land (sel 3 msgBuf)
                  (if Z.land (sel 3 msgBuf) 0x40 =? 0 then 0x3F else 0x0F)) in
    let mode_ :=
      if Z.land (sel 3 msgBuf) 0x80 =? 0 then
        (if Z.land (sel 3 msgBuf) 0x40 =? 0 then ALARM_MDAY_M
         else ALARM_WDAY_M)
      else if Z.land (sel 2 msgBuf) 0x80 =? 0 then ALARM_HOUR_M
      else if Z.land (sel 1 msgBuf) 0x80 =? 0 then ALARM_MIN_M
      else ALARM_MIN in
    mk_alarm day_ hour_ min_ None mode_.

(** [ds3231_check_alarm], the value stored into [*active]. *)
Definition alarm_flag (alarm : Z) (b : Z) : bool :=
  to_bool (Z.land b (Z.shiftl 1 alarm)).

(** The buffer a read transfer fills when the chip returns, from the
    register pointer on, the bytes a write buffer [WRITE_ADD; pointer;
    d0; d1; ...] has stored there. *)
Definition read_back (written : list Z) : list Z := READ_ADD :: skipn 2 written.

(** ** The machine *)

(** What a run leaves on the bus, oldest first. *)
Inductive event : Type :=
| EvCall (msg : list Z) (msgSize : Z)
    (* [TWI_start_transceiver_with_data] is entered with this buffer *)
| EvStart
    (* the start condition is driven *)
| EvTransfer (temp : Z) (out : Z) (ddr : Z) (got : Z)
    (* one [TWI_master_transfer temp]: [USIDR] and [DDR_TWI] when the
       clocking starts, and the value of [USIDR] when it ends *)
| EvStop.
    (* [TWI_master_stop] is entered *)

(** The registers the code writes keep the last value written.  The
    [_rd] scripts give what the successive reads of [PIN_TWI], [USISR]
    and [USIDR] return; after the end of its script a register reads 0
    for ever.  [frame] is the address of the running function's local
    array and [junk] what the array holds before its first assignment.
    [mem] is the caller's data memory, addressed by pointer value. *)
Record machine : Type := mk_machine {
  PORT_TWI : Z;
  DDR_TWI : Z;
  USIDR : Z;
  USISR : Z;
  USICR : Z;
  PIN_TWI_rd : list Z;
  USISR_rd : list Z;
  USIDR_rd : list Z;
  TWI_state : Z;
  _time : time;
  frame : Z;
  junk : list Z;
  mem : Z -> Z;
  trace : list event
}.

Definition set_PORT_TWI (v : Z) (s : machine) : machine :=
  {| PORT_TWI := v; DDR_TWI := DDR_TWI s; USIDR := USIDR s; USISR := USISR
     s; USICR := USICR s; PIN_TWI_rd := PIN_TWI_rd s; USISR_rd := USISR_rd
     s; USIDR_rd := USIDR_rd s; TWI_state := TWI_state s; _time := _time s;
     frame := frame s; junk := junk s; mem := mem s; trace := trace s |}.

Definition set_DDR_TWI (v : Z) (s : machine) : machine :=
  {| PORT_TWI := PORT_TWI s; DDR_TWI := v; USIDR := USIDR s; USISR := USISR
     s; USICR := USICR s; PIN_TWI_rd := PIN_TWI_rd s; USISR_rd := USISR_rd
     s; USIDR_rd := USIDR_rd s; TWI_state := TWI_state s; _time := _time s;
     frame := frame s; junk := junk s; mem := mem s; trace := trace s |}.

Definition set_USIDR (v : Z) (s : machine) : machine :=
  {| PORT_TWI := PORT_TWI s; DDR_TWI := DDR_TWI s; USIDR := v; USISR :=
     USISR s; USICR := USICR s; PIN_TWI_rd := PIN_TWI_rd s; USISR_rd :=
     USISR_rd s; USIDR_rd := USIDR_rd s; TWI_state := TWI_state s; _time :=
     _time s; frame := frame s; junk := junk s; mem := mem s; trace := trace
     s |}.

Definition set_USISR (v : Z) (s : machine) : machine :=
  {| PORT_TWI := PORT_TWI s; DDR_TWI := DDR_TWI s; USIDR := USIDR s; USISR
     := v; USICR := USICR s; PIN_TWI_rd := PIN_TWI_rd s; USISR_rd :=
     USISR_rd s; USIDR_rd := USIDR_rd s; TWI_state := TWI_state s; _time :=
     _time s; frame := frame s; junk := junk s; mem := mem s; trace := trace
     s |}.

Definition set_USICR (v : Z) (s : machine) : machine :=
  {| PORT_TWI := PORT_TWI s; DDR_TWI := DDR_TWI s; USIDR := USIDR s; USISR
     := USISR s; USICR := v; PIN_TWI_rd := PIN_TWI_rd s; USISR_rd :=
     USISR_rd s; USIDR_rd := USIDR_rd s; TWI_state := TWI_state s; _time :=
     _time s; frame := frame s; junk := junk s; mem := mem s; trace := trace
     s |}.

Definition set_PIN_TWI_rd (v : list Z) (s : machine) : machine :=
  {| PORT_TWI := PORT_TWI s; DDR_TWI := DDR_TWI s; USIDR := USIDR s; USISR
     := USISR s; USICR := USICR s; PIN_TWI_rd := v; USISR_rd := USISR_rd s;
     USIDR_rd := USIDR_rd s; TWI_state := TWI_state s; _time := _time s;
     frame := frame s; junk := junk s; mem := mem s; trace := trace s |}.

Definition set_USISR_rd (v : list Z) (s : machine) : machine :=
  {| PORT_TWI := PORT_TWI s; DDR_TWI := DDR_TWI s; USIDR := USIDR s; USISR
     := USISR s; USICR := USICR s; PIN_TWI_rd := PIN_TWI_rd s; USISR_rd :=
     v; USIDR_rd := USIDR_rd s; TWI_state := TWI_state s; _time := _time s;
     frame := frame s; junk := junk s; mem := mem s; trace := trace s |}.

Definition set_USIDR_rd (v : list Z) (s : machine) : machine :=
  {| PORT_TWI := PORT_TWI s; DDR_TWI := DDR_TWI s; USIDR := USIDR s; USISR
     := USISR s; USICR := USICR s; PIN_TWI_rd := PIN_TWI_rd s; USISR_rd :=
     USISR_rd s; USIDR_rd := v; TWI_state := TWI_state s; _time := _time s;
     frame := frame s; junk := junk s; mem := mem s; trace := trace s |}.

Definition set_TWI_state (v : Z) (s : machine) : machine :=
  {| PORT_TWI := PORT_TWI s; DDR_TWI := DDR_TWI s; USIDR := USIDR s; USISR
     := USISR s; USICR := USICR s; PIN_TWI_rd := PIN_TWI_rd s; USISR_rd :=
     USISR_rd s; USIDR_rd := USIDR_rd s; TWI_state := v; _time := _time s;
     frame := frame s; junk := junk s; mem := mem s; trace := trace s |}.

Definition set__time (v : time) (s : machine) : machine :=
  {| PORT_TWI := PORT_TWI s; DDR_TWI := DDR_TWI s; USIDR := USIDR s; USISR
     := USISR s; USICR := USICR s; PIN_TWI_rd := PIN_TWI_rd s; USISR_rd :=
     USISR_rd s; USIDR_rd := USIDR_rd s; TWI_state := TWI_state s; _time :=
     v; frame := frame s; junk := junk s; mem := mem s; trace := trace s |}.

Definition set_mem (v : Z -> Z) (s : machine) : machine :=
  {| PORT_TWI := PORT_TWI s; DDR_TWI := DDR_TWI s; USIDR := USIDR s; USISR
     := USISR s; USICR := USICR s; PIN_TWI_rd := PIN_TWI_rd s; USISR_rd :=
     USISR_rd s; USIDR_rd := USIDR_rd s; TWI_state := TWI_state s; _time :=
     _time s; frame := frame s; junk := junk s; mem := v; trace := trace s
     |}.

Definition set_trace (v : list event) (s : machine) : machine :=
  {| PORT_TWI := PORT_TWI s; DDR_TWI := DDR_TWI s; USIDR := USIDR s; USISR
     := USISR s; USICR := USICR s; PIN_TWI_rd := PIN_TWI_rd s; USISR_rd :=
     USISR_rd s; USIDR_rd := USIDR_rd s; TWI_state := TWI_state s; _time :=
     _time s; frame := frame s; junk := junk s; mem := mem s; trace := v |}.

(** A run returns a value and a machine, never returns ([Hang]: a
    busy-wait whose condition never shows up), or stores through a
    null pointer ([Fault]). *)
Inductive outcome (A : Type) : Type :=
| Done (a : A) (s : machine)
| Hang
| Fault.

Arguments Done {A} a s.
Arguments Hang {A}.
Arguments Fault {A}.

Definition M (A : Type) : Type := machine -> outcome A.

Definition ret {A : Type} (a : A) : M A := fun s => Done a s.

Definition bind {A B : Type} (m : M A) (k : A -> M B) : M B :=
  fun s =>
    match m s with
    | Done a s' => k a s'
    | Hang => Hang
    | Fault => Fault
    end.

Notation "x <- m ;; k" := (bind m (fun x => k))
  (at level 61, m at next level, right associativity).
Notation "' pat <- m ;; k" := (bind m (fun x => match x with pat => k end))
  (at level 61, pat pattern, m at next level, right associativity).
Notation "m ;; k" := (bind m (fun _ => k))
  (at level 61, right associativity).

Definition get {A : Type} (f : machine -> A) : M A := fun s => Done (f s) s.

Definition modify (f : machine -> machine) : M unit := fun s => Done tt (f s).

Definition log (e : event) : M unit :=
  modify (fun s => set_trace (trace s ++ [e]) s).

(** Reads of the registers the hardware drives. *)
Definition next (l : list Z) : Z * list Z :=
  match l with
  | [] => (0, [])
  | v :: l' => (v, l')
  end.

Definition read_USISR : M Z :=
  fun s =>
    Done (fst (next (USISR_rd s)))
         (set_USISR_rd (snd (next (USISR_rd s))) s).

Definition read_USIDR : M Z :=
  fun s =>
    Done (fst (next (USIDR_rd s)))
         (set_USIDR_rd (snd (next (USIDR_rd s))) s).

(** [*p = v] for a [uint8_t* p] or [bool* p]; null is address 0. *)
Definition store8 (p : Z) (v : Z) : M unit :=
  fun s =>
    if p =? 0 then Fault
    else Done tt (set_mem (fun a => if a =? p then v else mem s a) s).

(** The declaration [uint8_t msgBuf[n]]: [n] bytes of whatever the
    stack holds. *)
Definition local_array (n : nat) (s : machine) : list Z :=
  firstn n (junk s ++ repeat 0 n).

Definition alloca (n : nat) : M (list Z) := get (local_array n).

(** ** twi.h and avr/io.h: constants *)

Definition TWI_READ_BIT : Z := 0.
Definition TWI_ADR_BITS : Z := 1.
Definition TWI_NACK_BIT : Z := 0.

Definition TWI_NO_DATA : Z := 0x00.
Definition TWI_DATA_OUT_OF_BOUND : Z := 0x01.
Definition TWI_UE_START_CON : Z := 0x02.
Definition TWI_UE_STOP_CON : Z := 0x03.
Definition TWI_UE_DATA_COL : Z := 0x04.
Definition TWI_NO_ACK_ON_DATA : Z := 0x05.
Definition TWI_NO_ACK_ON_ADDRESS : Z := 0x06.
Definition TWI_MISSING_START_CON : Z := 0x07.
Definition TWI_MISSING_STOP_CON : Z := 0x08.

(** Bit positions of the USI status and control registers, the same
    on every device [twi.h] lists. *)
Definition USISIF : Z := 7.
Definition USIOIF : Z := 6.
Definition USIPF : Z := 5.
Definition USIDC : Z := 4.
Definition USICNT0 : Z := 0.
Definition USISIE : Z := 7.
Definition USIOIE : Z := 6.
Definition USIWM1 : Z := 5.
Definition USIWM0 : Z := 4.
Definition USICS1 : Z := 3.
Definition USICS0 : Z := 2.
Definition USICLK : Z := 1.
Definition USITC : Z := 0.

(** What depends on the device selected at compile time: the last
    address of SRAM and the pins that carry SDA and SCL. *)
Class target : Type := {
  RAMEND : Z;
  PIN_TWI_SDA : Z;
  PIN_TWI_SCL : Z
}.

(** [union TWI_state]: [errorState] is the whole byte; avr-gcc puts the
    bit-field [addressMode] in bit 0 and [masterWrite] in bit 1 of it. *)
Definition addressMode (st : Z) : bool := Z.testbit st 0.
Definition masterWrite (st : Z) : bool := Z.testbit st 1.

Definition with_addressMode (b : bool) (st : Z) : Z :=
  if b then Z.setbit st 0 else Z.clearbit st 0.

Definition with_masterWrite (b : bool) (st : Z) : Z :=
  if b then Z.setbit st 1 else Z.clearbit st 1.

(** ** twi.c *)

Section TWI.
Context {tgt : target}.

Definition PORT_TWI_or (m : Z) : M unit :=
  modify (fun s => set_PORT_TWI (u8 (Z.lor (PORT_TWI s) m)) s).

Definition PORT_TWI_and (m : Z) : M unit :=
  modify (fun s => set_PORT_TWI (u8 (Z.land (PORT_TWI s) m)) s).

Definition DDR_TWI_or (m : Z) : M unit :=
  modify (fun s => set_DDR_TWI (u8 (Z.lor (DDR_TWI s) m)) s).

Definition DDR_TWI_and (m : Z) : M unit :=
  modify (fun s => set_DDR_TWI (u8 (Z.land (DDR_TWI s) m)) s).

(** [while (!(PIN_TWI & (1 << PIN_TWI_SCL)));] on the reads to come:
    what is left of them once SCL has read high. *)
Fixpoint SCL_high (pins : list Z) : option (list Z) :=
  match pins with
  | [] => None
  | p :: pins' =>
    if to_bool (Z.land p (Z.shiftl 1 PIN_TWI_SCL)) then Some pins'
    else SCL_high pins'
  end.

Definition wait_SCL : M unit :=
  fun s =>
    match SCL_high (PIN_TWI_rd s) with
    | None => Hang
    | Some pins => Done tt (set_PIN_TWI_rd pins s)
    end.

(** The [do ... while (!(USISR & (1 << USIOIF)))] of
    [TWI_master_transfer] on the reads to come: each turn waits for
    SCL and then reads [USISR] once. *)
Fixpoint clock_edges (flags pins : list Z) : option (list Z * list Z) :=
  match SCL_high pins with
  | None => None
  | Some pins' =>
    match flags with
    | [] => None
    | f :: flags' =>
      if to_bool (Z.land f (Z.shiftl 1 USIOIF)) then Some (flags', pins')
      else clock_edges flags' pins'
    end
  end.

(** The same loop on the machine: [USICR = temp] at each edge. *)
Definition pulse_clock (temp : Z) : M unit :=
  fun s =>
    match clock_edges (USISR_rd s) (PIN_TWI_rd s) with
    | None => Hang
    | Some (flags, pins) =>
      Done tt (set_USICR temp (set_USISR_rd flags (set_PIN_TWI_rd pins s)))
    end.

Definition TWI_get_state_info : M Z := get TWI_state.

Definition TWI_master_transfer (temp : Z) : M Z :=
  out <- get USIDR ;;
  ddr <- get DDR_TWI ;;
  modify (set_USISR temp) ;;
  let temp' := Z.lor (Z.lor (Z.lor (Z.lor (Z.lor (Z.lor (Z.lor
                 (Z.shiftl 0 USISIE) (Z.shiftl 0 USIOIE))
                 (Z.shiftl 1 USIWM1)) (Z.shiftl 1 USIWM0))
                 (Z.shiftl 1 USICS1)) (Z.shiftl 0 USICS0))
                 (Z.shiftl 1 USICLK)) (Z.shiftl 0 USITC) in
  pulse_clock temp' ;;
  got <- read_USIDR ;;
  modify (set_USIDR 0xFF) ;;
  DDR_TWI_or (Z.shiftl 1 PIN_TWI_SDA) ;;
  log (EvTransfer temp out ddr got) ;;
  ret got.

Definition TWI_master_stop : M Z :=
  log EvStop ;;
  PORT_TWI_and (Z.lnot (Z.shiftl 1 PIN_TWI_SDA)) ;;
  PORT_TWI_or (Z.shiftl 1 PIN_TWI_SCL) ;;
  wait_SCL ;;
  PORT_TWI_or (Z.shiftl 1 PIN_TWI_SDA) ;;
  f <- read_USISR ;;
  if negb (to_bool (Z.land f (Z.shiftl 1 USIPF))) then
    modify (set_TWI_state TWI_MISSING_STOP_CON) ;;
    ret 0
  else
    ret 1.

Definition tempUSISR_8bit : Z :=
  Z.lor (Z.lor (Z.lor (Z.lor (Z.shiftl 1 USISIF) (Z.shiftl 1 USIOIF))
    (Z.shiftl 1 USIPF)) (Z.shiftl 1 USIDC)) (Z.shiftl 0x0 USICNT0).

Definition tempUSISR_1bit : Z :=
  Z.lor (Z.lor (Z.lor (Z.lor (Z.shiftl 1 USISIF) (Z.shiftl 1 USIOIF))
    (Z.shiftl 1 USIPF)) (Z.shiftl 1 USIDC)) (Z.shiftl 0xE USICNT0).

(** One turn of the [do ... while (--msgSize)] body of
    [TWI_start_transceiver_with_data] on byte [i] of the buffer:
    [inl r] when the turn executes [return r], [inr msg'] when it
    falls through to the loop test. *)
Definition TWI_turn (msg : list Z) (i : nat) (msgSize : Z)
  : M (Z + list Z) :=
  st <- get TWI_state ;;
  if addressMode st || masterWrite st then
    PORT_TWI_and (Z.lnot (Z.shiftl 1 PIN_TWI_SCL)) ;;
    modify (set_USIDR (sel i msg)) ;;
    TWI_master_transfer tempUSISR_8bit ;;
    DDR_TWI_and (Z.lnot (Z.shiftl 1 PIN_TWI_SDA)) ;;
    a <- TWI_master_transfer tempUSISR_1bit ;;
    if to_bool (Z.land a (Z.shiftl 1 TWI_NACK_BIT)) then
      st <- get TWI_state ;;
      (if addressMode st then modify (set_TWI_state TWI_NO_ACK_ON_ADDRESS)
       else modify (set_TWI_state TWI_NO_ACK_ON_DATA)) ;;
      ret (inl 0)
    else
      modify (fun s =>
                set_TWI_state (with_addressMode false (TWI_state s)) s) ;;
      ret (inr msg)
  else
    DDR_TWI_and (Z.lnot (Z.shiftl 1 PIN_TWI_SDA)) ;;
    b <- TWI_master_transfer tempUSISR_8bit ;;
    let msg := upd i b msg in
    (if msgSize =? 1 then modify (set_USIDR 0xFF)
     else modify (set_USIDR 0x00)) ;;
    TWI_master_transfer tempUSISR_1bit ;;
    ret (inr msg).

(** The [do ... while (--msgSize)] loop and what follows it.  [msgSize]
    is a [uint8_t], so the loop test fails after at most 256 turns;
    [turns] bounds the number of turns still allowed. *)
Fixpoint TWI_loop (turns : nat) (msg : list Z) (i : nat) (msgSize : Z)
  : M (Z * list Z) :=
  match turns with
  | O => fun _ => Hang
  | S turns' =>
    r <- TWI_turn msg i msgSize ;;
    match r with
    | inl v => ret (v, msg)
    | inr msg' =>
      let msgSize' := u8 (msgSize - 1) in
      if to_bool msgSize' then TWI_loop turns' msg' (S i) msgSize'
      else
        TWI_master_stop ;;
        ret (1, msg')
    end
  end.

(** [msg] is the address the pointer holds and [buf] the array it
    points to; the result carries the array as the transfer leaves it. *)
Definition TWI_start_transceiver_with_data (msg : Z) (buf : list Z)
  (msgSize : Z) : M (Z * list Z) :=
  let msgSize := u8 msgSize in
  log (EvCall buf msgSize) ;;
  modify (set_TWI_state 0) ;;
  modify (fun s => set_TWI_state (with_addressMode true (TWI_state s)) s) ;;
  if msg >? RAMEND then
    modify (set_TWI_state TWI_DATA_OUT_OF_BOUND) ;;
    ret (0, buf)
  else if msgSize <=? 1 then
    modify (set_TWI_state TWI_NO_DATA) ;;
    ret (0, buf)
  else
  f <- read_USISR ;;
  if to_bool (Z.land f (Z.shiftl 1 USISIF)) then
    modify (set_TWI_state TWI_UE_START_CON) ;;
    ret (0, buf)
  else
  f <- read_USISR ;;
  if to_bool (Z.land f (Z.shiftl 1 USIPF)) then
    modify (set_TWI_state TWI_UE_STOP_CON) ;;
    ret (0, buf)
  else
  f <- read_USISR ;;
  if to_bool (Z.land f (Z.shiftl 1 USIDC)) then
    modify (set_TWI_state TWI_UE_DATA_COL) ;;
    ret (0, buf)
  else
  (if negb (to_bool (Z.land (sel 0 buf) (Z.shiftl 1 TWI_READ_BIT))) then
     modify (fun s => set_TWI_state (with_masterWrite true (TWI_state s)) s)
   else ret tt) ;;
  PORT_TWI_or (Z.shiftl 1 PIN_TWI_SCL) ;;
  wait_SCL ;;
  PORT_TWI_and (Z.lnot (Z.shiftl 1 PIN_TWI_SDA)) ;;
  log EvStart ;;
  PORT_TWI_and (Z.lnot (Z.shiftl 1 PIN_TWI_SCL)) ;;
  PORT_TWI_or (Z.shiftl 1 PIN_TWI_SDA) ;;
  f <- read_USISR ;;
  if negb (to_bool (Z.land f (Z.shiftl 1 USISIF))) then
    modify (set_TWI_state TWI_MISSING_START_CON) ;;
    ret (1, buf)
  else
  TWI_loop 256 buf 0 msgSize.

End TWI.

(** ** ds3231.c: the driver functions

    Out-parameters of type [uint8_t*] and [bool*] are addresses into
    [mem]; a [struct time*] argument is the struct it points to, and
    the function returns the struct as it leaves it.  In every
    function [p] is the address the local array [msgBuf] decays to. *)

Section DS3231.
Context {tgt : target}.

Definition ds3231_get_time (time_ : time) : M (Z * time) :=
  p <- get frame ;;
  msgBuf <- alloca 8 ;;
  let msgBuf := upd 0 WRITE_ADD msgBuf in
  let msgBuf := upd 1 SECDR msgBuf in
  '(r, msgBuf) <- TWI_start_transceiver_with_data p msgBuf 2 ;;
  if to_bool r then ret (0, time_) else
  let msgBuf := upd 0 READ_ADD msgBuf in
  '(r, msgBuf) <- TWI_start_transceiver_with_data p msgBuf 8 ;;
  if to_bool r then ret (0, time_) else
  modify (set__time (time_of_registers msgBuf)) ;;
  t <- get _time ;;
  ret (1, t).

Definition ds3231_get_time_s (hour min sec : Z) : M Z :=
  p <- get frame ;;
  msgBuf <- alloca 4 ;;
  let msgBuf := upd 0 WRITE_ADD msgBuf in
  let msgBuf := upd 1 SECDR msgBuf in
  '(r, msgBuf) <- TWI_start_transceiver_with_data p msgBuf 2 ;;
  if to_bool r then ret 0 else
  let msgBuf := upd 0 READ_ADD msgBuf in
  '(r, msgBuf) <- TWI_start_transceiver_with_data p msgBuf 4 ;;
  if to_bool r then ret 0 else
  (if to_bool sec then store8 sec (bcd2dec (sel 1 msgBuf)) else ret tt) ;;
  (if to_bool min then store8 min (bcd2dec (sel 2 msgBuf)) else ret tt) ;;
  (if to_bool hour then store8 hour (bcd2dec (sel 3 msgBuf)) else ret tt) ;;
  ret 1.

Definition ds3231_set_time (time_ : time) : M (Z * time) :=
  p <- get frame ;;
  msgBuf <- alloca 9 ;;
  let '(century, time_) := reduce_year time_ in
  let msgBuf := time_msg century time_ msgBuf in
  '(r, _) <- TWI_start_transceiver_with_data p msgBuf 9 ;;
  if to_bool r then ret (0, time_) else
  ret (1, time_).


Definition ds3231_osc32kHz_enable (enable : bool) : M Z :=
  p <- get frame ;;
  msgBuf <- alloca 3 ;;
  let msgBuf := upd 0 WRITE_ADD msgBuf in
  let msgBuf := upd 1 STSDR msgBuf in
  '(r, msgBuf) <- TWI_start_transceiver_with_data p msgBuf 2 ;;
  if to_bool r then ret 0 else
  let msgBuf := upd 0 READ_ADD msgBuf in
  '(r, msgBuf) <- TWI_start_transceiver_with_data p msgBuf 2 ;;
  if to_bool r then ret 0 else
  let msgBuf :=
    if enable then upd 1 (u8 (Z.lor (sel 1 msgBuf) 0x08)) msgBuf
    else upd 1 (u8 (Z.land (sel 1 msgBuf) 0xF7)) msgBuf in
  let msgBuf := upd 0 WRITE_ADD msgBuf in
  let msgBuf := upd 2 (sel 1 msgBuf) msgBuf in
  let msgBuf := upd 1 STSDR msgBuf in
  '(r, _) <- TWI_start_transceiver_with_data p msgBuf 3 ;;
  if to_bool r then ret 0 else
  ret 1.

Definition ds3231_set_alarm_s (day hour min sec alarm mode : Z)
  (intrpt : bool) : M Z :=
  if (mode =? ALARM_WDAY_M) && (day >? 7) then ret 0 else
  if (mode =? ALARM_MDAY_M) && (day >? 31) then ret 0 else
  if hour >? 23 then ret 0 else
  if min >? 59 then ret 0 else
  if sec >? 59 then ret 0 else
  if alarm >? 1 then ret 0 else
  if Z.b2z intrpt >? 1 then ret 0 else
  p <- get frame ;;
  msgBuf <- alloca (if alarm =? ALARM_1 then 6 else 5) ;;
  let msgBuf := upd 0 WRITE_ADD msgBuf in
  let msgBuf := upd 1 CTRDR msgBuf in
  '(r, msgBuf) <- TWI_start_transceiver_with_data p msgBuf 2 ;;
  if to_bool r then ret 0 else
  let msgBuf := upd 0 READ_ADD msgBuf in
  '(r, msgBuf) <- TWI_start_transceiver_with_data p msgBuf 2 ;;
  if to_bool r then ret 0 else
  let msgBuf := upd 1 (intrpt_update intrpt alarm (sel 1 msgBuf)) msgBuf in
  let msgBuf := upd 0 WRITE_ADD msgBuf in
  let msgBuf := upd 2 (sel 1 msgBuf) msgBuf in
  let msgBuf := upd 1 CTRDR msgBuf in
  '(r, msgBuf) <- TWI_start_transceiver_with_data p msgBuf 3 ;;
  if to_bool r then ret 0 else
  let msgBuf := alarm_msg day hour min sec alarm mode msgBuf in
  '(r, _) <- TWI_start_transceiver_with_data p msgBuf
               (if alarm =? ALARM_1 then 6 else 5) ;;
  if to_bool r then ret 0 else
  ret 1.

Definition ds3231_get_alarm_s (day hour min sec : Z) (alarm : Z)
  (mode intrpt : Z) : M Z :=
  if alarm >? 1 then ret 0 else
  p <- get frame ;;
  msgBuf <- alloca (if alarm =? ALARM_1 then 5 else 4) ;;
  let msgBuf := upd 0 WRITE_ADD msgBuf in
  let msgBuf := upd 1 CTRDR msgBuf in
  '(r, msgBuf) <- TWI_start_transceiver_with_data p msgBuf 2 ;;
  if to_bool r then ret 0 else
  let msgBuf := upd 0 READ_ADD msgBuf in
  '(r, msgBuf) <- TWI_start_transceiver_with_data p msgBuf 2 ;;
  if to_bool r then ret 0 else
  store8 intrpt (Z.b2z (intrpt_of_control alarm (sel 1 msgBuf))) ;;
  let msgBuf := upd 0 WRITE_ADD msgBuf in
  let msgBuf := upd 1 (if alarm =? ALARM_1 then AL1DR else AL2DR) msgBuf in
  '(r, msgBuf) <- TWI_start_transceiver_with_data p msgBuf 2 ;;
  if to_bool r then ret 0 else
  let msgBuf := upd 0 READ_ADD msgBuf in
  '(r, msgBuf) <- TWI_start_transceiver_with_data p msgBuf
                    (if alarm =? ALARM_1 then 5 else 4) ;;
  if to_bool r then ret 0 else
  let a := alarm_of_registers alarm msgBuf in
  match a_sec a with
  | Some v => store8 sec v
  | None => ret tt
  end ;;
  store8 min (a_min a) ;;
  store8 hour (a_hour a) ;;
  store8 day (a_day a) ;;
  store8 mode (a_mode a) ;;
  ret 1.

Definition ds3231_check_alarm (active : Z) (alarm : Z) : M Z :=
  if alarm >? 1 then ret 0 else
  p <- get frame ;;
  msgBuf <- alloca 2 ;;
  let msgBuf := upd 0 WRITE_ADD msgBuf in
  let msgBuf := upd 0 STSDR msgBuf in
  '(r, msgBuf) <- TWI_start_transceiver_with_data p msgBuf 2 ;;
  if to_bool r then ret 0 else
  store8 active (Z.b2z (alarm_flag alarm (sel 1 msgBuf))) ;;
  ret 1.

End DS3231.

(** ** Observations on runs *)

(** The part of the machine the bus layer has no access to. *)
Definition same_data (s s' : machine) : Prop :=
  _time s' = _time s /\ mem s' = mem s /\ frame s' = frame s /\
  junk s' = junk s.

(** [m] never stores through a null pointer, and when it returns the
    machines before and after are related by [R]. *)
Definition respects {A : Type} (R : machine -> machine -> Prop) (m : M A)
  : Prop :=
  forall s,
    match m s with
    | Done _ s' => R s s'
    | Hang => True
    | Fault => False
    end.

(** [clock_edges] repeated: the scripts left once [k] calls of
    [TWI_master_transfer] have clocked their bits. *)
Fixpoint clockings {tgt : target} (k : nat) (flags pins : list Z)
  : option (list Z * list Z) :=
  match k with
  | O => Some (flags, pins)
  | S k' =>
    match clock_edges flags pins with
    | None => None
    | Some (flags', pins') => clockings k' flags' pins'
    end
  end.

(** The bytes shifted out by the 8-bit transfers of a trace. *)
Fixpoint bytes_out (evs : list event) : list Z :=
  match evs with
  | [] => []
  | EvTransfer temp out _ _ :: evs' =>
    if temp =? tempUSISR_8bit then out :: bytes_out evs' else bytes_out evs'
  | _ :: evs' => bytes_out evs'
  end.

(** The buffers handed to [TWI_start_transceiver_with_data], in order. *)
Fixpoint calls (evs : list event) : list (list Z * Z) :=
  match evs with
  | [] => []
  | EvCall msg n :: evs' => (msg, n) :: calls evs'
  | _ :: evs' => calls evs'
  end.

Definition is_stop (e : event) : bool :=
  match e with
  | EvStop => true
  | _ => false
  end.

(** ** twi.c and ds3231.c: the remaining functions *)

(** Conversion of a [uint8_t] to [int8_t] as avr-gcc does it: the
    value modulo 256 taken in [-128, 127]. *)
Definition s8 (x : Z) : Z := if u8 x <? 128 then u8 x else u8 x - 256.

(** [ds3231_set_time_s], the five assignments to [msgBuf]. *)
Definition time_s_msg (hour min sec : Z) (msgBuf : list Z) : list Z :=
  let msgBuf := upd 0 WRITE_ADD msgBuf in
  let msgBuf := upd 1 SECDR msgBuf in
  let msgBuf := upd 2 (dec2bcd sec) msgBuf in
  let msgBuf := upd 3 (dec2bcd min) msgBuf in
  upd 4 (dec2bcd hour) msgBuf.

(** [ds3231_reset_alarm], the assignments to [msgBuf]. *)
Definition reset_msg (alarm : Z) (msgBuf : list Z) : list Z :=
  let msgBuf := upd 0 WRITE_ADD msgBuf in
  if alarm =? ALARM_1 then
    let msgBuf := upd 1 AL1DR msgBuf in
    let msgBuf := upd 2 0x00 msgBuf in
    let msgBuf := upd 3 0x00 msgBuf in
    let msgBuf := upd 4 0x00 msgBuf in
    upd 5 0x00 msgBuf
  else
    let msgBuf := upd 1 AL2DR msgBuf in
    let msgBuf := upd 2 0x00 msgBuf in
    let msgBuf := upd 3 0x00 msgBuf in
    upd 4 0x00 msgBuf.

(** [ds3231_osc32kHz_enable], the update of the status byte between
    the read and the write-back, as the function has it. *)
Definition osc32kHz_update (enable : bool) (b : Z) : Z :=
  if enable then u8 (Z.lor b 0x08) else u8 (Z.land b 0xF7).

Section Remaining.
Context {tgt : target}.

Definition TWI_master_initialize : M unit :=
  PORT_TWI_or (Z.shiftl 1 PIN_TWI_SDA) ;;
  PORT_TWI_or (Z.shiftl 1 PIN_TWI_SCL) ;;
  DDR_TWI_or (Z.shiftl 1 PIN_TWI_SDA) ;;
  DDR_TWI_or (Z.shiftl 1 PIN_TWI_SCL) ;;
  modify (set_USIDR 0xFF) ;;
  modify (set_USICR
    (Z.lor (Z.lor (Z.lor (Z.lor (Z.lor (Z.lor (Z.lor
       (Z.shiftl 0 USISIE) (Z.shiftl 0 USIOIE))
       (Z.shiftl 1 USIWM1)) (Z.shiftl 1 USIWM0))
       (Z.shiftl 1 USICS1)) (Z.shiftl 0 USICS0))
       (Z.shiftl 1 USICLK)) (Z.shiftl 0 USITC))) ;;
  modify (set_USISR
    (Z.lor (Z.lor (Z.lor (Z.lor (Z.shiftl 1 USISIF) (Z.shiftl 1 USIOIF))
       (Z.shiftl 1 USIPF)) (Z.shiftl 1 USIDC)) (Z.shiftl 0 USICNT0))).

Definition ds3231_set_time_s (hour min sec : Z) : M Z :=
  p <- get frame ;;
  msgBuf <- alloca 5 ;;
  let msgBuf := time_s_msg hour min sec msgBuf in
  '(r, _) <- TWI_start_transceiver_with_data p msgBuf 5 ;;
  if to_bool r then ret 0 else
  ret 1.

Definition ds3231_get_temp_int (i f : Z) : M Z :=
  p <- get frame ;;
  msgBuf <- alloca 3 ;;
  let msgBuf := upd 0 WRITE_ADD msgBuf in
  let msgBuf := upd 1 TMPDR msgBuf in
  '(r, msgBuf) <- TWI_start_transceiver_with_data p msgBuf 2 ;;
  if to_bool r then ret 0 else
  let msgBuf := upd 0 READ_ADD msgBuf in
  '(r, msgBuf) <- TWI_start_transceiver_with_data p msgBuf 3 ;;
  if to_bool r then ret 0 else
  store8 i (s8 (sel 1 msgBuf)) ;;
  store8 f (u8 (Z.shiftr (sel 2 msgBuf) 6)) ;;
  ret 1.

Definition ds3231_force_temp_conversion (block : Z) : M Z := ret 1.

(** The call [ds3231_set_time(&_time)].  [ds3231_set_time] takes the
    struct behind its pointer and hands it back as the function leaves
    it; here the pointer is to the driver's own [_time], so the struct
    is read from [_time] and what the function made of it is what
    [_time] holds afterwards.  [ds3231_set_time] does not name [_time]
    itself. *)
Definition ds3231_set_time_stored : M Z :=
  t <- get _time ;;
  '(r, t') <- ds3231_set_time t ;;
  modify (set__time t') ;;
  ret r.

Definition ds3231_reset_alarm (alarm : Z) : M Z :=
  p <- get frame ;;
  msgBuf <- alloca (if alarm =? ALARM_1 then 6 else 5) ;;
  let msgBuf := reset_msg alarm msgBuf in
  '(r, _) <- TWI_start_transceiver_with_data p msgBuf
               (if alarm =? ALARM_1 then 6 else 5) ;;
  if to_bool r then ret 0 else
  ret 1.

Definition ds3231_set_alarm (time_ : time) (alarm mode : Z) (intrpt : bool)
  : M Z := ret 1.

Definition ds3231_get_alarm (time_ : time) (alarm : Z) (mode intrpt : Z)
  : M Z := ret 1.

End Remaining.

(** ** More observations on runs *)

(** What the 1-bit transfers of a trace had in [USIDR] when they
    started: 0x00 drives an acknowledgement, 0xFF leaves SDA released. *)
Fixpoint bits_out (evs : list event) : list Z :=
  match evs with
  | [] => []
  | EvTransfer temp out _ _ :: evs' =>
    if temp =? tempUSISR_1bit then out :: bits_out evs' else bits_out evs'
  | _ :: evs' => bits_out evs'
  end.

(** The buffer of a read transfer of [count] more bytes from index [i]
    on, the bytes being every second value of the [USIDR] script. *)
Fixpoint received (count : nat) (i : nat) (data : list Z) (msg : list Z)
  : list Z :=
  match count with
  | O => msg
  | S count' =>
    received count' (S i) (skipn 2 data) (upd i (fst (next data)) msg)
  end.

(** The pins of the port other than SDA and SCL are as before, in the
    output latch and in the direction register. *)
Definition other_pins_kept {tgt : target} (s s' : machine) : Prop :=
  forall i : Z,
    0 <= i < 8 -> i <> PIN_TWI_SDA -> i <> PIN_TWI_SCL ->
    Z.testbit (PORT_TWI s') i = Z.testbit (PORT_TWI s) i /\
    Z.testbit (DDR_TWI s') i = Z.testbit (DDR_TWI s) i.

(** [P x] checked on [0 <= x < n]. *)
Definition holds_below (n : nat) (P : Z -> bool) : bool :=
  forallb P (map Z.of_nat (seq 0 n)).

(** The machine a transfer leaves when one of its entry tests fails
    with error [code] after [reads] reads of [USISR]. *)
Definition TWI_refused (code : Z) (reads : nat) (buf : list Z) (n : Z)
  (s : machine) : machine :=
  set_TWI_state code
    (set_USISR_rd (skipn reads (USISR_rd s))
       (set_trace (trace s ++ [EvCall buf (u8 n)]) s)).

(** The machine after the start condition: the address mode (and the
    write mode for an even address byte) recorded, SCL waited for, the
    port latch taken through the start sequence and four reads of
    [USISR] made. *)
Definition TWI_started {tgt : target} (buf : list Z) (n : Z)
  (pins : list Z) (s : machine) : machine :=
  let scl := Z.shiftl 1 PIN_TWI_SCL in
  let sda := Z.shiftl 1 PIN_TWI_SDA in
  let p1 := u8 (Z.lor (PORT_TWI s) scl) in
  let p2 := u8 (Z.land p1 (Z.lnot sda)) in
  let p3 := u8 (Z.land p2 (Z.lnot scl)) in
  let p4 := u8 (Z.lor p3 sda) in
  set_USISR_rd (skipn 4 (USISR_rd s))
    (set_PORT_TWI p4
       (set_trace ((trace s ++ [EvCall buf (u8 n)]) ++ [EvStart])
          (set_PIN_TWI_rd pins
             (set_TWI_state
                (if Z.testbit (sel 0 buf) TWI_READ_BIT then 1 else 3) s)))).

(** The bus as a transfer of [n] bytes finds it when the transfer goes
    through and the remote device acknowledges: no flag pending in
    [USISR] at entry, SCL released, the start condition detected, the
    bits of the [n] bytes and of their acknowledgements clocked, SCL
    released again for the stop condition, and a 0 on the
    acknowledgement bit of each of the first [acks] bytes. *)
Definition bus_answers {tgt : target} (n acks : nat) (s : machine) : Prop :=
  exists (f1 f2 f3 f4 : Z) (flags pins flags' pins' pins'' : list Z),
    USISR_rd s = f1 :: f2 :: f3 :: f4 :: flags /\
    Z.testbit f1 USISIF = false /\
    Z.testbit f2 USIPF = false /\
    Z.testbit f3 USIDC = false /\
    Z.testbit f4 USISIF = true /\
    SCL_high (PIN_TWI_rd s) = Some pins /\
    clockings (2 * n) flags pins = Some (flags', pins') /\
    SCL_high pins' = Some pins'' /\
    forall j, (j < acks)%nat ->
      Z.testbit (nth (2 * j + 1) (USIDR_rd s) 0) TWI_NACK_BIT = false.

(** ** Concrete machines

    The ATtiny25/45/85 block of [twi.h] with the [RAMEND] of the
    ATtiny85, and a machine whose bus behaviour is given by the three
    read scripts. *)

#[local] Instance attiny85 : target :=
  {| RAMEND := 0x25F; PIN_TWI_SDA := 0; PIN_TWI_SCL := 2 |}.

Definition midnight : time := mk_time 0 0 0 1 1 0 1 true 0.

Definition machine_on (pins flags data : list Z) (stack : list Z) : machine :=
  {| PORT_TWI := 0x05; DDR_TWI := 0x05; USIDR := 0xFF; USISR := 0; USICR := 0;
     PIN_TWI_rd := pins; USISR_rd := flags; USIDR_rd := data;
     TWI_state := 0; _time := midnight; frame := 0x200; junk := stack;
     mem := fun _ => 0; trace := [] |}.

(** The [USISR] reads of a transfer that goes through all its [n]
    bytes: no flag at entry, the start condition detected, one
    overflow per clocking, the stop condition detected. *)
Definition flags_of_transfer (n : nat) : list Z :=
  [0; 0; 0; 0x80] ++ repeat 0x40 (2 * n) ++ [0x20].

(** The [USISR] reads of a transfer whose address byte is not
    acknowledged. *)
Definition flags_of_refusal : list Z := [0; 0; 0; 0x80; 0x40; 0x40].

(** A bus on which no device answers, for [n] transfers: SCL follows
    the master, every clocking ends at once and every byte reads back
    as 0xFF, the level of the released line. *)
Definition silent_bus (n : nat) (stack : list Z) : machine :=
  machine_on (repeat 0xFF (3 * n)) (concat (repeat flags_of_refusal n))
             (repeat 0xFF (2 * n)) stack.

(** * Properties *)

(** C9. For every decimal value [d] in 0..99, [bcd2dec (dec2bcd d) = d]. *)
Theorem bcd_roundtrip (d : Z) (Hd : 0 <= d <= 99) : bcd2dec (dec2bcd d) = d.
Proof.
  unfold bcd2dec, dec2bcd, u8.
  assert (Hq : 0 <= d / 10 <= 9).
  { split; [apply Z.div_pos; lia |].
    assert (d / 10 < 10) by (apply Z.div_lt_upper_bound; lia). lia. }
  assert (Hr : 0 <= d mod 10 < 10) by (apply Z.mod_pos_bound; lia).
  pose proof (Z.div_mod d 10 ltac:(lia)) as Hdm.
  rewrite (Z.mod_small (d / 10 * 16 + d mod 10)) by lia.
  replace (d / 10 * 16 + d mod 10) with (d mod 10 + d / 10 * 16) by lia.
  rewrite Z.div_add by lia. rewrite Z.mod_add by lia.
  rewrite (Z.div_small (d mod 10)) by lia.
  rewrite (Z.mod_small (d mod 10) 16) by lia.
  rewrite Z.mod_small by lia. lia.
Qed.

Lemma bcd_roundtrip_witness : 0 <= 59 <= 99 /\ bcd2dec (dec2bcd 59) = 59.
Proof. split; [lia | apply (bcd_roundtrip 59); lia]. Defined.
(** ** Bits *)

Lemma bit_test (x n : Z) :
  0 <= n -> to_bool (Z.land x (Z.shiftl 1 n)) = Z.testbit x n.
Proof.
  intros Hn. unfold to_bool.
  destruct (Z.testbit x n) eqn:E.
  - destruct (Z.land x (Z.shiftl 1 n) =? 0) eqn:E0; [|reflexivity].
    apply Z.eqb_eq in E0.
    assert (Hb : Z.testbit (Z.land x (Z.shiftl 1 n)) n = true).
    { rewrite Z.land_spec, E, Z.shiftl_spec by lia.
      rewrite Z.sub_diag. reflexivity. }
    rewrite E0, Z.bits_0 in Hb. discriminate.
  - replace (Z.land x (Z.shiftl 1 n)) with 0; [reflexivity|].
    symmetry. apply Z.bits_inj'. intros i Hi.
    rewrite Z.bits_0, Z.land_spec, Z.shiftl_spec by lia.
    destruct (Z.eq_dec i n) as [->|Hne].
    + rewrite E. reflexivity.
    + rewrite Bool.andb_false_iff. right.
      destruct (Z.lt_ge_cases i n).
      * apply Z.testbit_neg_r. lia.
      * change 1 with (2 ^ 0).
        rewrite Z.pow2_bits_eqb by lia. apply Z.eqb_neq. lia.
Qed.

Lemma u8_range (x : Z) : 0 <= u8 x < 256.
Proof. unfold u8. apply Z.mod_pos_bound. lia. Qed.

Lemma u8_bits (x i : Z) :
  Z.testbit (u8 x) i = (i <? 8) && Z.testbit x i.
Proof.
  unfold u8. change 256 with (2 ^ 8).
  destruct (Z.ltb_spec i 8).
  - destruct (Z.lt_ge_cases i 0).
    + rewrite !Z.testbit_neg_r by lia. reflexivity.
    + rewrite Z.mod_pow2_bits_low by lia. reflexivity.
  - rewrite Z.mod_pow2_bits_high by lia. reflexivity.
Qed.

(** ** The bus layer leaves the driver's data alone *)

Lemma same_data_refl (s : machine) : same_data s s.
Proof. repeat split. Qed.

Lemma same_data_trans (s1 s2 s3 : machine) :
  same_data s1 s2 -> same_data s2 s3 -> same_data s1 s3.
Proof.
  unfold same_data. intros (?&?&?&?) (?&?&?&?). repeat split; congruence.
Qed.

Section BusFrame.
Context {tgt : target}.

Lemma respects_ret {A : Type} (a : A) : respects same_data (ret a).
Proof. intros s. apply same_data_refl. Qed.

Lemma respects_get {A : Type} (f : machine -> A) : respects same_data (get f).
Proof. intros s. apply same_data_refl. Qed.

Lemma respects_bind {A B : Type} (m : M A) (k : A -> M B) :
  respects same_data m -> (forall a, respects same_data (k a)) ->
  respects same_data (bind m k).
Proof.
  intros Hm Hk s. unfold bind. specialize (Hm s).
  destruct (m s) as [a s1| |]; [|exact I|exact Hm].
  specialize (Hk a s1). destruct (k a s1); [|exact I|exact Hk].
  eapply same_data_trans; eassumption.
Qed.

Lemma respects_modify (f : machine -> machine) :
  (forall s, same_data s (f s)) -> respects same_data (modify f).
Proof. intros Hf s. apply Hf. Qed.

Lemma respects_read_USISR : respects same_data read_USISR.
Proof. intros s. repeat split. Qed.

Lemma respects_read_USIDR : respects same_data read_USIDR.
Proof. intros s. repeat split. Qed.

Lemma respects_wait_SCL : respects same_data wait_SCL.
Proof.
  intros s. unfold wait_SCL.
  destruct (SCL_high (PIN_TWI_rd s)); [repeat split | exact I].
Qed.

Lemma respects_pulse_clock (temp : Z) : respects same_data (pulse_clock temp).
Proof.
  intros s. unfold pulse_clock.
  destruct (clock_edges (USISR_rd s) (PIN_TWI_rd s)) as [[f p]|];
    [repeat split | exact I].
Qed.

Create HintDb bus.
#[local] Hint Resolve respects_ret respects_get respects_read_USISR
  respects_read_USIDR respects_wait_SCL respects_pulse_clock : bus.

Ltac bus_frame :=
  repeat first
    [ solve [auto with bus]
    | lazymatch goal with
      | |- respects _ (bind _ _) => apply respects_bind; [| intros ]
      | |- respects _ (modify _) =>
        apply respects_modify; intros; repeat split
      | |- respects _ (if ?c then _ else _) => destruct c
      | |- respects _ (match ?x with _ => _ end) => destruct x
      end ].

Lemma respects_TWI_master_transfer (temp : Z) :
  respects same_data (TWI_master_transfer temp).
Proof. unfold TWI_master_transfer, DDR_TWI_or, log. bus_frame. Qed.

Lemma respects_TWI_master_stop : respects same_data TWI_master_stop.
Proof.
  unfold TWI_master_stop, PORT_TWI_or, PORT_TWI_and, log. bus_frame.
Qed.

#[local] Hint Resolve respects_TWI_master_transfer
  respects_TWI_master_stop : bus.

Lemma respects_TWI_turn (msg : list Z) (i : nat) (n : Z) :
  respects same_data (TWI_turn msg i n).
Proof. unfold TWI_turn, PORT_TWI_and, DDR_TWI_and. bus_frame. Qed.

#[local] Hint Resolve respects_TWI_turn : bus.

Lemma respects_TWI_loop (turns : nat) :
  forall msg i n, respects same_data (TWI_loop turns msg i n).
Proof.
  induction turns as [|k IH]; intros msg i n; simpl.
  - intros s. exact I.
  - bus_frame.
Qed.

#[local] Hint Resolve respects_TWI_loop : bus.

Lemma respects_TWI_start_transceiver_with_data (msg : Z) (buf : list Z)
  (n : Z) : respects same_data (TWI_start_transceiver_with_data msg buf n).
Proof.
  unfold TWI_start_transceiver_with_data, PORT_TWI_or, PORT_TWI_and, log.
  bus_frame.
Qed.

Lemma TWI_keeps_data (msg : Z) (buf : list Z) (n : Z) (s s' : machine)
  (x : Z * list Z) :
  TWI_start_transceiver_with_data msg buf n s = Done x s' -> same_data s s'.
Proof.
  intros H.
  pose proof (respects_TWI_start_transceiver_with_data msg buf n s) as R.
  rewrite H in R. exact R.
Qed.

Lemma TWI_no_fault (msg : Z) (buf : list Z) (n : Z) (s : machine) :
  TWI_start_transceiver_with_data msg buf n s <> Fault.
Proof.
  intros H.
  pose proof (respects_TWI_start_transceiver_with_data msg buf n s) as R.
  rewrite H in R. exact R.
Qed.

End BusFrame.

(** ** What one transfer and one turn of the loop do *)

Section BusSteps.
Context {tgt : target}.

Lemma TWI_master_transfer_hang (temp : Z) (s : machine) :
  clock_edges (USISR_rd s) (PIN_TWI_rd s) = None ->
  TWI_master_transfer temp s = Hang.
Proof.
  intros H. unfold TWI_master_transfer, bind, get, modify, pulse_clock.
  cbn. rewrite H. reflexivity.
Qed.

Lemma TWI_master_transfer_done (temp : Z) (s : machine) (f p : list Z) :
  clock_edges (USISR_rd s) (PIN_TWI_rd s) = Some (f, p) ->
  exists s',
    TWI_master_transfer temp s = Done (fst (next (USIDR_rd s))) s' /\
    USISR_rd s' = f /\ PIN_TWI_rd s' = p /\
    USIDR_rd s' = snd (next (USIDR_rd s)) /\
    TWI_state s' = TWI_state s /\
    trace s' = trace s ++
      [EvTransfer temp (USIDR s) (DDR_TWI s) (fst (next (USIDR_rd s)))] /\
    same_data s s'.
Proof.
  intros H. unfold TWI_master_transfer, bind, get, modify, pulse_clock,
    read_USIDR, DDR_TWI_or, log, modify, ret.
  cbn. rewrite H. cbn.
  eexists. split; [reflexivity|]. cbn. repeat split.
Qed.

Lemma TWI_master_transfer_inv (temp : Z) (s s' : machine) (a : Z) :
  TWI_master_transfer temp s = Done a s' ->
  TWI_state s' = TWI_state s /\ a = fst (next (USIDR_rd s)) /\
  USIDR_rd s' = snd (next (USIDR_rd s)).
Proof.
  intros H.
  destruct (clock_edges (USISR_rd s) (PIN_TWI_rd s)) as [[f p]|] eqn:E.
  - destruct (TWI_master_transfer_done temp s f p E)
      as (s1 & H1 & _ & _ & Hd & Hs & _).
    rewrite H1 in H. inversion H; subst. auto.
  - rewrite (TWI_master_transfer_hang temp s E) in H. discriminate.
Qed.

End BusSteps.

Section BusTurns.
Context {tgt : target}.

Lemma next_next (l : list Z) :
  fst (next (snd (next l))) = nth 1 l 0 /\
  snd (next (snd (next l))) = skipn 2 l.
Proof. destruct l as [|x [|y l]]; split; reflexivity. Qed.

(** A turn that sends a byte, when both of its transfers are clocked
    through: the acknowledgement bit is what the second read of
    [USIDR] returns. *)
Lemma TWI_turn_send (msg : list Z) (i : nat) (n : Z) (s : machine)
  (f1 p1 f2 p2 : list Z) :
  addressMode (TWI_state s) || masterWrite (TWI_state s) = true ->
  clock_edges (USISR_rd s) (PIN_TWI_rd s) = Some (f1, p1) ->
  clock_edges f1 p1 = Some (f2, p2) ->
  exists s' d1 d2 g,
    TWI_turn msg i n s =
      Done (if Z.testbit (nth 1 (USIDR_rd s) 0) TWI_NACK_BIT then inl 0
            else inr msg) s' /\
    USISR_rd s' = f2 /\ PIN_TWI_rd s' = p2 /\
    USIDR_rd s' = skipn 2 (USIDR_rd s) /\
    TWI_state s' =
      (if Z.testbit (nth 1 (USIDR_rd s) 0) TWI_NACK_BIT then
         if addressMode (TWI_state s) then TWI_NO_ACK_ON_ADDRESS
         else TWI_NO_ACK_ON_DATA
       else with_addressMode false (TWI_state s)) /\
    trace s' = trace s ++
      [EvTransfer tempUSISR_8bit (sel i msg) d1 g;
       EvTransfer tempUSISR_1bit 0xFF d2 (nth 1 (USIDR_rd s) 0)].
Proof.
  intros Hw H1 H2.
  destruct (next_next (USIDR_rd s)) as [Ha Hrest].
  unfold TWI_turn. unfold bind at 1. unfold get at 1. rewrite Hw.
  unfold PORT_TWI_and, DDR_TWI_and.
  unfold bind at 1. unfold modify at 1.
  unfold bind at 1. unfold modify at 1.
  set (s1 := set_USIDR _ _).
  assert (E1 : clock_edges (USISR_rd s1) (PIN_TWI_rd s1) = Some (f1, p1))
    by exact H1.
  destruct (TWI_master_transfer_done tempUSISR_8bit s1 f1 p1 E1)
    as (s2 & R2 & F2 & P2 & D2 & S2 & T2 & _).
  unfold bind at 1. rewrite R2.
  unfold bind at 1. unfold modify at 1.
  set (s3 := set_DDR_TWI _ s2).
  assert (E3 : clock_edges (USISR_rd s3) (PIN_TWI_rd s3) = Some (f2, p2)).
  { subst s3. cbn. rewrite F2, P2. exact H2. }
  destruct (TWI_master_transfer_done tempUSISR_1bit s3 f2 p2 E3)
    as (s4 & R4 & F4 & P4 & D4 & S4 & T4 & _).
  unfold bind at 1. rewrite R4.
  assert (Hgot : fst (next (USIDR_rd s3)) = nth 1 (USIDR_rd s) 0).
  { subst s3. cbn. rewrite D2. subst s1. cbn. exact Ha. }
  rewrite Hgot. rewrite bit_test by (unfold TWI_NACK_BIT; lia).
  assert (Hst : TWI_state s4 = TWI_state s).
  { rewrite S4. subst s3. cbn. rewrite S2. reflexivity. }
  assert (Hd : USIDR_rd s4 = skipn 2 (USIDR_rd s)).
  { rewrite D4. subst s3. cbn. rewrite D2. subst s1. cbn. exact Hrest. }
  assert (Ht : trace s4 = trace s ++
      [EvTransfer tempUSISR_8bit (sel i msg) (DDR_TWI s1)
         (fst (next (USIDR_rd s1)));
       EvTransfer tempUSISR_1bit 0xFF (DDR_TWI s3) (nth 1 (USIDR_rd s) 0)]).
  { rewrite T4, Hgot. subst s3. cbn. rewrite T2. subst s1. cbn.
    rewrite <- app_assoc. cbn.
    assert (U : USIDR s2 = 0xFF).
    { clear - R2. unfold TWI_master_transfer, bind, get, modify, pulse_clock,
        read_USIDR, DDR_TWI_or, log, modify, ret in R2. cbn in R2.
      destruct (clock_edges _ _) as [[? ?]|]; [|discriminate].
      cbn in R2. inversion R2. reflexivity. }
    rewrite U. reflexivity. }
  exists (if Z.testbit (nth 1 (USIDR_rd s) 0) TWI_NACK_BIT then
            set_TWI_state (if addressMode (TWI_state s)
                           then TWI_NO_ACK_ON_ADDRESS
                           else TWI_NO_ACK_ON_DATA) s4
          else set_TWI_state (with_addressMode false (TWI_state s)) s4).
  exists (DDR_TWI s1), (DDR_TWI s3), (fst (next (USIDR_rd s1))).
  destruct (Z.testbit (nth 1 (USIDR_rd s) 0) TWI_NACK_BIT).
  - unfold bind, get, modify, ret. rewrite Hst.
    destruct (addressMode (TWI_state s)); cbn; repeat split; assumption.
  - unfold bind, modify, ret. rewrite Hst. cbn. repeat split; assumption.
Qed.

(** What a returned turn tells. *)
Lemma TWI_turn_inv (msg : list Z) (i : nat) (n : Z) (s s' : machine)
  (r : Z + list Z) :
  TWI_turn msg i n s = Done r s' ->
  match r with
  | inl v =>
    v = 0 /\ addressMode (TWI_state s) || masterWrite (TWI_state s) = true
  | inr msg' =>
    if addressMode (TWI_state s) || masterWrite (TWI_state s)
    then msg' = msg /\ TWI_state s' = with_addressMode false (TWI_state s)
    else TWI_state s' = TWI_state s
  end.
Proof.
  unfold TWI_turn. unfold bind at 1. unfold get at 1.
  destruct (addressMode (TWI_state s) || masterWrite (TWI_state s)) eqn:Hw.
  - unfold PORT_TWI_and, DDR_TWI_and.
    unfold bind at 1. unfold modify at 1.
    unfold bind at 1. unfold modify at 1.
    set (s1 := set_USIDR _ _).
    unfold bind at 1.
    destruct (TWI_master_transfer tempUSISR_8bit s1) as [g s2| |] eqn:R2;
      try discriminate.
    unfold bind at 1. unfold modify at 1.
    set (s3 := set_DDR_TWI _ s2).
    unfold bind at 1.
    destruct (TWI_master_transfer tempUSISR_1bit s3) as [a s4| |] eqn:R4;
      try discriminate.
    apply TWI_master_transfer_inv in R2. destruct R2 as (S2 & _ & _).
    apply TWI_master_transfer_inv in R4. destruct R4 as (S4 & _ & _).
    assert (Hst : TWI_state s4 = TWI_state s).
    { rewrite S4. subst s3. cbn. rewrite S2. reflexivity. }
    destruct (to_bool (Z.land a (Z.shiftl 1 TWI_NACK_BIT))).
    + unfold bind, get, modify, ret. 
      destruct (addressMode (TWI_state s4)); intros H; inversion H; subst;
        auto.
    + unfold bind, modify, ret. intros H. inversion H; subst.
      cbn. rewrite Hst. auto.
  - unfold DDR_TWI_and.
    unfold bind at 1. unfold modify at 1.
    set (s1 := set_DDR_TWI _ _).
    unfold bind at 1.
    destruct (TWI_master_transfer tempUSISR_8bit s1) as [g s2| |] eqn:R2;
      try discriminate.
    apply TWI_master_transfer_inv in R2. destruct R2 as (S2 & _ & _).
    unfold bind at 1.
    assert (Hm : forall v, exists s3, modify (set_USIDR v) s2 = Done tt s3 /\
                   TWI_state s3 = TWI_state s).
    { intros v. eexists. split; [reflexivity|]. cbn. rewrite S2. reflexivity. }
    destruct (n =? 1).
    + destruct (Hm 0xFF) as (s3 & -> & S3).
      unfold bind at 1.
      destruct (TWI_master_transfer tempUSISR_1bit s3) as [a s4| |] eqn:R4;
        try discriminate.
      apply TWI_master_transfer_inv in R4. destruct R4 as (S4 & _ & _).
      unfold ret. intros H. inversion H; subst. congruence.
    + destruct (Hm 0x00) as (s3 & -> & S3).
      unfold bind at 1.
      destruct (TWI_master_transfer tempUSISR_1bit s3) as [a s4| |] eqn:R4;
        try discriminate.
      apply TWI_master_transfer_inv in R4. destruct R4 as (S4 & _ & _).
      unfold ret. intros H. inversion H; subst. congruence.
Qed.

End BusTurns.

Section BusFailure.
Context {tgt : target}.

(** Once the loop receives, it cannot fail any more. *)
Lemma TWI_loop_receiving (turns : nat) :
  forall msg i n s v msg' s',
    addressMode (TWI_state s) || masterWrite (TWI_state s) = false ->
    TWI_loop turns msg i n s = Done (v, msg') s' -> v = 1.
Proof.
  induction turns as [|k IH]; intros msg i n s v msg' s' Hw; simpl.
  - discriminate.
  - unfold bind at 1.
    destruct (TWI_turn msg i n s) as [r s1| |] eqn:T; try discriminate.
    apply TWI_turn_inv in T. rewrite Hw in T.
    destruct r as [x|msg1].
    + destruct T as [_ T]. discriminate.
    + destruct (to_bool (u8 (n - 1))).
      * apply IH. rewrite T. exact Hw.
      * unfold bind.
        destruct (TWI_master_stop s1); try discriminate.
        unfold ret. intros H. inversion H. reflexivity.
Qed.

(** A loop that returns 0 has not written into the buffer. *)
Lemma TWI_loop_failure (turns : nat) :
  forall msg i n s msg' s',
    TWI_loop turns msg i n s = Done (0, msg') s' -> msg' = msg.
Proof.
  induction turns as [|k IH]; intros msg i n s msg' s'; simpl.
  - discriminate.
  - unfold bind at 1.
    destruct (TWI_turn msg i n s) as [r s1| |] eqn:T; try discriminate.
    apply TWI_turn_inv in T.
    destruct r as [x|msg1].
    + unfold ret. intros H. inversion H. reflexivity.
    + destruct (addressMode (TWI_state s) || masterWrite (TWI_state s)) eqn:Hw.
      * destruct T as [-> T].
        destruct (to_bool (u8 (n - 1))).
        -- apply IH.
        -- unfold bind. destruct (TWI_master_stop s1); discriminate.
      * destruct (to_bool (u8 (n - 1))).
        -- intros H. apply TWI_loop_receiving in H; [discriminate|].
           rewrite T. exact Hw.
        -- unfold bind. destruct (TWI_master_stop s1); discriminate.
Qed.

(** A transfer that returns 0 leaves the buffer as it was passed. *)
Lemma TWI_failure_keeps_buffer (msg : Z) (buf : list Z) (n : Z)
  (s s' : machine) (buf' : list Z) :
  TWI_start_transceiver_with_data msg buf n s = Done (0, buf') s' ->
  buf' = buf.
Proof.
  unfold TWI_start_transceiver_with_data, log, PORT_TWI_or, PORT_TWI_and.
  repeat (unfold bind at 1; unfold modify at 1).
  destruct (msg >? RAMEND).
  { unfold bind, modify, ret. intros H. inversion H. reflexivity. }
  destruct (u8 n <=? 1).
  { unfold bind, modify, ret. intros H. inversion H. reflexivity. }
  unfold bind at 1. unfold read_USISR at 1.
  destruct (to_bool _).
  { unfold bind, modify, ret. intros H. inversion H. reflexivity. }
  unfold bind at 1. unfold read_USISR at 1.
  destruct (to_bool _).
  { unfold bind, modify, ret. intros H. inversion H. reflexivity. }
  unfold bind at 1. unfold read_USISR at 1.
  destruct (to_bool _).
  { unfold bind, modify, ret. intros H. inversion H. reflexivity. }
  unfold bind at 1.
  destruct (negb (to_bool (Z.land (sel 0 buf) (Z.shiftl 1 TWI_READ_BIT))));
    [cbv beta | unfold ret at 1];
    repeat (unfold bind at 1; unfold modify at 1);
    unfold wait_SCL at 1;
    (destruct (SCL_high _); [|discriminate]);
    repeat (unfold bind at 1; unfold modify at 1);
    unfold read_USISR at 1;
    (destruct (negb _); [unfold bind, modify, ret; discriminate|]);
  apply TWI_loop_failure.
Qed.

End BusFailure.

(** ** ds3231.c against the status the bus layer returns *)

Lemma to_bool_nonzero (r : Z) : r <> 0 -> to_bool r = true.
Proof.
  intros H. unfold to_bool. destruct (r =? 0) eqn:E; [|reflexivity].
  apply Z.eqb_eq in E. contradiction.
Qed.

Section DriverStatus.
Context {tgt : target}.

(** C1 (the code departs from the claim).  When the pointer-set
    transfer of [ds3231_get_time] completes and the bus layer returns
    TRUE, [ds3231_get_time] returns FALSE at once and leaves [_time] and
    the caller's struct as they were; the same when the first transfer
    fails and the 8-byte read completes.  Only when both transfers have
    failed does it return TRUE, and then it stores what the buffer
    decodes to although nothing was read into it. *)
Theorem ds3231_get_time_inverts_bus_status (time_ : time)
  (s s1 : machine) (r1 : Z) (b1 : list Z) :
  TWI_start_transceiver_with_data (frame s)
    (upd 1 SECDR (upd 0 WRITE_ADD (local_array 8 s))) 2 s = Done (r1, b1) s1 ->
  (r1 <> 0 ->
   ds3231_get_time time_ s = Done (0, time_) s1 /\ _time s1 = _time s) /\
  (r1 = 0 ->
   forall (r2 : Z) (b2 : list Z) (s2 : machine),
     TWI_start_transceiver_with_data (frame s) (upd 0 READ_ADD b1) 8 s1
       = Done (r2, b2) s2 ->
     (r2 <> 0 ->
      ds3231_get_time time_ s = Done (0, time_) s2 /\ _time s2 = _time s) /\
     (r2 = 0 ->
      b2 = upd 0 READ_ADD (upd 1 SECDR (upd 0 WRITE_ADD (local_array 8 s))) /\
      ds3231_get_time time_ s =
        Done (1, time_of_registers b2)
             (set__time (time_of_registers b2) s2))).
Proof.
  intros H1.
  pose proof (TWI_keeps_data _ _ _ _ _ _ H1) as (T1 & _ & _ & _).
  split.
  - intros Hr. split; [|exact T1].
    unfold ds3231_get_time, bind, get, alloca. cbn beta. unfold get.
    rewrite H1, (to_bool_nonzero r1 Hr). reflexivity.
  - intros -> r2 b2 s2 H2.
    pose proof (TWI_keeps_data _ _ _ _ _ _ H2) as (T2 & _ & _ & _).
    assert (E : ds3231_get_time time_ s =
                if to_bool r2 then Done (0, time_) s2
                else Done (1, time_of_registers b2)
                          (set__time (time_of_registers b2) s2)).
    { unfold ds3231_get_time, bind, get, alloca. cbn beta. unfold get.
      rewrite H1. cbv beta iota. change (to_bool 0) with false.
      cbv beta iota. rewrite H2. destruct (to_bool r2); reflexivity. }
    split.
    + intros Hr. rewrite E, (to_bool_nonzero r2 Hr). split; congruence.
    + intros ->. split; [|exact E].
      apply TWI_failure_keeps_buffer in H1, H2. subst. reflexivity.
Qed.

End DriverStatus.


(** ** Out-parameters *)

(** [if (p) *p = v;] never faults: it writes [v] at [p] when [p] is
    not null and nothing otherwise. *)
Lemma guarded_store (p v : Z) (s : machine) :
  exists s',
    (if to_bool p then store8 p v else ret tt) s = Done tt s' /\
    s' = set_mem (mem s') s /\
    (p <> 0 -> mem s' p = v) /\
    (forall a, a <> p -> mem s' a = mem s a) /\
    mem s' 0 = mem s 0.
Proof.
  unfold to_bool, store8, ret. destruct (p =? 0) eqn:E; cbn.
  - apply Z.eqb_eq in E. subst p. exists s.
    repeat split; try reflexivity; try contradiction.
    destruct s; reflexivity.
  - apply Z.eqb_neq in E. eexists. split; [reflexivity|].
    cbn [mem set_mem]. repeat split.
    + intros _. rewrite Z.eqb_refl. reflexivity.
    + intros a Ha. destruct (a =? p) eqn:Ea; [|reflexivity].
      apply Z.eqb_eq in Ea. contradiction.
    + destruct (0 =? p) eqn:E0; [|reflexivity].
      apply Z.eqb_eq in E0. congruence.
Qed.

Lemma bind_inv {A B : Type} (m : M A) (k : A -> M B) (s s' : machine) (b : B) :
  bind m k s = Done b s' ->
  exists a s1, m s = Done a s1 /\ k a s1 = Done b s'.
Proof.
  unfold bind. destruct (m s) as [a s1| |]; try discriminate.
  intros H. exists a, s1. auto.
Qed.

Lemma store8_inv (p v : Z) (s s' : machine) (u : unit) :
  store8 p v s = Done u s' ->
  p <> 0 /\ mem s' p = v /\ (forall q, q <> p -> mem s' q = mem s q) /\
  s' = set_mem (mem s') s.
Proof.
  unfold store8. destruct (p =? 0) eqn:E; [discriminate|].
  apply Z.eqb_neq in E. intros H. inversion H; subst. cbn [mem set_mem].
  repeat split.
  - exact E.
  - rewrite Z.eqb_refl. reflexivity.
  - intros q Hq. destruct (q =? p) eqn:Eq; [|reflexivity].
    apply Z.eqb_eq in Eq. contradiction.
Qed.

Lemma local_array_length (n : nat) (s : machine) :
  length (local_array n s) = n.
Proof.
  unfold local_array. rewrite length_firstn, length_app, repeat_length. lia.
Qed.

Lemma local_array_2 (s : machine) :
  local_array 2 s = [sel 0 (local_array 2 s); sel 1 (local_array 2 s)].
Proof.
  pose proof (local_array_length 2 s) as L.
  destruct (local_array 2 s) as [|x [|y [|z l]]]; try discriminate.
  reflexivity.
Qed.

Section DriverFlags.
Context {tgt : target}.

(** C5 (the code departs from the claim).  The one transfer
    [ds3231_check_alarm] makes starts with the byte [STSDR] (0x0F) where
    the slave address belongs, the second assignment to [msgBuf[0]]
    having replaced [WRITE_ADD]; byte 1 of the buffer is never assigned.
    When that transfer completes the function returns FALSE and leaves
    [*active] alone.  When it fails the function returns TRUE and sets
    [*active] from the bit of the unassigned [msgBuf[1]], which the
    failed transfer has not written.  No run reads the status register
    of the chip; none writes it either. *)
Theorem ds3231_check_alarm_reads_no_status (active alarm : Z)
  (s s1 : machine) (r : Z) (b : list Z) :
  0 <= alarm <= 1 ->
  TWI_start_transceiver_with_data (frame s)
    [STSDR; sel 1 (local_array 2 s)] 2 s = Done (r, b) s1 ->
  (r <> 0 ->
   ds3231_check_alarm active alarm s = Done 0 s1 /\ mem s1 = mem s) /\
  (r = 0 -> active <> 0 ->
   exists s' : machine,
     ds3231_check_alarm active alarm s = Done 1 s' /\
     s' = set_mem (mem s') s1 /\
     mem s' active = Z.b2z (alarm_flag alarm (sel 1 (local_array 2 s)))).
Proof.
  intros Ha H.
  assert (E : ds3231_check_alarm active alarm s =
              if to_bool r then Done 0 s1
              else (store8 active (Z.b2z (alarm_flag alarm (sel 1 b))) ;;
                    ret 1) s1).
  { unfold ds3231_check_alarm.
    replace (alarm >? 1) with false
      by (symmetry; rewrite Z.gtb_ltb; apply Z.ltb_ge; lia).
    unfold bind at 1. unfold get at 1. unfold bind at 1. unfold alloca at 1.
    unfold get at 1. rewrite (local_array_2 s).
    cbn [upd]. unfold bind at 1. cbn [sel nth] in H |- *. rewrite H.
    destruct (to_bool r); reflexivity. }
  split.
  - intros Hr. rewrite E, (to_bool_nonzero r Hr). split; [reflexivity|].
    apply (TWI_keeps_data _ _ _ _ _ _ H).
  - intros -> Hp. apply TWI_failure_keeps_buffer in H as Hb. subst b.
    rewrite E. change (to_bool 0) with false. cbv iota.
    unfold bind, store8, ret.
    destruct (active =? 0) eqn:E0; [apply Z.eqb_eq in E0; contradiction|].
    eexists. split; [reflexivity|]. cbn [mem set_mem]. split; [reflexivity|].
    rewrite Z.eqb_refl. reflexivity.
Qed.

End DriverFlags.

Lemma shiftl_1_bits (a i : Z) :
  0 <= a -> Z.testbit (Z.shiftl 1 a) i = (a =? i).
Proof.
  intros Ha. rewrite Z.shiftl_1_l. apply Z.pow2_bits_eqb. exact Ha.
Qed.

(** The value [ds3231_get_alarm_s] computes for [*intrpt] tells whether
    a bit of the control byte other than the alarm's own is set. *)
Lemma intrpt_of_control_spec (alarm b : Z) :
  0 <= alarm -> 0 <= b ->
  (intrpt_of_control alarm b = true <->
   exists i, 0 <= i /\ i <> alarm /\ Z.testbit b i = true).
Proof.
  intros Ha Hb. unfold intrpt_of_control, to_bool.
  set (x := Z.land b (Z.lnot (Z.shiftl 1 alarm))).
  assert (Hx : forall i, 0 <= i ->
            Z.testbit x i = Z.testbit b i && negb (alarm =? i)).
  { intros i Hi. subst x.
    rewrite Z.land_spec, Z.lnot_spec, shiftl_1_bits by lia. reflexivity. }
  split.
  - intros H. destruct (x =? 0) eqn:E; [discriminate|].
    apply Z.eqb_neq in E.
    assert (Hpos : 0 < x).
    { assert (0 <= x) by (subst x; apply Z.land_nonneg; left; exact Hb). lia. }
    exists (Z.log2 x).
    pose proof (Z.log2_nonneg x) as Hl.
    pose proof (Z.bit_log2 x Hpos) as Hbit.
    rewrite Hx in Hbit by exact Hl.
    apply Bool.andb_true_iff in Hbit. destruct Hbit as [B1 B2].
    apply Bool.negb_true_iff, Z.eqb_neq in B2.
    repeat split; [exact Hl | congruence | exact B1].
  - intros (i & Hi & Hne & Hbit).
    destruct (x =? 0) eqn:E; [|reflexivity].
    apply Z.eqb_eq in E.
    assert (B : Z.testbit x i = true).
    { rewrite Hx by exact Hi. rewrite Hbit.
      apply Bool.andb_true_iff. split; [reflexivity|].
      apply Bool.negb_true_iff, Z.eqb_neq. congruence. }
    rewrite E, Z.bits_0 in B. discriminate.
Qed.

Section DriverInterrupt.
Context {tgt : target}.

(** The assignments after the last transfer of [ds3231_get_alarm_s]
    change no cell other than their five targets. *)
Lemma alarm_stores_frame (a : alarm_fields) (day hour min sec mode : Z)
  (s s' : machine) (r : Z) :
  (match a_sec a with
   | Some v => store8 sec v
   | None => ret tt
   end ;;
   store8 min (a_min a) ;;
   store8 hour (a_hour a) ;;
   store8 day (a_day a) ;;
   store8 mode (a_mode a) ;;
   ret 1) s = Done r s' ->
  forall q, q <> sec -> q <> min -> q <> hour -> q <> day -> q <> mode ->
            mem s' q = mem s q.
Proof.
  intros H q Q1 Q2 Q3 Q4 Q5.
  apply bind_inv in H. destruct H as (u1 & s1 & H1 & H).
  apply bind_inv in H. destruct H as (u2 & s2 & H2 & H).
  apply bind_inv in H. destruct H as (u3 & s3 & H3 & H).
  apply bind_inv in H. destruct H as (u4 & s4 & H4 & H).
  apply bind_inv in H. destruct H as (u5 & s5 & H5 & H).
  inversion H; subst.
  apply store8_inv in H2, H3, H4, H5.
  destruct H2 as (_ & _ & F2 & _). destruct H3 as (_ & _ & F3 & _).
  destruct H4 as (_ & _ & F4 & _). destruct H5 as (_ & _ & F5 & _).
  rewrite F5, F4, F3, F2 by assumption.
  destruct (a_sec a).
  - apply store8_inv in H1. destruct H1 as (_ & _ & F1 & _). auto.
  - inversion H1. reflexivity.
Qed.

(** C4 (the code departs from the claim).  [ds3231_get_alarm_s]
    computes [*intrpt] as [msgBuf[1] & ~(1 << alarm)]: the result is
    true exactly when a bit other than the selected alarm's
    interrupt-enable bit is set.  With only A1IE set (0x01) alarm 1 is
    reported disabled, with only A2IE set (0x02) it is reported
    enabled.  Besides, a control byte does not reach this computation:
    when the read of the control register completes the function
    returns FALSE without assigning [*intrpt], and when the pointer-set
    and the read have both failed byte 1 of the buffer still holds
    [CTRDR], so that [*intrpt] is set to TRUE. *)
Theorem ds3231_get_alarm_s_interrupt_flag (day hour min sec alarm mode
  intrpt : Z) (s s1 : machine) (b1 : list Z) :
  0 <= alarm <= 1 ->
  TWI_start_transceiver_with_data (frame s)
    (upd 1 CTRDR (upd 0 WRITE_ADD
       (local_array (if alarm =? ALARM_1 then 5 else 4) s))) 2 s
    = Done (0, b1) s1 ->
  (forall b : Z, 0 <= b ->
     (intrpt_of_control alarm b = true <->
      exists i, 0 <= i /\ i <> alarm /\ Z.testbit b i = true)) /\
  intrpt_of_control ALARM_1 0x01 = false /\
  intrpt_of_control ALARM_1 0x02 = true /\
  (forall (r2 : Z) (b2 : list Z) (s2 : machine),
     TWI_start_transceiver_with_data (frame s) (upd 0 READ_ADD b1) 2 s1
       = Done (r2, b2) s2 ->
     (r2 <> 0 ->
      ds3231_get_alarm_s day hour min sec alarm mode intrpt s = Done 0 s2 /\
      mem s2 = mem s) /\
     (r2 = 0 ->
      sel 1 b2 = CTRDR /\
      forall (r : Z) (s' : machine),
        ds3231_get_alarm_s day hour min sec alarm mode intrpt s = Done r s' ->
        intrpt <> sec -> intrpt <> min -> intrpt <> hour -> intrpt <> day ->
        intrpt <> mode ->
        mem s' intrpt = Z.b2z (intrpt_of_control alarm (sel 1 b2)) /\
        mem s' intrpt = 1)).
Proof.
  intros Ha H1.
  split; [intros b Hb; apply intrpt_of_control_spec; lia|].
  split; [reflexivity|]. split; [reflexivity|].
  intros r2 b2 s2 H2.
  assert (G : (alarm >? 1) = false)
    by (rewrite Z.gtb_ltb; apply Z.ltb_ge; lia).
  destruct (TWI_keeps_data _ _ _ _ _ _ H1) as (_ & M1 & _).
  destruct (TWI_keeps_data _ _ _ _ _ _ H2) as (_ & M2 & _).
  assert (Len : exists x0 x1 rest,
            local_array (if alarm =? ALARM_1 then 5 else 4) s
            = x0 :: x1 :: rest).
  { pose proof (local_array_length (if alarm =? ALARM_1 then 5 else 4) s) as L.
    destruct (local_array _ s) as [|x0 [|x1 rest]].
    - destruct (alarm =? ALARM_1); discriminate.
    - destruct (alarm =? ALARM_1); discriminate.
    - eauto. }
  split.
  - intros Hr. split; [|congruence].
    unfold ds3231_get_alarm_s. rewrite G.
    unfold bind at 1. unfold get at 1. unfold bind at 1. unfold alloca at 1.
    unfold get at 1. unfold bind at 1. rewrite H1. cbv beta iota.
    change (to_bool 0) with false. cbv beta iota.
    unfold bind at 1. rewrite H2. cbv beta iota.
    rewrite (to_bool_nonzero r2 Hr). reflexivity.
  - intros ->.
    assert (B2 : sel 1 b2 = CTRDR).
    { apply TWI_failure_keeps_buffer in H1, H2. subst b2 b1.
      destruct Len as (x0 & x1 & rest & ->). reflexivity. }
    split; [exact B2|].
    intros r s' Hrun Q1 Q2 Q3 Q4 Q5.
    assert (V : mem s' intrpt = Z.b2z (intrpt_of_control alarm (sel 1 b2))).
    { revert Hrun. unfold ds3231_get_alarm_s. rewrite G.
      unfold bind at 1. unfold get at 1. unfold bind at 1. unfold alloca at 1.
      unfold get at 1. unfold bind at 1. rewrite H1. cbv beta iota.
      change (to_bool 0) with false. cbv beta iota.
      unfold bind at 1. rewrite H2. cbv beta iota.
      change (to_bool 0) with false. cbv beta iota.
      intros Hrun. apply bind_inv in Hrun.
      destruct Hrun as (u & s3 & Hst & Hrun).
      apply store8_inv in Hst. destruct Hst as (_ & V3 & _ & _).
      apply bind_inv in Hrun. destruct Hrun as ([r4 b4] & s4 & H4 & Hrun).
      destruct (TWI_keeps_data _ _ _ _ _ _ H4) as (_ & M4 & _).
      destruct (to_bool r4).
      { inversion Hrun; subst. rewrite M4. exact V3. }
      apply bind_inv in Hrun. destruct Hrun as ([r5 b5] & s5 & H5 & Hrun).
      destruct (TWI_keeps_data _ _ _ _ _ _ H5) as (_ & M5 & _).
      destruct (to_bool r5).
      { inversion Hrun; subst. rewrite M5, M4. exact V3. }
      rewrite (alarm_stores_frame _ _ _ _ _ _ _ _ _ Hrun) by assumption.
      rewrite M5, M4. exact V3. }
    split; [exact V|]. rewrite V, B2.
    assert (A : alarm = 0 \/ alarm = 1) by lia.
    destruct A as [-> | ->]; reflexivity.
Qed.

End DriverInterrupt.

(** ** Bit layout of the encoded registers *)

Lemma bits_above (v n i : Z) :
  0 <= v < 2 ^ n -> n <= i -> Z.testbit v i = false.
Proof.
  intros [H0 H1] Hi.
  destruct (Z.eq_dec v 0) as [->|Hv]; [apply Z.bits_0|].
  apply Z.bits_above_log2; [exact H0|].
  assert (Z.log2 v < n); [|lia].
  apply Z.log2_lt_pow2; lia.
Qed.

Lemma dec2bcd_bound (x k : Z) :
  0 <= x <= 10 * k + 9 -> k <= 15 -> 0 <= dec2bcd x <= 16 * k + 9.
Proof.
  intros Hx Hk. unfold dec2bcd, u8.
  assert (Hq : 0 <= x / 10 <= k).
  { split; [apply Z.div_pos; lia|].
    assert (x / 10 < k + 1) by (apply Z.div_lt_upper_bound; lia). lia. }
  assert (Hr : 0 <= x mod 10 < 10) by (apply Z.mod_pos_bound; lia).
  rewrite Z.mod_small by lia. lia.
Qed.

(** An encoded alarm register: the mask bit is the flag OR-ed in. *)
Lemma masked_register_bit7 (x : Z) (c : bool) :
  0 <= x <= 79 ->
  Z.testbit (u8 (Z.lor (dec2bcd x) (if c then 0x80 else 0x00))) 7 = c.
Proof.
  intros Hx. pose proof (dec2bcd_bound x 7 ltac:(lia) ltac:(lia)) as B.
  rewrite u8_bits, Z.lor_spec.
  rewrite (bits_above (dec2bcd x) 7 7) by (change (2 ^ 7) with 128; lia).
  destruct c; reflexivity.
Qed.

Lemma day_register_bits (x : Z) (c w : bool) :
  0 <= x <= 39 ->
  let r := u8 (Z.lor (Z.lor (dec2bcd x) (if c then 0x80 else 0x00))
                     (if w then 0x40 else 0x00)) in
  Z.testbit r 7 = c /\ Z.testbit r 6 = w.
Proof.
  intros Hx r. subst r.
  pose proof (dec2bcd_bound x 3 ltac:(lia) ltac:(lia)) as B.
  rewrite !u8_bits, !Z.lor_spec.
  rewrite (bits_above (dec2bcd x) 6 7) by (change (2 ^ 6) with 64; lia).
  rewrite (bits_above (dec2bcd x) 6 6) by (change (2 ^ 6) with 64; lia).
  destruct c, w; split; reflexivity.
Qed.

(** C6 (amended).  For alarm 1 and every mode, and for alarm 2 and the
    modes [ALARM_MIN_M] to [ALARM_WDAY_M], with the fields in their
    documented ranges, the buffer [ds3231_set_alarm_s] builds has the
    mask bit (bit 7) set in exactly the registers coarser than the
    granularity of the mode: the seconds register below [ALARM_SEC_M],
    the minutes register below [ALARM_MIN_M], the hours register below
    [ALARM_HOUR_M], the day register below [ALARM_MDAY_M].  For
    [ALARM_HOUR_M] that is the day register alone.  The day-type flag
    (bit 6 of the day register) is set only for [ALARM_WDAY_M]. *)
Theorem alarm_msg_mask_bits (day hour min sec mode : Z)
  (j0 j1 j2 j3 j4 j5 : Z) :
  0 <= day <= 31 -> 0 <= hour <= 23 -> 0 <= min <= 59 -> 0 <= sec <= 59 ->
  0 <= mode <= 255 ->
  let m1 := alarm_msg day hour min sec ALARM_1 mode [j0; j1; j2; j3; j4; j5] in
  let m2 := alarm_msg day hour min sec ALARM_2 mode [j0; j1; j2; j3; j4] in
  (Z.testbit (sel 2 m1) 7 = (mode <? ALARM_SEC_M) /\
   Z.testbit (sel 3 m1) 7 = (mode <? ALARM_MIN_M) /\
   Z.testbit (sel 4 m1) 7 = (mode <? ALARM_HOUR_M) /\
   Z.testbit (sel 5 m1) 7 = (mode <? ALARM_MDAY_M) /\
   Z.testbit (sel 5 m1) 6 = (mode =? ALARM_WDAY_M)) /\
  (ALARM_MIN_M <= mode <= ALARM_WDAY_M ->
   Z.testbit (sel 2 m2) 7 = (mode <? ALARM_MIN_M) /\
   Z.testbit (sel 3 m2) 7 = (mode <? ALARM_HOUR_M) /\
   Z.testbit (sel 4 m2) 7 = (mode <? ALARM_MDAY_M) /\
   Z.testbit (sel 4 m2) 6 = (mode =? ALARM_WDAY_M)) /\
  (mode = ALARM_HOUR_M ->
   Z.testbit (sel 2 m1) 7 = false /\ Z.testbit (sel 3 m1) 7 = false /\
   Z.testbit (sel 4 m1) 7 = false /\ Z.testbit (sel 5 m1) 7 = true).
Proof.
  intros Hd Hh Hm Hs Hmo m1 m2.
  assert (L : forall a b : Z, (mode <=? a) = (mode <? a + 1)).
  { intros a _. destruct (Z.leb_spec mode a), (Z.ltb_spec mode (a + 1));
      try reflexivity; lia. }
  assert (P1 :
    Z.testbit (sel 2 m1) 7 = (mode <? ALARM_SEC_M) /\
    Z.testbit (sel 3 m1) 7 = (mode <? ALARM_MIN_M) /\
    Z.testbit (sel 4 m1) 7 = (mode <? ALARM_HOUR_M) /\
    Z.testbit (sel 5 m1) 7 = (mode <? ALARM_MDAY_M) /\
    Z.testbit (sel 5 m1) 6 = (mode =? ALARM_WDAY_M)).
  { subst m1. unfold alarm_msg. change (ALARM_1 =? ALARM_1) with true.
    cbv iota. cbn [upd sel nth].
    rewrite !masked_register_bit7 by lia.
    destruct (day_register_bits day (mode <=? ALARM_HOUR_M)
                (mode =? ALARM_WDAY_M) ltac:(lia)) as [D7 D6].
    rewrite D7, D6. rewrite !(L _ 0).
    unfold ALARM_SEC, ALARM_SEC_M, ALARM_MIN_M, ALARM_HOUR_M, ALARM_MDAY_M.
    repeat split; try reflexivity.
    destruct (Z.eqb_spec mode 0), (Z.ltb_spec mode 1); try reflexivity; lia. }
  split; [exact P1|]. split.
  - intros Hmode. subst m2. unfold alarm_msg.
    change (ALARM_2 =? ALARM_1) with false. cbv iota. cbn [upd sel nth].
    rewrite !masked_register_bit7 by lia.
    destruct (day_register_bits day (mode <=? ALARM_HOUR_M)
                (mode =? ALARM_WDAY_M) ltac:(lia)) as [D7 D6].
    rewrite D7, D6. rewrite !(L _ 0).
    unfold ALARM_MIN, ALARM_MIN_M, ALARM_HOUR_M, ALARM_MDAY_M, ALARM_WDAY_M
      in *.
    repeat split; try reflexivity.
    destruct (Z.eqb_spec mode 6), (Z.ltb_spec mode 2); try reflexivity; lia.
  - intros ->. destruct P1 as (A & B & C & D & _).
    rewrite A, B, C, D. repeat split; reflexivity.
Qed.

(** C6 (as stated, refuted).  Encoding [ALARM_HOUR_M] for alarm 1 with
    day=5, hour=9, min=0, sec=0 leaves the mask bit of the minute and
    second registers clear; the only mask bit set is the day
    register's. *)
Lemma alarm_hour_mode_masks_day_only :
  let m := alarm_msg 5 9 0 0 ALARM_1 ALARM_HOUR_M [0; 0; 0; 0; 0; 0] in
  Z.testbit (sel 2 m) 7 = false /\ Z.testbit (sel 3 m) 7 = false /\
  Z.testbit (sel 4 m) 7 = false /\ Z.testbit (sel 5 m) 7 = true.
Proof. repeat split; reflexivity. Qed.

(** ** Alarm round trip *)

(** C3 (amended).  For [ALARM_SEC], [ALARM_SEC_M], [ALARM_MIN_M],
    [ALARM_HOUR_M] and [ALARM_MDAY_M] on alarm 1, and for [ALARM_MIN_M],
    [ALARM_HOUR_M] and [ALARM_MDAY_M] on alarm 2, the bytes
    [ds3231_set_alarm_s] builds for day=15, hour=6, min=30, sec=0 decode
    under [ds3231_get_alarm_s] to the same mode and fields (no seconds
    for alarm 2).  For [ALARM_WDAY_M] the call with day=15 is rejected
    by the range test before any use of the bus, and a weekday in
    range (day=5) round-trips on both alarms. *)
Theorem alarm_mode_roundtrip (j0 j1 j2 j3 j4 j5 : Z) :
  Forall (fun mode =>
            alarm_of_registers ALARM_1
              (read_back (alarm_msg 15 6 30 0 ALARM_1 mode
                            [j0; j1; j2; j3; j4; j5]))
            = mk_alarm 15 6 30 (Some 0) mode)
         [ALARM_SEC; ALARM_SEC_M; ALARM_MIN_M; ALARM_HOUR_M; ALARM_MDAY_M] /\
  Forall (fun mode =>
            alarm_of_registers ALARM_2
              (read_back (alarm_msg 15 6 30 0 ALARM_2 mode
                            [j0; j1; j2; j3; j4]))
            = mk_alarm 15 6 30 None mode)
         [ALARM_MIN_M; ALARM_HOUR_M; ALARM_MDAY_M] /\
  (forall {tgt : target} (alarm : Z) (intrpt : bool) (s : machine),
     ds3231_set_alarm_s 15 6 30 0 alarm ALARM_WDAY_M intrpt s = Done 0 s) /\
  alarm_of_registers ALARM_1
    (read_back (alarm_msg 5 6 30 0 ALARM_1 ALARM_WDAY_M
                  [j0; j1; j2; j3; j4; j5]))
  = mk_alarm 5 6 30 (Some 0) ALARM_WDAY_M /\
  alarm_of_registers ALARM_2
    (read_back (alarm_msg 5 6 30 0 ALARM_2 ALARM_WDAY_M [j0; j1; j2; j3; j4]))
  = mk_alarm 5 6 30 None ALARM_WDAY_M.
Proof.
  repeat split; repeat constructor.
Qed.

(** C3 (as stated, refuted).  For [ALARM_WDAY_M] the configuration
    day=15 is not encoded: [ds3231_set_alarm_s] returns FALSE and the
    machine is as before.  Were the bytes built all the same, the day
    would come back as 5, the weekday field being four bits wide. *)
Lemma alarm_weekday_15_rejected :
  ds3231_set_alarm_s 15 6 30 0 ALARM_1 ALARM_WDAY_M true
    (machine_on [] [] [] []) = Done 0 (machine_on [] [] [] []) /\
  alarm_of_registers ALARM_1
    (read_back (alarm_msg 15 6 30 0 ALARM_1 ALARM_WDAY_M [0; 0; 0; 0; 0; 0]))
  = mk_alarm 5 6 30 (Some 0) ALARM_WDAY_M.
Proof. split; reflexivity. Qed.

(** The mode the claim of C3 also covers and the amended statement
    leaves out: [ALARM_MIN] on alarm 2 sets the mask bit of the minutes
    register only, and the bytes decode as [ALARM_MDAY_M]. *)
Lemma alarm_once_per_minute_decodes_as_date :
  alarm_msg 15 6 30 0 ALARM_2 ALARM_MIN [0; 0; 0; 0; 0]
  = [WRITE_ADD; AL2DR; 0xB0; 0x06; 0x15] /\
  alarm_of_registers ALARM_2
    (read_back (alarm_msg 15 6 30 0 ALARM_2 ALARM_MIN [0; 0; 0; 0; 0]))
  = mk_alarm 15 6 30 None ALARM_MDAY_M.
Proof. split; reflexivity. Qed.

(** ** Square-wave enable *)



Lemma decoded_year_range (msgBuf : list Z) :
  0 <= year (time_of_registers msgBuf) < 256.
Proof.
  unfold time_of_registers.
  destruct (bcd2dec (sel 3 msgBuf) =? 0);
    [|destruct (bcd2dec (sel 3 msgBuf) <? 12)]; cbn [year]; apply u8_range.
Qed.

Section DriverWrites.
Context {tgt : target}.


(** C2 (the code departs from the claim).  The [year] field of [struct
    time] is a [uint8_t]: a four-digit year [y] reaches
    [ds3231_set_time] reduced modulo 256, the test [year > 2000] is
    never true, and for every [y] from 1900 to 2099 the century bit of
    the month byte written is clear and the year byte written is the
    BCD conversion of [y - 1900], not of [y - 2000].  Decoding the
    bytes written by the rule of [ds3231_get_time] gives a [year] field
    below 256, never [y]. *)
Theorem ds3231_set_time_century_bit (y : Z) (time_ : time) (s : machine) :
  1900 <= y <= 2099 ->
  year time_ = u8 y ->
  1 <= mon time_ <= 12 ->
  let time' := with_year (y - 1900) time_ in
  let m := time_msg 0x00 time' (local_array 9 s) in
  reduce_year time_ = (0x00, time') /\
  ds3231_set_time time_ s =
    ('(r, _) <- TWI_start_transceiver_with_data (frame s) m 9 ;;
     if to_bool r then ret (0, time') else ret (1, time')) s /\
  Z.testbit (sel 7 m) 7 = false /\
  sel 8 m = dec2bcd (y - 1900) /\
  year (time_of_registers (read_back m)) <> y.
Proof.
  intros Hy Hyear Hmon time' m.
  assert (R : reduce_year time_ = (0x00, time')).
  { unfold reduce_year. rewrite Hyear.
    pose proof (u8_range y) as U.
    replace (u8 y >? 2000) with false
      by (symmetry; rewrite Z.gtb_ltb; apply Z.ltb_ge; lia).
    subst time'. f_equal. f_equal. unfold u8.
    rewrite Zminus_mod_idemp_l. apply Z.mod_small. lia. }
  split; [exact R|]. split.
  { unfold ds3231_set_time. unfold bind at 1. unfold get at 1.
    unfold bind at 1. unfold alloca at 1. unfold get at 1. rewrite R.
    reflexivity. }
  assert (Hm : exists x0 x1 x2 x3 x4 x5 x6 x7 x8,
            local_array 9 s = [x0; x1; x2; x3; x4; x5; x6; x7; x8]).
  { pose proof (local_array_length 9 s) as L.
    destruct (local_array 9 s)
      as [|x0 [|x1 [|x2 [|x3 [|x4 [|x5 [|x6 [|x7 [|x8 [|x9 l]]]]]]]]]];
      try discriminate.
    repeat eexists. }
  destruct Hm as (x0 & x1 & x2 & x3 & x4 & x5 & x6 & x7 & x8 & Hm).
  split; [|split].
  - subst m. rewrite Hm. unfold time_msg. cbn [upd sel nth].
    subst time'. cbn [mon with_year]. rewrite Z.add_0_r.
    pose proof (dec2bcd_bound (mon time_) 1 ltac:(lia) ltac:(lia)) as B.
    rewrite u8_bits. apply Bool.andb_false_iff. right.
    apply (bits_above _ 7); [change (2 ^ 7) with 128; lia | lia].
  - subst m. rewrite Hm. reflexivity.
  - pose proof (decoded_year_range (read_back m)). lia.
Qed.

End DriverWrites.

(** ** Not-acknowledged transfers *)

Lemma masterWrite_after_address (st : Z) :
  masterWrite (with_addressMode false st) = masterWrite st /\
  addressMode (with_addressMode false st) = false.
Proof.
  unfold masterWrite, addressMode, with_addressMode. split.
  - apply Z.clearbit_neq. lia.
  - apply Z.clearbit_eq.
Qed.

Lemma nth_skipn_2 (l : list Z) (j : nat) :
  nth j (skipn 2 l) 0 = nth (2 + j) l 0.
Proof.
  destruct l as [|x [|y l]]; cbn [skipn].
  - destruct j; reflexivity.
  - destruct j; reflexivity.
  - reflexivity.
Qed.

Section NotAcknowledged.
Context {tgt : target}.

(** The loop from byte [i] on, when the bytes [i] to [i + k - 1] are
    acknowledged and byte [i + k] is not. *)
Lemma TWI_loop_not_acknowledged (k : nat) :
  forall (turns : nat) (msg : list Z) (i : nat) (n : Z) (s : machine),
    (k < turns)%nat ->
    Z.of_nat k < n < 256 ->
    clockings (2 * k + 2) (USISR_rd s) (PIN_TWI_rd s) <> None ->
    addressMode (TWI_state s) || masterWrite (TWI_state s) = true ->
    (k = 0%nat \/ masterWrite (TWI_state s) = true) ->
    (forall j, (j < k)%nat ->
       Z.testbit (nth (2 * j + 1) (USIDR_rd s) 0) TWI_NACK_BIT = false) ->
    Z.testbit (nth (2 * k + 1) (USIDR_rd s) 0) TWI_NACK_BIT = true ->
    exists (s' : machine) (evs : list event),
      TWI_loop turns msg i n s = Done (0, msg) s' /\
      TWI_state s' =
        (if addressMode (TWI_state s) && (k =? 0)%nat
         then TWI_NO_ACK_ON_ADDRESS else TWI_NO_ACK_ON_DATA) /\
      trace s' = trace s ++ evs /\
      bytes_out evs = map (fun j => sel j msg) (seq i (k + 1)) /\
      length evs = (2 * k + 2)%nat /\
      existsb is_stop evs = false.
Proof.
  induction k as [|k IH]; intros turns msg i n s Ht Hn Hc Hw Hm Hack Hnack.
  - destruct turns as [|t]; [lia|].
    cbn [clockings Nat.mul Nat.add] in Hc.
    destruct (clock_edges (USISR_rd s) (PIN_TWI_rd s)) as [[f1 p1]|] eqn:C1;
      [|contradiction].
    destruct (clock_edges f1 p1) as [[f2 p2]|] eqn:C2; [|contradiction].
    destruct (TWI_turn_send msg i n s f1 p1 f2 p2 Hw C1 C2)
      as (s1 & d1 & d2 & g & R & _ & _ & _ & St & Tr).
    cbn [Nat.mul Nat.add] in Hnack. rewrite Hnack in R, St.
    exists s1. eexists. cbn [TWI_loop]. unfold bind. rewrite R. unfold ret.
    split; [reflexivity|]. split.
    { rewrite St. destruct (addressMode (TWI_state s)); reflexivity. }
    split; [exact Tr|]. repeat split.
  - destruct turns as [|t]; [lia|].
    replace (2 * S k + 2)%nat with (S (S (2 * k + 2))) in Hc by lia.
    cbn [clockings] in Hc.
    destruct (clock_edges (USISR_rd s) (PIN_TWI_rd s)) as [[f1 p1]|] eqn:C1;
      [|contradiction].
    destruct (clock_edges f1 p1) as [[f2 p2]|] eqn:C2; [|contradiction].
    destruct (TWI_turn_send msg i n s f1 p1 f2 p2 Hw C1 C2)
      as (s1 & d1 & d2 & g & R & F1 & P1 & D1 & St & Tr).
    assert (A0 : Z.testbit (nth 1 (USIDR_rd s) 0) TWI_NACK_BIT = false)
      by (apply (Hack 0%nat); lia).
    rewrite A0 in R, St.
    destruct Hm as [Hm|Hm]; [discriminate|].
    destruct (masterWrite_after_address (TWI_state s)) as [MW AM].
    assert (Hw1 : addressMode (TWI_state s1) || masterWrite (TWI_state s1)
                  = true).
    { rewrite St, MW, Hm. apply Bool.orb_true_r. }
    assert (Hn1 : u8 (n - 1) = n - 1) by (unfold u8; apply Z.mod_small; lia).
    destruct (IH t msg (S i) (n - 1) s1)
      as (s' & evs & R' & St' & Tr' & B' & L' & S').
    + lia.
    + lia.
    + rewrite F1, P1. exact Hc.
    + exact Hw1.
    + right. rewrite St, MW. exact Hm.
    + intros j Hj. rewrite D1, nth_skipn_2.
      replace (2 + (2 * j + 1))%nat with (2 * S j + 1)%nat by lia.
      apply Hack. lia.
    + rewrite D1, nth_skipn_2.
      replace (2 + (2 * k + 1))%nat with (2 * S k + 1)%nat by lia.
      exact Hnack.
    + exists s'. eexists. cbn [TWI_loop]. unfold bind at 1. rewrite R.
      rewrite Hn1. replace (to_bool (n - 1)) with true
        by (symmetry; apply to_bool_nonzero; lia).
      split; [exact R'|]. split.
      { rewrite St', St, AM. cbn [andb].
        replace (S k =? 0)%nat with false by reflexivity.
        rewrite Bool.andb_false_r. reflexivity. }
      split.
      { rewrite Tr', Tr, <- app_assoc. reflexivity. }
      split.
      { cbn [app bytes_out].
        rewrite Z.eqb_refl.
        change (tempUSISR_1bit =? tempUSISR_8bit) with false. cbv iota.
        rewrite B'. replace (S k + 1)%nat with (S (k + 1)) by lia.
        reflexivity. }
      split.
      { cbn [app length]. rewrite L'. lia. }
      cbn [app existsb is_stop orb]. exact S'.
Qed.

End NotAcknowledged.

Section NotAcknowledgedTransfer.
Context {tgt : target}.

(** C8.  Take a transfer that gets past its entry tests and its start
    condition ([msg] inside SRAM, at least two bytes, no flag pending
    in [USISR], SCL released, start condition detected) and in which
    the bits of the first [k + 1] bytes and of their acknowledgements
    are clocked through.  If the remote device acknowledges the bytes
    before byte [k] and drives 1 on the acknowledgement bit of byte [k]
    (byte 0 is the address; [k > 0] asks for a write transfer, where
    the remote is the one that acknowledges), then
    [TWI_start_transceiver_with_data] returns FALSE with the buffer
    untouched, [TWI_get_state_info] gives [TWI_NO_ACK_ON_ADDRESS] when
    [k = 0] and [TWI_NO_ACK_ON_DATA] otherwise, the bytes shifted out
    are bytes 0 to [k] of the buffer and nothing else is clocked after
    the refused acknowledgement, and no stop condition is attempted. *)
Theorem TWI_not_acknowledged (msg : Z) (buf : list Z) (n : Z) (s : machine)
  (f1 f2 f3 f4 : Z) (flags pins : list Z) (k : nat) :
  msg <= RAMEND ->
  1 < u8 n ->
  Z.of_nat k < u8 n ->
  USISR_rd s = f1 :: f2 :: f3 :: f4 :: flags ->
  Z.testbit f1 USISIF = false ->
  Z.testbit f2 USIPF = false ->
  Z.testbit f3 USIDC = false ->
  Z.testbit f4 USISIF = true ->
  SCL_high (PIN_TWI_rd s) = Some pins ->
  clockings (2 * k + 2) flags pins <> None ->
  (k = 0%nat \/ Z.testbit (sel 0 buf) TWI_READ_BIT = false) ->
  (forall j, (j < k)%nat ->
     Z.testbit (nth (2 * j + 1) (USIDR_rd s) 0) TWI_NACK_BIT = false) ->
  Z.testbit (nth (2 * k + 1) (USIDR_rd s) 0) TWI_NACK_BIT = true ->
  exists (s' : machine) (evs : list event),
    TWI_start_transceiver_with_data msg buf n s = Done (0, buf) s' /\
    TWI_get_state_info s' =
      Done (if (k =? 0)%nat then TWI_NO_ACK_ON_ADDRESS
            else TWI_NO_ACK_ON_DATA) s' /\
    trace s' = trace s ++ EvCall buf (u8 n) :: EvStart :: evs /\
    bytes_out evs = map (fun j => sel j buf) (seq 0 (k + 1)) /\
    length evs = (2 * k + 2)%nat /\
    existsb is_stop evs = false.
Proof.
  intros Hram Hn Hk Hflags F1 F2 F3 F4 Hscl Hclk Hmode Hack Hnack.
  pose proof (u8_range n) as Un.
  unfold TWI_start_transceiver_with_data, log, PORT_TWI_or, PORT_TWI_and.
  repeat (unfold bind at 1; unfold modify at 1).
  replace (msg >? RAMEND) with false
    by (symmetry; rewrite Z.gtb_ltb; apply Z.ltb_ge; lia).
  replace (u8 n <=? 1) with false by (symmetry; apply Z.leb_gt; lia).
  unfold bind at 1. unfold read_USISR at 1.
  cbn [USISR_rd set_USISR_rd set_TWI_state set_trace].
  rewrite Hflags. cbn [next fst snd].
  rewrite bit_test, F1 by (unfold USISIF; lia).
  unfold bind at 1. unfold read_USISR at 1.
  cbn [USISR_rd set_USISR_rd set_TWI_state set_trace next fst snd].
  rewrite bit_test, F2 by (unfold USIPF; lia).
  unfold bind at 1. unfold read_USISR at 1.
  cbn [USISR_rd set_USISR_rd set_TWI_state set_trace next fst snd].
  rewrite bit_test, F3 by (unfold USIDC; lia).
  rewrite bit_test by (unfold TWI_READ_BIT; lia).
  unfold bind at 1.
  assert (Hst : forall st : Z,
            st = (if negb (Z.testbit (sel 0 buf) TWI_READ_BIT)
                  then with_masterWrite true (with_addressMode true 0)
                  else with_addressMode true 0) ->
            addressMode st = true /\ (k = 0%nat \/ masterWrite st = true)).
  { intros st ->. destruct Hmode as [-> | Hb].
    - split; [|left; reflexivity]. destruct (negb _); reflexivity.
    - rewrite Hb. split; [reflexivity | right; reflexivity]. }
  destruct (negb (Z.testbit (sel 0 buf) TWI_READ_BIT));
    [cbv beta | unfold ret at 1];
    repeat (unfold bind at 1; unfold modify at 1);
    unfold wait_SCL at 1;
    cbn [PIN_TWI_rd set_PORT_TWI set_TWI_state set_USISR_rd set_trace];
    rewrite Hscl;
    repeat (unfold bind at 1; unfold modify at 1);
    unfold read_USISR at 1;
    cbn [USISR_rd set_USISR_rd set_PIN_TWI_rd set_PORT_TWI set_TWI_state
         set_trace next fst snd];
    rewrite bit_test, F4 by (unfold USISIF; lia);
    cbn [negb];
    match goal with
    | |- context [TWI_loop 256 buf 0 (u8 n) ?x] => set (s0 := x)
    end;
    (destruct (Hst (TWI_state s0) eq_refl) as [Aaddr Awrite]);
    (destruct (TWI_loop_not_acknowledged k 256%nat buf 0%nat (u8 n) s0)
       as (s' & evs & R & St & Tr & B & L & S);
     [ lia | lia | exact Hclk | rewrite Aaddr; reflexivity | exact Awrite
     | exact Hack | exact Hnack | ]);
    exists s', evs;
    (split; [exact R|]);
    (split;
     [ unfold TWI_get_state_info, get; rewrite St, Aaddr; reflexivity |]);
    (split;
     [ rewrite Tr; subst s0;
       cbn [trace set_TWI_state set_USISR_rd set_PIN_TWI_rd set_PORT_TWI
            set_trace];
       rewrite <- !app_assoc; reflexivity |]);
    auto.
Qed.

End NotAcknowledgedTransfer.

(** ** The theorems at concrete inputs *)

Lemma ds3231_get_time_inverts_bus_status_witness :
  let s := machine_on (repeat 0xFF 8) (flags_of_transfer 2)
             [0xD0; 0; 0x00; 0] [] in
  exists s1 : machine,
    ds3231_get_time midnight s = Done (0, midnight) s1 /\ _time s1 = _time s.
Proof.
  eexists.
  refine (proj1 (ds3231_get_time_inverts_bus_status midnight _ _ 1 _ _) _).
  - vm_compute. reflexivity.
  - discriminate.
Defined.

(** On the silent bus [ds3231_get_time] reports success and takes the
    time from what the stack held. *)
Lemma ds3231_get_time_on_silent_bus :
  exists s' : machine,
    ds3231_get_time midnight
      (silent_bus 2 [0; 0; 0x59; 0x23; 0x07; 0x31; 0x12; 0x99])
    = Done (1, mk_time 0 59 23 31 12 207 7 false 11) s'.
Proof. eexists. vm_compute. reflexivity. Qed.

Lemma ds3231_set_time_century_bit_witness :
  let time_ := mk_time 0 30 14 20 6 232 3 false 2 in
  let s := machine_on [] [] [] [] in
  let m := time_msg 0x00 (with_year 124 time_) (local_array 9 s) in
  232 = u8 2024 /\
  reduce_year time_ = (0x00, with_year 124 time_) /\
  Z.testbit (sel 7 m) 7 = false /\ sel 8 m = 0xC4 /\
  year (time_of_registers (read_back m)) <> 2024.
Proof.
  intros time_ s m.
  destruct (ds3231_set_time_century_bit 2024 time_ s)
    as (A & _ & B & C & D).
  - lia.
  - reflexivity.
  - cbn. lia.
  - repeat split; assumption.
Defined.

Lemma ds3231_get_alarm_s_interrupt_flag_witness :
  exists s' : machine,
    ds3231_get_alarm_s 0x105 0x104 0x103 0x102 ALARM_1 0x106 0x107
      (silent_bus 4 []) = Done 1 s' /\
    mem s' 0x107 = 1.
Proof.
  eexists. split.
  - vm_compute. reflexivity.
  - set (s := silent_bus 4 []).
    eassert (H1 : TWI_start_transceiver_with_data (frame s)
                    (upd 1 CTRDR (upd 0 WRITE_ADD (local_array 5 s))) 2 s
                  = Done (0, _) _) by (vm_compute; reflexivity).
    destruct (ds3231_get_alarm_s_interrupt_flag 0x105 0x104 0x103 0x102
                ALARM_1 0x106 0x107 _ _ _ ltac:(unfold ALARM_1; lia) H1)
      as (_ & _ & _ & F).
    match type of H1 with
    | _ = Done (_, ?b1) ?s1 =>
      eassert (H2 : TWI_start_transceiver_with_data (frame s)
                      (upd 0 READ_ADD b1) 2 s1 = Done (0, _) _)
        by (vm_compute; reflexivity)
    end.
    destruct (F _ _ _ H2) as [_ G]. destruct (G eq_refl) as [_ G'].
    eapply G'; try discriminate.
    vm_compute. reflexivity.
Defined.

(** With a chip that acknowledges, [ds3231_get_alarm_s] stops after the
    pointer-set transfer: it returns FALSE and [*intrpt] is not
    assigned. *)
Lemma ds3231_get_alarm_s_on_answering_bus :
  exists s' : machine,
    ds3231_get_alarm_s 0x105 0x104 0x103 0x102 ALARM_1 0x106 0x107
      (machine_on (repeat 0xFF 8) (flags_of_transfer 2)
         [0xD0; 0; 0x0E; 0] [])
    = Done 0 s' /\
    mem s' 0x107 = 0 /\ calls (trace s') = [([WRITE_ADD; CTRDR; 0; 0; 0], 2)].
Proof. eexists. split; [vm_compute; reflexivity|]. split; reflexivity. Qed.

Lemma ds3231_check_alarm_reads_no_status_witness :
  exists s' : machine,
    ds3231_check_alarm 0x100 ALARM_1 (silent_bus 1 [0x00; 0xFF]) = Done 1 s' /\
    mem s' 0x100 = 1.
Proof.
  set (s := silent_bus 1 [0x00; 0xFF]).
  eassert (H : TWI_start_transceiver_with_data (frame s)
                 [STSDR; sel 1 (local_array 2 s)] 2 s = Done (0, _) _)
    by (vm_compute; reflexivity).
  destruct (ds3231_check_alarm_reads_no_status 0x100 ALARM_1 _ _ _ _
              ltac:(unfold ALARM_1; lia) H) as [_ G].
  destruct (G eq_refl ltac:(discriminate)) as (s' & R & _ & V).
  exists s'. split; [exact R | exact V].
Defined.

Lemma alarm_msg_mask_bits_witness :
  let m := alarm_msg 5 9 0 0 ALARM_1 ALARM_HOUR_M [0; 0; 0; 0; 0; 0] in
  Z.testbit (sel 2 m) 7 = false /\ Z.testbit (sel 3 m) 7 = false /\
  Z.testbit (sel 4 m) 7 = false /\ Z.testbit (sel 5 m) 7 = true.
Proof.
  refine (proj2 (proj2 (alarm_msg_mask_bits 5 9 0 0 ALARM_HOUR_M
                          0 0 0 0 0 0 _ _ _ _ _)) eq_refl);
    unfold ALARM_HOUR_M; lia.
Defined.


Lemma TWI_not_acknowledged_witness :
  let s := machine_on (repeat 0xFF 5)
             [0; 0; 0; 0x80; 0x40; 0x40; 0x40; 0x40]
             [0xD0; 0x00; 0x0E; 0x01] [] in
  let buf := [WRITE_ADD; CTRDR; 0x40] in
  exists (s' : machine) (evs : list event),
    TWI_start_transceiver_with_data 0x200 buf 3 s = Done (0, buf) s' /\
    TWI_get_state_info s' = Done TWI_NO_ACK_ON_DATA s' /\
    trace s' = EvCall buf 3 :: EvStart :: evs /\
    bytes_out evs = [WRITE_ADD; CTRDR] /\
    length evs = 4%nat /\
    existsb is_stop evs = false.
Proof.
  intros s buf.
  refine (TWI_not_acknowledged 0x200 buf 3 s 0 0 0 0x80
            [0x40; 0x40; 0x40; 0x40] (repeat 0xFF 4) 1
            _ _ _ eq_refl eq_refl eq_refl eq_refl eq_refl eq_refl _ _ _
            eq_refl).
  - cbn. lia.
  - cbn. lia.
  - cbn. lia.
  - vm_compute. discriminate.
  - right. reflexivity.
  - intros j Hj. assert (j = 0%nat) as -> by lia. reflexivity.
Defined.

(** * Further properties of the driver *)

(** ** Checking a byte-sized range by computation *)

Lemma holds_below_spec (n : nat) (P : Z -> bool) :
  holds_below n P = true ->
  forall x : Z, 0 <= x < Z.of_nat n -> P x = true.
Proof.
  unfold holds_below. intros H x Hx.
  rewrite forallb_forall in H. apply H.
  replace x with (Z.of_nat (Z.to_nat x)) by lia.
  apply in_map, in_seq. lia.
Qed.

(** ** BCD *)

(** A byte is valid BCD when both of its nibbles are decimal digits. *)
Lemma bcd_of_decimal (d : Z) :
  0 <= d <= 99 ->
  bcd2dec (dec2bcd d) = d /\ dec2bcd d / 16 = d / 10 /\
  dec2bcd d mod 16 = d mod 10.
Proof.
  intros Hd.
  assert (H : holds_below 100
            (fun d => (bcd2dec (dec2bcd d) =? d) &&
                      (dec2bcd d / 16 =? d / 10) &&
                      (dec2bcd d mod 16 =? d mod 10)) = true)
    by (vm_compute; reflexivity).
  apply holds_below_spec with (x := d) in H; [|lia].
  apply Bool.andb_true_iff in H. destruct H as [H H3].
  apply Bool.andb_true_iff in H. destruct H as [H1 H2].
  apply Z.eqb_eq in H1, H2, H3. auto.
Qed.

(** X1.  [dec2bcd] and [bcd2dec] are inverse bijections between the decimal
    values 0..99 and the bytes whose two nibbles are decimal digits:
    [dec2bcd] of a value up to 99 is such a byte, and on such a byte
    [bcd2dec] gives a value up to 99 that [dec2bcd] turns back into the
    byte. *)
Theorem bcd_bijection (d b : Z) :
  (0 <= d <= 99 ->
   0 <= dec2bcd d < 256 /\ dec2bcd d / 16 <= 9 /\ dec2bcd d mod 16 <= 9) /\
  (0 <= b < 256 -> b / 16 <= 9 -> b mod 16 <= 9 ->
   0 <= bcd2dec b <= 99 /\ dec2bcd (bcd2dec b) = b).
Proof.
  split.
  - intros Hd. destruct (bcd_of_decimal d Hd) as (_ & Hq & Hr).
    rewrite Hq, Hr. split; [apply u8_range|].
    assert (d / 10 < 10) by (apply Z.div_lt_upper_bound; lia).
    pose proof (Z.mod_pos_bound d 10 ltac:(lia)). lia.
  - intros Hb Hq Hr.
    assert (H : holds_below 256
              (fun b => negb ((b / 16 <=? 9) && (b mod 16 <=? 9)) ||
                        ((0 <=? bcd2dec b) && (bcd2dec b <=? 99) &&
                         (dec2bcd (bcd2dec b) =? b))) = true)
      by (vm_compute; reflexivity).
    apply holds_below_spec with (x := b) in H; [|lia].
    replace (b / 16 <=? 9) with true in H by (symmetry; apply Z.leb_le; lia).
    replace (b mod 16 <=? 9) with true in H
      by (symmetry; apply Z.leb_le; lia).
    cbn [andb negb orb] in H.
    apply Bool.andb_true_iff in H. destruct H as [H H3].
    apply Bool.andb_true_iff in H. destruct H as [H1 H2].
    apply Z.leb_le in H1, H2. apply Z.eqb_eq in H3. auto.
Qed.

Lemma bcd_bijection_witness :
  (0 <= dec2bcd 47 < 256 /\ dec2bcd 47 / 16 <= 9 /\ dec2bcd 47 mod 16 <= 9) /\
  (0 <= bcd2dec 0x47 <= 99 /\ dec2bcd (bcd2dec 0x47) = 0x47).
Proof.
  split.
  - apply (proj1 (bcd_bijection 47 0x47)). lia.
  - apply (proj2 (bcd_bijection 47 0x47)); cbn; lia.
Defined.

(** ** Decoding the time registers *)

(** X2.  The 12-hour fields [ds3231_get_time] derives: for an hours
    register holding the BCD of [h], [h] in 0..23, the struct gets
    [hour = h], [twelveHour = h mod 12] and [am] exactly when [h < 12];
    so [hour = twelveHour + 12] in the afternoon and [twelveHour] is
    below 12. *)
Theorem time_of_registers_twelve_hour (msgBuf : list Z) (h : Z) :
  0 <= h <= 23 ->
  sel 3 msgBuf = dec2bcd h ->
  let t := time_of_registers msgBuf in
  hour t = h /\ twelveHour t = h mod 12 /\ am t = (h <? 12) /\
  0 <= twelveHour t < 12 /\
  hour t = twelveHour t + (if am t then 0 else 12).
Proof.
  intros Hh Hsel t.
  assert (Hb : bcd2dec (sel 3 msgBuf) = h)
    by (rewrite Hsel; apply bcd_of_decimal; lia).
  assert (T : hour t = h /\ twelveHour t = h mod 12 /\ am t = (h <? 12)).
  { subst t. unfold time_of_registers. rewrite Hb.
    destruct (Z.eqb_spec h 0) as [->|H0]; [repeat split|].
    destruct (Z.ltb_spec h 12) as [Hl|Hl]; cbn [hour twelveHour am].
    - repeat split. symmetry. apply Z.mod_small. lia.
    - repeat split. unfold u8. rewrite Z.mod_small by lia.
      symmetry. replace h with ((h - 12) + 1 * 12) at 1 by lia.
      rewrite Z.mod_add by lia. apply Z.mod_small. lia. }
  destruct T as (T1 & T2 & T3). rewrite T1, T2, T3.
  pose proof (Z.mod_pos_bound h 12 ltac:(lia)) as Hm.
  repeat split; try lia.
  destruct (Z.ltb_spec h 12).
  - rewrite Z.mod_small by lia. lia.
  - replace h with ((h - 12) + 1 * 12) at 2 by lia.
    rewrite Z.mod_add by lia. rewrite Z.mod_small by lia. lia.
Qed.

Lemma time_of_registers_twelve_hour_witness :
  let t := time_of_registers [READ_ADD; 0; 0x30; 0x14; 3; 0x20; 0x06; 0x24] in
  hour t = 14 /\ twelveHour t = 14 mod 12 /\ am t = (14 <? 12) /\
  0 <= twelveHour t < 12 /\
  hour t = twelveHour t + (if am t then 0 else 12).
Proof.
  apply (time_of_registers_twelve_hour
           [READ_ADD; 0; 0x30; 0x14; 3; 0x20; 0x06; 0x24] 14).
  - lia.
  - reflexivity.
Defined.

Lemma time_of_registers_eq (msgBuf : list Z) :
  time_of_registers msgBuf =
  mk_time (bcd2dec (sel 1 msgBuf)) (bcd2dec (sel 2 msgBuf))
          (bcd2dec (sel 3 msgBuf)) (bcd2dec (sel 5 msgBuf))
          (u8 (Z.land (bcd2dec (sel 6 msgBuf)) 0x1F))
          (u8 (if u8 (Z.shiftr (Z.land (sel 6 msgBuf) 0x80) 7) =? 1
               then 2000 + bcd2dec (sel 7 msgBuf)
               else 1900 + bcd2dec (sel 7 msgBuf)))
          (bcd2dec (sel 4 msgBuf))
          (bcd2dec (sel 3 msgBuf) <? 12)
          (if bcd2dec (sel 3 msgBuf) <? 12 then bcd2dec (sel 3 msgBuf)
           else u8 (bcd2dec (sel 3 msgBuf) - 12)).
Proof.
  unfold time_of_registers.
  destruct (Z.eqb_spec (bcd2dec (sel 3 msgBuf)) 0) as [E|E].
  - rewrite E. reflexivity.
  - destruct (bcd2dec (sel 3 msgBuf) <? 12); reflexivity.
Qed.

Lemma month_byte_decoding (m : Z) :
  0 <= m <= 12 ->
  u8 (Z.land (bcd2dec (u8 (dec2bcd m + 0x00))) 0x1F) = m /\
  u8 (Z.shiftr (Z.land (u8 (dec2bcd m + 0x00)) 0x80) 7) = 0 /\
  u8 (Z.land (bcd2dec (dec2bcd m + 0x80)) 0x1F) = (80 + m) mod 32 /\
  u8 (Z.shiftr (Z.land (dec2bcd m + 0x80) 0x80) 7) = 1.
Proof.
  intros Hm.
  assert (H : holds_below 13
    (fun m =>
       (u8 (Z.land (bcd2dec (u8 (dec2bcd m + 0x00))) 0x1F) =? m) &&
       (u8 (Z.shiftr (Z.land (u8 (dec2bcd m + 0x00)) 0x80) 7) =? 0) &&
       (u8 (Z.land (bcd2dec (dec2bcd m + 0x80)) 0x1F) =? (80 + m) mod 32) &&
       (u8 (Z.shiftr (Z.land (dec2bcd m + 0x80) 0x80) 7) =? 1)) = true)
    by (vm_compute; reflexivity).
  apply holds_below_spec with (x := m) in H; [|lia].
  apply Bool.andb_true_iff in H. destruct H as [H H4].
  apply Bool.andb_true_iff in H. destruct H as [H H3].
  apply Bool.andb_true_iff in H. destruct H as [H1 H2].
  apply Z.eqb_eq in H1, H2, H3, H4. auto.
Qed.

(** X3.  Time round trip.  For a struct whose fields are in their
    documented ranges and whose [year] field holds a year [y] of
    1900..1999 the way a [uint8_t] holds it ([y] modulo 256), decoding
    the seven register bytes [ds3231_set_time] builds by the rule of
    [ds3231_get_time] gives back every field of the struct, with [am]
    and [twelveHour] derived from [hour]. *)
Theorem time_registers_roundtrip (time_ : time) (y : Z)
  (j0 j1 j2 j3 j4 j5 j6 j7 j8 : Z) :
  0 <= sec time_ <= 59 -> 0 <= min time_ <= 59 -> 0 <= hour time_ <= 23 ->
  1 <= wday time_ <= 7 -> 1 <= mday time_ <= 31 -> 1 <= mon time_ <= 12 ->
  1900 <= y <= 1999 -> year time_ = u8 y ->
  time_of_registers
    (read_back (time_msg (fst (reduce_year time_)) (snd (reduce_year time_))
                  [j0; j1; j2; j3; j4; j5; j6; j7; j8]))
  = mk_time (sec time_) (min time_) (hour time_) (mday time_) (mon time_)
            (year time_) (wday time_) (hour time_ <? 12)
            (hour time_ mod 12).
Proof.
  intros Hs Hmi Hh Hw Hd Hmo Hy Hyear.
  assert (R : reduce_year time_ = (0x00, with_year (y - 1900) time_)).
  { unfold reduce_year. rewrite Hyear. pose proof (u8_range y) as U.
    replace (u8 y >? 2000) with false
      by (symmetry; rewrite Z.gtb_ltb; apply Z.ltb_ge; lia).
    f_equal. f_equal. unfold u8.
    rewrite Zminus_mod_idemp_l. apply Z.mod_small. lia. }
  rewrite R. cbn [fst snd].
  rewrite time_of_registers_eq. unfold time_msg, read_back.
  cbn [upd skipn sel nth sec min hour mday mon year wday with_year].
  destruct (bcd_of_decimal (sec time_) ltac:(lia)) as (-> & _).
  destruct (bcd_of_decimal (min time_) ltac:(lia)) as (-> & _).
  destruct (bcd_of_decimal (hour time_) ltac:(lia)) as (-> & _).
  destruct (bcd_of_decimal (wday time_) ltac:(lia)) as (-> & _).
  destruct (bcd_of_decimal (mday time_) ltac:(lia)) as (-> & _).
  destruct (bcd_of_decimal (y - 1900) ltac:(lia)) as (-> & _).
  destruct (month_byte_decoding (mon time_) ltac:(lia)) as (-> & -> & _).
  change (0 =? 1) with false. cbv iota.
  replace (1900 + (y - 1900)) with y by lia. rewrite <- Hyear.
  f_equal.
  destruct (Z.ltb_spec (hour time_) 12).
  - symmetry. apply Z.mod_small. lia.
  - unfold u8. rewrite Z.mod_small by lia.
    replace (hour time_) with ((hour time_ - 12) + 1 * 12) at 2 by lia.
    rewrite Z.mod_add by lia. symmetry. apply Z.mod_small. lia.
Qed.

Lemma time_registers_roundtrip_witness :
  let t := mk_time 0 30 14 20 6 (u8 1987) 3 false 2 in
  time_of_registers
    (read_back (time_msg (fst (reduce_year t)) (snd (reduce_year t))
                  [0; 0; 0; 0; 0; 0; 0; 0; 0]))
  = mk_time 0 30 14 20 6 (u8 1987) 3 (14 <? 12) (14 mod 12).
Proof.
  intros t.
  apply (time_registers_roundtrip t 1987 0 0 0 0 0 0 0 0 0);
    cbn; try lia; reflexivity.
Defined.

(** X4.  Reading the month and the year.  With the century bit of the
    month register clear, [ds3231_get_time] reports the month stored
    and the year 1900 + yy modulo 256.  With the century bit set it
    reports the year 2000 + yy modulo 256, and as the month it reports
    80 + month modulo 32, which is never the month stored: the BCD
    conversion is applied before the century bit is masked off. *)
Theorem month_and_century_decoding (msgBuf : list Z) (m yy : Z) :
  1 <= m <= 12 -> 0 <= yy <= 99 ->
  sel 7 msgBuf = dec2bcd yy ->
  let t := time_of_registers msgBuf in
  (sel 6 msgBuf = dec2bcd m ->
   mon t = m /\ year t = (1900 + yy) mod 256) /\
  (sel 6 msgBuf = dec2bcd m + 0x80 ->
   mon t = (80 + m) mod 32 /\ mon t <> m /\ year t = (2000 + yy) mod 256).
Proof.
  intros Hm Hy H7 t. subst t. rewrite time_of_registers_eq.
  cbn [mon year]. rewrite H7.
  destruct (bcd_of_decimal yy Hy) as (-> & _).
  destruct (month_byte_decoding m ltac:(lia)) as (M1 & C1 & M2 & C2).
  assert (U : u8 (dec2bcd m + 0) = dec2bcd m).
  { rewrite Z.add_0_r. unfold u8. apply Z.mod_small.
    unfold dec2bcd. apply u8_range. }
  rewrite U in M1, C1.
  split; intros ->.
  - rewrite M1, C1. split; reflexivity.
  - rewrite M2, C2. repeat split.
    assert (17 <= (80 + m) mod 32).
    { replace (80 + m) with ((16 + m) + 2 * 32) by lia.
      rewrite Z.mod_add by lia. rewrite Z.mod_small by lia. lia. }
    lia.
Qed.

Lemma month_and_century_decoding_witness :
  let t := time_of_registers [READ_ADD; 0; 0; 0; 1; 1; 0x92; 0x24] in
  mon t = (80 + 12) mod 32 /\ mon t <> 12 /\ year t = (2000 + 24) mod 256.
Proof.
  intros t.
  apply (proj2 (month_and_century_decoding
                  [READ_ADD; 0; 0; 0; 1; 1; 0x92; 0x24] 12 24
                  ltac:(lia) ltac:(lia) eq_refl)).
  reflexivity.
Defined.

(** ** Alarm registers *)

Lemma masked_register_decoding (x : Z) (c : bool) :
  0 <= x <= 59 ->
  let r := u8 (Z.lor (dec2bcd x) (if c then 0x80 else 0x00)) in
  bcd2dec (Z.land r 0x7F) = x /\ (Z.land r 0x80 =? 0) = negb c.
Proof.
  intros Hx r. subst r.
  assert (H : holds_below 60
    (fun x =>
       (bcd2dec (Z.land (u8 (Z.lor (dec2bcd x) 0x80)) 0x7F) =? x) &&
       negb (Z.land (u8 (Z.lor (dec2bcd x) 0x80)) 0x80 =? 0) &&
       (bcd2dec (Z.land (u8 (Z.lor (dec2bcd x) 0x00)) 0x7F) =? x) &&
       (Z.land (u8 (Z.lor (dec2bcd x) 0x00)) 0x80 =? 0)) = true)
    by (vm_compute; reflexivity).
  apply holds_below_spec with (x := x) in H; [|lia].
  apply Bool.andb_true_iff in H. destruct H as [H H4].
  apply Bool.andb_true_iff in H. destruct H as [H H3].
  apply Bool.andb_true_iff in H. destruct H as [H1 H2].
  apply Z.eqb_eq in H1, H3. apply Bool.negb_true_iff in H2.
  destruct c; cbn [negb]; auto.
Qed.

Lemma day_register_decoding (x : Z) (c w : bool) :
  0 <= x <= (if w then 7 else 31) ->
  let r := u8 (Z.lor (Z.lor (dec2bcd x) (if c then 0x80 else 0x00))
                     (if w then 0x40 else 0x00)) in
  bcd2dec (Z.land r (if Z.land r 0x40 =? 0 then 0x3F else 0x0F)) = x /\
  (Z.land r 0x80 =? 0) = negb c /\ (Z.land r 0x40 =? 0) = negb w.
Proof.
  intros Hx r. subst r.
  set (reg := fun (x : Z) (c w : bool) =>
         u8 (Z.lor (Z.lor (dec2bcd x) (if c then 0x80 else 0x00))
                   (if w then 0x40 else 0x00))).
  set (ok := fun (c w : bool) (x : Z) =>
         (bcd2dec (Z.land (reg x c w)
                     (if Z.land (reg x c w) 0x40 =? 0 then 0x3F else 0x0F))
          =? x) &&
         Bool.eqb (Z.land (reg x c w) 0x80 =? 0) (negb c) &&
         Bool.eqb (Z.land (reg x c w) 0x40 =? 0) (negb w)).
  assert (H : holds_below 32 (ok false false) && holds_below 32 (ok true false)
              && holds_below 8 (ok false true) && holds_below 8 (ok true true)
              = true) by (vm_compute; reflexivity).
  apply Bool.andb_true_iff in H. destruct H as [H Htt].
  apply Bool.andb_true_iff in H. destruct H as [H Hft].
  apply Bool.andb_true_iff in H. destruct H as [Hff Htf].
  assert (K : ok c w x = true).
  { destruct c, w; cbn [negb] in *.
    - apply (holds_below_spec 8 _ Htt). lia.
    - apply (holds_below_spec 32 _ Htf). lia.
    - apply (holds_below_spec 8 _ Hft). lia.
    - apply (holds_below_spec 32 _ Hff). lia. }
  subst ok reg. cbv beta in K.
  apply Bool.andb_true_iff in K. destruct K as [K K3].
  apply Bool.andb_true_iff in K. destruct K as [K1 K2].
  apply Z.eqb_eq in K1. apply Bool.eqb_prop in K2, K3. auto.
Qed.

(** X5.  Alarm round trip for every valid configuration.  With hour, min
    and sec in range, a weekday up to 7 in weekday mode and a day up to
    31 in the other modes, the bytes [ds3231_set_alarm_s] builds decode
    under [ds3231_get_alarm_s] to the same day, hour, min, sec and
    mode: on alarm 1 for the modes [ALARM_SEC] to [ALARM_WDAY_M], on
    alarm 2 (which has no seconds) for [ALARM_MIN_M] to
    [ALARM_WDAY_M]. *)
Theorem alarm_registers_roundtrip (day hour min sec mode : Z)
  (j0 j1 j2 j3 j4 j5 : Z) :
  0 <= hour <= 23 -> 0 <= min <= 59 -> 0 <= sec <= 59 ->
  0 <= day <= (if mode =? ALARM_WDAY_M then 7 else 31) ->
  ALARM_SEC <= mode <= ALARM_WDAY_M ->
  alarm_of_registers ALARM_1
    (read_back (alarm_msg day hour min sec ALARM_1 mode
                  [j0; j1; j2; j3; j4; j5]))
  = mk_alarm day hour min (Some sec) mode /\
  (ALARM_MIN_M <= mode ->
   alarm_of_registers ALARM_2
     (read_back (alarm_msg day hour min sec ALARM_2 mode
                   [j0; j1; j2; j3; j4]))
   = mk_alarm day hour min None mode).
Proof.
  intros Hh Hm Hs Hd Hmode.
  unfold ALARM_SEC, ALARM_WDAY_M, ALARM_MIN_M in *.
  split.
  - unfold alarm_of_registers, alarm_msg, read_back.
    change (ALARM_1 =? ALARM_1) with true. cbv iota.
    cbn [upd skipn sel nth].
    destruct (masked_register_decoding sec (mode =? ALARM_SEC) ltac:(lia))
      as [-> ->].
    destruct (masked_register_decoding min (mode <=? ALARM_SEC_M) ltac:(lia))
      as [-> ->].
    destruct (masked_register_decoding hour (mode <=? ALARM_MIN_M) ltac:(lia))
      as [-> ->].
    destruct (day_register_decoding day (mode <=? ALARM_HOUR_M)
                (mode =? ALARM_WDAY_M) Hd) as (-> & -> & ->).
    f_equal.
    assert (C : mode = 0 \/ mode = 1 \/ mode = 2 \/ mode = 3 \/ mode = 4 \/
                mode = 5) by lia.
    destruct C as [-> | [-> | [-> | [-> | [-> | ->]]]]]; reflexivity.
  - intros H2.
    unfold alarm_of_registers, alarm_msg, read_back.
    change (ALARM_2 =? ALARM_1) with false. cbv iota.
    cbn [upd skipn sel nth].
    destruct (masked_register_decoding min (mode =? ALARM_MIN) ltac:(lia))
      as [-> ->].
    destruct (masked_register_decoding hour (mode <=? ALARM_MIN_M) ltac:(lia))
      as [-> ->].
    destruct (day_register_decoding day (mode <=? ALARM_HOUR_M)
                (mode =? ALARM_WDAY_M) Hd) as (-> & -> & ->).
    f_equal.
    assert (C : mode = 2 \/ mode = 3 \/ mode = 4 \/ mode = 5) by lia.
    destruct C as [-> | [-> | [-> | ->]]]; reflexivity.
Qed.

Lemma alarm_registers_roundtrip_witness :
  alarm_of_registers ALARM_1
    (read_back (alarm_msg 28 23 59 7 ALARM_1 ALARM_MIN_M [0; 0; 0; 0; 0; 0]))
  = mk_alarm 28 23 59 (Some 7) ALARM_MIN_M /\
  alarm_of_registers ALARM_2
    (read_back (alarm_msg 28 23 59 7 ALARM_2 ALARM_MIN_M [0; 0; 0; 0; 0]))
  = mk_alarm 28 23 59 None ALARM_MIN_M.
Proof.
  assert (Hd : 0 <= 28 <= (if ALARM_MIN_M =? ALARM_WDAY_M then 7 else 31))
    by (cbn; lia).
  assert (Hm : ALARM_SEC <= ALARM_MIN_M <= ALARM_WDAY_M)
    by (unfold ALARM_SEC, ALARM_MIN_M, ALARM_WDAY_M; lia).
  destruct (alarm_registers_roundtrip 28 23 59 7 ALARM_MIN_M 0 0 0 0 0 0
              ltac:(lia) ltac:(lia) ltac:(lia) Hd Hm) as [A B].
  split; [exact A | apply B; lia].
Defined.

(** X6.  The mode [ds3231_get_alarm_s] reports is decided by the mask bits
    alone, the coarsest clear one winning: whatever the registers
    hold, alarm 1 is reported with one of the modes [ALARM_SEC] to
    [ALARM_WDAY_M], never [ALARM_MIN], and alarm 2 with one of
    [ALARM_MIN_M] to [ALARM_MIN], never a seconds mode; a clear mask
    bit in the day register gives a day mode whatever the other mask
    bits are, weekday exactly when bit 6 is set. *)
Theorem alarm_mode_decoding (alarm : Z) (msgBuf : list Z) :
  let a := alarm_of_registers alarm msgBuf in
  let d := if alarm =? ALARM_1 then sel 4 msgBuf else sel 3 msgBuf in
  (if alarm =? ALARM_1 then ALARM_SEC <= a_mode a <= ALARM_WDAY_M
   else ALARM_MIN_M <= a_mode a <= ALARM_MIN) /\
  (a_sec a = None <-> alarm <> ALARM_1) /\
  (Z.testbit d 7 = false ->
   a_mode a = if Z.testbit d 6 then ALARM_WDAY_M else ALARM_MDAY_M) /\
  (Z.testbit d 7 = true -> a_mode a <> ALARM_MDAY_M /\ a_mode a <> ALARM_WDAY_M).
Proof.
  intros a d. subst a d.
  assert (B : forall x k, 0 <= k ->
            (Z.land x (Z.shiftl 1 k) =? 0) = negb (Z.testbit x k)).
  { intros x k Hk. rewrite <- bit_test by exact Hk. unfold to_bool.
    rewrite Bool.negb_involutive. reflexivity. }
  pose proof (fun x => B x 7 ltac:(lia)) as B7.
  pose proof (fun x => B x 6 ltac:(lia)) as B6.
  change (Z.shiftl 1 7) with 0x80 in B7. change (Z.shiftl 1 6) with 0x40 in B6.
  unfold alarm_of_registers.
  destruct (Z.eqb_spec alarm ALARM_1) as [E|E]; cbn [a_mode a_sec].
  - rewrite !B7, !B6.
    destruct (Z.testbit (sel 4 msgBuf) 7), (Z.testbit (sel 4 msgBuf) 6),
      (Z.testbit (sel 3 msgBuf) 7), (Z.testbit (sel 2 msgBuf) 7),
      (Z.testbit (sel 1 msgBuf) 7); cbn [negb];
      (split; [unfold ALARM_SEC, ALARM_SEC_M, ALARM_MIN_M, ALARM_HOUR_M,
                 ALARM_MDAY_M, ALARM_WDAY_M; lia|]);
      (split; [split; [discriminate | intros; contradiction]|]);
      (split; [intros; try discriminate; reflexivity|]);
      intros; try discriminate; split; discriminate.
  - rewrite !B7, !B6.
    destruct (Z.testbit (sel 3 msgBuf) 7), (Z.testbit (sel 3 msgBuf) 6),
      (Z.testbit (sel 2 msgBuf) 7), (Z.testbit (sel 1 msgBuf) 7);
      cbn [negb];
      (split; [unfold ALARM_MIN, ALARM_MIN_M, ALARM_HOUR_M,
                 ALARM_MDAY_M, ALARM_WDAY_M; lia|]);
      (split; [split; [intros; exact E | reflexivity]|]);
      (split; [intros; try discriminate; reflexivity|]);
      intros; try discriminate; split; discriminate.
Qed.

Lemma alarm_mode_decoding_witness :
  a_mode (alarm_of_registers ALARM_2 [READ_ADD; 0x80; 0x80; 0x45])
  = ALARM_WDAY_M.
Proof.
  apply (proj1 (proj2 (proj2
           (alarm_mode_decoding ALARM_2 [READ_ADD; 0x80; 0x80; 0x45])))).
  reflexivity.
Defined.

(** ** Control and status bytes *)

Lemma intrpt_update_bits (intrpt : bool) (alarm b i : Z) :
  0 <= alarm -> 0 <= i < 8 ->
  Z.testbit (intrpt_update intrpt alarm b) i =
  if i =? alarm then intrpt else Z.testbit b i.
Proof.
  intros Ha Hi. unfold intrpt_update.
  destruct intrpt; cbn [Bool.eqb].
  - rewrite u8_bits, Z.lor_spec, shiftl_1_bits by lia.
    replace (i <? 8) with true by (symmetry; apply Z.ltb_lt; lia).
    rewrite Z.eqb_sym.
    destruct (i =? alarm); [apply Bool.orb_true_r | apply Bool.orb_false_r].
  - rewrite u8_bits, Z.land_spec, Z.lnot_spec, shiftl_1_bits by lia.
    replace (i <? 8) with true by (symmetry; apply Z.ltb_lt; lia).
    rewrite Z.eqb_sym.
    destruct (i =? alarm); cbn [negb andb];
      [apply Bool.andb_false_r | apply Bool.andb_true_r].
Qed.

Lemma osc32kHz_update_bits (enable : bool) (b i : Z) :
  0 <= i < 8 ->
  Z.testbit (osc32kHz_update enable b) i =
  if i =? 3 then enable else Z.testbit b i.
Proof.
  intros Hi. unfold osc32kHz_update.
  assert (C : i = 0 \/ i = 1 \/ i = 2 \/ i = 3 \/ i = 4 \/ i = 5 \/ i = 6 \/
              i = 7) by lia.
  destruct enable.
  - rewrite u8_bits, Z.lor_spec.
    destruct C as [-> | [-> | [-> | [-> | [-> | [-> | [-> | ->]]]]]]];
      match goal with
      | |- context [Z.testbit b ?k] => destruct (Z.testbit b k)
      end; reflexivity.
  - rewrite u8_bits, Z.land_spec.
    destruct C as [-> | [-> | [-> | [-> | [-> | [-> | [-> | ->]]]]]]];
      match goal with
      | |- context [Z.testbit b ?k] => destruct (Z.testbit b k)
      end; reflexivity.
Qed.

Section DriverRemaining.
Context {tgt : target}.

(** X7.  The interrupt-enable update of [ds3231_set_alarm_s] is isolated:
    the control byte it writes back has the bit of the selected alarm
    (A1IE for alarm 1, A2IE for alarm 2) equal to [intrpt] and every
    other bit as in the byte held after the read.  The byte goes out
    as the third byte of the third transfer, made once the two
    transfers before it have returned 0. *)
Theorem ds3231_set_alarm_s_interrupt_enable (day hour min sec alarm mode : Z)
  (intrpt : bool) (s : machine) :
  0 <= alarm <= 1 -> hour <= 23 -> min <= 59 -> sec <= 59 ->
  (mode = ALARM_WDAY_M -> day <= 7) -> (mode = ALARM_MDAY_M -> day <= 31) ->
  (forall b i : Z,
     0 <= i < 8 ->
     Z.testbit (intrpt_update intrpt alarm b) i =
     if i =? alarm then intrpt else Z.testbit b i) /\
  (forall (b1 b2 : list Z) (s1 s2 : machine),
     TWI_start_transceiver_with_data (frame s)
       (upd 1 CTRDR (upd 0 WRITE_ADD
          (local_array (if alarm =? ALARM_1 then 6 else 5) s))) 2 s
       = Done (0, b1) s1 ->
     TWI_start_transceiver_with_data (frame s) (upd 0 READ_ADD b1) 2 s1
       = Done (0, b2) s2 ->
     exists rest : list Z,
       ds3231_set_alarm_s day hour min sec alarm mode intrpt s =
       ('(r, msgBuf) <- TWI_start_transceiver_with_data (frame s)
                          (WRITE_ADD :: CTRDR ::
                           intrpt_update intrpt alarm (sel 1 b2) :: rest) 3 ;;
        if to_bool r then ret 0 else
        '(r, _) <- TWI_start_transceiver_with_data (frame s)
                     (alarm_msg day hour min sec alarm mode msgBuf)
                     (if alarm =? ALARM_1 then 6 else 5) ;;
        if to_bool r then ret 0 else ret 1) s2).
Proof.
  intros Ha Hh Hm Hs Hw Hd. split.
  - intros b i Hi. apply intrpt_update_bits; lia.
  - intros b1 b2 s1 s2 H1 H2.
    assert (Len : exists x0 x1 x2 rest,
              local_array (if alarm =? ALARM_1 then 6 else 5) s
              = x0 :: x1 :: x2 :: rest).
    { pose proof (local_array_length (if alarm =? ALARM_1 then 6 else 5) s)
        as L.
      destruct (local_array _ s) as [|x0 [|x1 [|x2 rest]]];
        try (destruct (alarm =? ALARM_1); discriminate).
      eauto. }
    destruct Len as (x0 & x1 & x2 & rest & Len).
    exists rest. unfold ds3231_set_alarm_s.
    replace ((mode =? ALARM_WDAY_M) && (day >? 7)) with false
      by (symmetry; destruct (Z.eqb_spec mode ALARM_WDAY_M),
            (Z.gtb_spec day 7); try reflexivity; specialize (Hw e); lia).
    replace ((mode =? ALARM_MDAY_M) && (day >? 31)) with false
      by (symmetry; destruct (Z.eqb_spec mode ALARM_MDAY_M),
            (Z.gtb_spec day 31); try reflexivity; specialize (Hd e); lia).
    replace (hour >? 23) with false
      by (symmetry; rewrite Z.gtb_ltb; apply Z.ltb_ge; lia).
    replace (min >? 59) with false
      by (symmetry; rewrite Z.gtb_ltb; apply Z.ltb_ge; lia).
    replace (sec >? 59) with false
      by (symmetry; rewrite Z.gtb_ltb; apply Z.ltb_ge; lia).
    replace (alarm >? 1) with false
      by (symmetry; rewrite Z.gtb_ltb; apply Z.ltb_ge; lia).
    replace (Z.b2z intrpt >? 1) with false by (destruct intrpt; reflexivity).
    unfold bind at 1. unfold get at 1. unfold bind at 1. unfold alloca at 1.
    unfold get at 1. unfold bind at 1. rewrite H1. cbv beta iota.
    change (to_bool 0) with false. cbv beta iota.
    unfold bind at 1. rewrite H2. cbv beta iota.
    change (to_bool 0) with false. cbv beta iota.
    apply TWI_failure_keeps_buffer in H1, H2. subst b2 b1.
    rewrite Len. reflexivity.
Qed.

(** X8.  [ds3231_osc32kHz_enable] is isolated too: the status byte it
    writes back has EN32KHZ (bit 3) equal to [enable] and every other
    bit as in the byte held after the read; the byte is the third of
    the last transfer. *)
Theorem ds3231_osc32kHz_enable_write_back (enable : bool) (s : machine) :
  (forall b i : Z,
     0 <= i < 8 ->
     Z.testbit (osc32kHz_update enable b) i =
     if i =? 3 then enable else Z.testbit b i) /\
  (forall (b1 b2 : list Z) (s1 s2 : machine),
     TWI_start_transceiver_with_data (frame s)
       (upd 1 STSDR (upd 0 WRITE_ADD (local_array 3 s))) 2 s
       = Done (0, b1) s1 ->
     TWI_start_transceiver_with_data (frame s) (upd 0 READ_ADD b1) 2 s1
       = Done (0, b2) s2 ->
     ds3231_osc32kHz_enable enable s =
       ('(r, _) <- TWI_start_transceiver_with_data (frame s)
                     [WRITE_ADD; STSDR; osc32kHz_update enable (sel 1 b2)] 3 ;;
        if to_bool r then ret 0 else ret 1) s2).
Proof.
  split.
  - intros b i Hi. apply osc32kHz_update_bits. exact Hi.
  - intros b1 b2 s1 s2 H1 H2.
    unfold ds3231_osc32kHz_enable.
    unfold bind at 1. unfold get at 1. unfold bind at 1. unfold alloca at 1.
    unfold get at 1. unfold bind at 1. rewrite H1. cbv beta iota.
    change (to_bool 0) with false. cbv beta iota.
    unfold bind at 1. rewrite H2. cbv beta iota.
    change (to_bool 0) with false. cbv beta iota.
    apply TWI_failure_keeps_buffer in H1, H2. subst b2 b1.
    pose proof (local_array_length 3 s) as L.
    destruct (local_array 3 s) as [|x0 [|x1 [|x2 [|x3 l]]]]; try discriminate.
    unfold osc32kHz_update. destruct enable; reflexivity.
Qed.

(** X9.  Parameter verification comes before anything else: a weekday above
    7 in weekday mode, a date above 31 in date mode, an hour above 23,
    a minute or second above 59 or an alarm selector above 1 makes
    [ds3231_set_alarm_s] return FALSE with the machine as it was, no
    transfer made; an alarm selector above 1 does the same to
    [ds3231_get_alarm_s] and [ds3231_check_alarm], which then store
    nothing through their pointers, null or not. *)
Theorem alarm_parameters_verified (day hour min sec alarm mode : Z)
  (intrpt : bool) (pd ph pm ps pmode pintrpt pactive : Z) (s : machine) :
  (mode = ALARM_WDAY_M /\ day > 7 \/ mode = ALARM_MDAY_M /\ day > 31 \/
   hour > 23 \/ min > 59 \/ sec > 59 \/ alarm > 1 ->
   ds3231_set_alarm_s day hour min sec alarm mode intrpt s = Done 0 s) /\
  (alarm > 1 ->
   ds3231_get_alarm_s pd ph pm ps alarm pmode pintrpt s = Done 0 s /\
   ds3231_check_alarm pactive alarm s = Done 0 s).
Proof.
  split.
  - intros H. unfold ds3231_set_alarm_s.
    destruct (Z.eqb_spec mode ALARM_WDAY_M), (Z.gtb_spec day 7);
      cbn [andb]; try reflexivity;
    destruct (Z.eqb_spec mode ALARM_MDAY_M), (Z.gtb_spec day 31);
      cbn [andb]; try reflexivity;
    destruct (Z.gtb_spec hour 23); try reflexivity;
    destruct (Z.gtb_spec min 59); try reflexivity;
    destruct (Z.gtb_spec sec 59); try reflexivity;
    destruct (Z.gtb_spec alarm 1); try reflexivity; lia.
  - intros H. unfold ds3231_get_alarm_s, ds3231_check_alarm.
    destruct (Z.gtb_spec alarm 1); [split; reflexivity | lia].
Qed.

End DriverRemaining.

Lemma temperature_fields (msb lsb : Z) :
  0 <= msb < 256 -> 0 <= lsb < 256 ->
  -128 <= s8 msb <= 127 /\ 0 <= u8 (Z.shiftr lsb 6) <= 3 /\
  4 * s8 msb + u8 (Z.shiftr lsb 6) =
    (if msb <? 128 then 4 * msb + lsb / 64 else 4 * msb + lsb / 64 - 1024).
Proof.
  intros Hm Hl. unfold s8, u8.
  rewrite (Z.mod_small msb) by lia.
  rewrite Z.shiftr_div_pow2 by lia. change (2 ^ 6) with 64.
  assert (0 <= lsb / 64 < 4).
  { split; [apply Z.div_pos; lia | apply Z.div_lt_upper_bound; lia]. }
  rewrite (Z.mod_small (lsb / 64)) by lia.
  destruct (Z.ltb_spec msb 128); lia.
Qed.

Section DriverRemaining2.
Context {tgt : target}.

(** X10.  [ds3231_reset_alarm] makes one transfer that writes 0 into the four
    registers of alarm 1, or into the three of alarm 2, from the first
    register of the alarm on; the selector is not verified, so that any
    value other than [ALARM_1] resets alarm 2.  Registers so reset
    decode under [ds3231_get_alarm_s] as a date-match alarm
    ([ALARM_MDAY_M]) at day 0, 00:00:00. *)
Theorem ds3231_reset_alarm_registers (alarm : Z) (s : machine) :
  let m := if alarm =? ALARM_1 then [WRITE_ADD; AL1DR; 0x00; 0x00; 0x00; 0x00]
           else [WRITE_ADD; AL2DR; 0x00; 0x00; 0x00] in
  ds3231_reset_alarm alarm s =
    ('(r, _) <- TWI_start_transceiver_with_data (frame s) m
                  (if alarm =? ALARM_1 then 6 else 5) ;;
     if to_bool r then ret 0 else ret 1) s /\
  alarm_of_registers alarm (read_back m) =
    mk_alarm 0 0 0 (if alarm =? ALARM_1 then Some 0 else None) ALARM_MDAY_M.
Proof.
  intros m. subst m. split.
  - unfold ds3231_reset_alarm, reset_msg.
    unfold bind at 1. unfold get at 1. unfold bind at 1. unfold alloca at 1.
    unfold get at 1.
    pose proof (local_array_length (if alarm =? ALARM_1 then 6 else 5) s) as L.
    destruct (alarm =? ALARM_1).
    + destruct (local_array 6 s) as [|x0 [|x1 [|x2 [|x3 [|x4 [|x5 [|x6 l]]]]]]];
        try discriminate. reflexivity.
    + destruct (local_array 5 s) as [|x0 [|x1 [|x2 [|x3 [|x4 [|x5 l]]]]]];
        try discriminate. reflexivity.
  - unfold alarm_of_registers. destruct (alarm =? ALARM_1); reflexivity.
Qed.

(** X11.  [ds3231_set_time_s] makes one transfer that writes the BCD of sec,
    min and hour into the registers 0 to 2; these are the first three
    register bytes [ds3231_set_time] writes for a struct with the same
    hour, min and sec.  For values up to 99 the bytes decode by
    [bcd2dec], as [ds3231_get_time_s] decodes bytes 1 to 3 of its read
    buffer, to sec, min and hour again. *)
Theorem ds3231_set_time_s_registers (hour_ min_ sec_ : Z) (s : machine) :
  let m := [WRITE_ADD; SECDR; dec2bcd sec_; dec2bcd min_; dec2bcd hour_] in
  ds3231_set_time_s hour_ min_ sec_ s =
    ('(r, _) <- TWI_start_transceiver_with_data (frame s) m 5 ;;
     if to_bool r then ret 0 else ret 1) s /\
  (forall (time_ : time) (century : Z) (j0 j1 j2 j3 j4 j5 j6 j7 j8 : Z),
     hour time_ = hour_ -> min time_ = min_ -> sec time_ = sec_ ->
     firstn 5 (time_msg century time_ [j0; j1; j2; j3; j4; j5; j6; j7; j8])
     = m) /\
  (0 <= hour_ <= 99 -> 0 <= min_ <= 99 -> 0 <= sec_ <= 99 ->
   bcd2dec (sel 1 (read_back m)) = sec_ /\
   bcd2dec (sel 2 (read_back m)) = min_ /\
   bcd2dec (sel 3 (read_back m)) = hour_).
Proof.
  intros m. subst m. split; [|split].
  - unfold ds3231_set_time_s, time_s_msg.
    unfold bind at 1. unfold get at 1. unfold bind at 1. unfold alloca at 1.
    unfold get at 1.
    pose proof (local_array_length 5 s) as L.
    destruct (local_array 5 s) as [|x0 [|x1 [|x2 [|x3 [|x4 [|x5 l]]]]]];
      try discriminate. reflexivity.
  - intros time_ century j0 j1 j2 j3 j4 j5 j6 j7 j8 <- <- <-. reflexivity.
  - intros Hh Hm Hs. cbn [read_back skipn sel nth].
    repeat split; apply bcd_of_decimal; assumption.
Qed.

(** X12.  [ds3231_get_temp_int] stores through [i] and [f] without testing
    them: when its two transfers have returned 0 a null [i] or [f]
    makes the call fault.  With both pointers valid and distinct it
    stores the first byte as a signed integer in [-128, 127] and the
    top two bits of the second as a fraction in 0..3, so that
    [4 * i + f] is the ten-bit two's complement temperature reading in
    quarters of a degree. *)
Theorem ds3231_get_temp_int_value (i f : Z) (s s1 s2 : machine)
  (b1 b2 : list Z) :
  TWI_start_transceiver_with_data (frame s)
    (upd 1 TMPDR (upd 0 WRITE_ADD (local_array 3 s))) 2 s = Done (0, b1) s1 ->
  TWI_start_transceiver_with_data (frame s) (upd 0 READ_ADD b1) 3 s1
    = Done (0, b2) s2 ->
  0 <= sel 1 b2 < 256 -> 0 <= sel 2 b2 < 256 ->
  (i = 0 \/ f = 0 -> ds3231_get_temp_int i f s = Fault) /\
  (i <> 0 -> f <> 0 -> i <> f ->
   exists s' : machine,
     ds3231_get_temp_int i f s = Done 1 s' /\
     s' = set_mem (mem s') s2 /\
     -128 <= mem s' i <= 127 /\ 0 <= mem s' f <= 3 /\
     4 * mem s' i + mem s' f =
       (if sel 1 b2 <? 128 then 4 * sel 1 b2 + sel 2 b2 / 64
        else 4 * sel 1 b2 + sel 2 b2 / 64 - 1024)).
Proof.
  intros H1 H2 Hm Hl.
  assert (E : ds3231_get_temp_int i f s =
              (store8 i (s8 (sel 1 b2)) ;;
               store8 f (u8 (Z.shiftr (sel 2 b2) 6)) ;; ret 1) s2).
  { unfold ds3231_get_temp_int.
    unfold bind at 1. unfold get at 1. unfold bind at 1. unfold alloca at 1.
    unfold get at 1. unfold bind at 1. rewrite H1. cbv beta iota.
    change (to_bool 0) with false. cbv beta iota.
    unfold bind at 1. rewrite H2. cbv beta iota.
    change (to_bool 0) with false. cbv beta iota. reflexivity. }
  rewrite E. unfold bind, store8, ret. split.
  - intros [-> | ->].
    + reflexivity.
    + destruct (i =? 0); reflexivity.
  - intros Hi Hf Hif.
    destruct (Z.eqb_spec i 0) as [|_]; [contradiction|].
    cbn [mem set_mem].
    destruct (Z.eqb_spec f 0) as [|_]; [contradiction|].
    eexists. split; [reflexivity|]. cbn [mem set_mem].
    split; [reflexivity|].
    rewrite !Z.eqb_refl.
    destruct (Z.eqb_spec i f) as [|_]; [contradiction|].
    apply temperature_fields; assumption.
Qed.

(** X13.  [ds3231_set_time] rewrites the struct it is given: whatever
    the transfer does, the struct comes back with [year] replaced by
    [year - 1900] modulo 256 (the field being a [uint8_t], the branch
    for the years after 2000 is never taken) and every other field as
    it was, so that passing the struct again encodes another year.
    When the struct is the driver's own [_time], the call
    [ds3231_set_time(&_time)], it is [_time] that is rewritten: the
    call returns what [ds3231_set_time] returns and leaves [_time] with
    another year than it had. *)
Theorem ds3231_set_time_rewrites_year (time_ time' : time)
  (s s' : machine) (r : Z) :
  0 <= year time_ < 256 ->
  ds3231_set_time time_ s = Done (r, time') s' ->
  time' = with_year (u8 (year time_ - 1900)) time_ /\
  year time' <> year time_ /\
  year (snd (reduce_year time')) <> year time' /\
  (time_ = _time s ->
   ds3231_set_time_stored s = Done r (set__time time' s') /\
   _time (set__time time' s') =
     with_year (u8 (year (_time s) - 1900)) (_time s) /\
   year (_time (set__time time' s')) <> year (_time s)).
Proof.
  intros Hy.
  assert (R : forall t, 0 <= year t < 256 ->
            reduce_year t = (0, with_year (u8 (year t - 1900)) t)).
  { intros t Ht. unfold reduce_year.
    replace (year t >? 2000) with false
      by (symmetry; rewrite Z.gtb_ltb; apply Z.ltb_ge; lia).
    reflexivity. }
  assert (N : forall y, 0 <= y < 256 -> u8 (y - 1900) <> y).
  { intros y Hr C. unfold u8 in C.
    pose proof (Z.div_mod (y - 1900) 256) as D. lia. }
  intros H.
  assert (E : time' = with_year (u8 (year time_ - 1900)) time_).
  { revert H. unfold ds3231_set_time.
    unfold bind at 1. unfold get at 1. unfold bind at 1. unfold alloca at 1.
    unfold get at 1. rewrite (R time_ Hy). unfold bind.
    destruct (TWI_start_transceiver_with_data _ _ 9 s) as [[r1 b] s1| |];
      try discriminate.
    destruct (to_bool r1); unfold ret; intros H; inversion H; reflexivity. }
  split; [exact E|]. split.
  { rewrite E. cbn [year with_year]. apply N. exact Hy. }
  split.
  { rewrite E, R by (cbn [year with_year]; apply u8_range).
    cbn [snd year with_year]. apply N. apply u8_range. }
  intros Ht. split.
  - unfold ds3231_set_time_stored. unfold bind at 1. unfold get at 1.
    rewrite <- Ht. unfold bind at 1. rewrite H. reflexivity.
  - cbn [_time set__time]. rewrite <- Ht. split; [exact E|].
    rewrite E. cbn [year with_year]. apply N. exact Hy.
Qed.

End DriverRemaining2.

(** ** The bus layer: entry tests and start condition *)

Section BusEntry.
Context {tgt : target}.

(** [TWI_start_transceiver_with_data] up to its loop, case by case. *)
Lemma TWI_entry (msg : Z) (buf : list Z) (n : Z) (s : machine) :
  TWI_start_transceiver_with_data msg buf n s =
  if msg >? RAMEND then
    Done (0, buf) (TWI_refused TWI_DATA_OUT_OF_BOUND 0 buf n s)
  else if u8 n <=? 1 then
    Done (0, buf) (TWI_refused TWI_NO_DATA 0 buf n s)
  else if Z.testbit (nth 0 (USISR_rd s) 0) USISIF then
    Done (0, buf) (TWI_refused TWI_UE_START_CON 1 buf n s)
  else if Z.testbit (nth 1 (USISR_rd s) 0) USIPF then
    Done (0, buf) (TWI_refused TWI_UE_STOP_CON 2 buf n s)
  else if Z.testbit (nth 2 (USISR_rd s) 0) USIDC then
    Done (0, buf) (TWI_refused TWI_UE_DATA_COL 3 buf n s)
  else
    match SCL_high (PIN_TWI_rd s) with
    | None => Hang
    | Some pins =>
      if Z.testbit (nth 3 (USISR_rd s) 0) USISIF then
        TWI_loop 256 buf 0 (u8 n) (TWI_started buf n pins s)
      else
        Done (1, buf)
             (set_TWI_state TWI_MISSING_START_CON (TWI_started buf n pins s))
    end.
Proof.
  unfold TWI_start_transceiver_with_data, log, PORT_TWI_or, PORT_TWI_and,
    TWI_refused, TWI_started.
  repeat (unfold bind at 1; unfold modify at 1).
  destruct (msg >? RAMEND); [reflexivity|].
  destruct (u8 n <=? 1); [reflexivity|].
  unfold bind at 1. unfold read_USISR at 1.
  cbn [USISR_rd set_USISR_rd set_TWI_state set_trace].
  rewrite !bit_test by (unfold USISIF, USIPF, USIDC, TWI_READ_BIT; lia).
  assert (N : forall l : list Z,
            fst (next l) = nth 0 l 0 /\ snd (next l) = skipn 1 l).
  { intros [|x l]; split; reflexivity. }
  destruct (N (USISR_rd s)) as [-> ->].
  destruct (Z.testbit (nth 0 (USISR_rd s) 0) USISIF); [reflexivity|].
  unfold bind at 1. unfold read_USISR at 1.
  cbn [USISR_rd set_USISR_rd set_TWI_state set_trace].
  rewrite !bit_test by (unfold USISIF, USIPF, USIDC, TWI_READ_BIT; lia).
  destruct (N (skipn 1 (USISR_rd s))) as [-> ->].
  assert (S1 : forall k, nth 0 (skipn k (USISR_rd s)) 0 = nth k (USISR_rd s) 0).
  { intros k. rewrite nth_skipn. f_equal. lia. }
  assert (S2 : forall k, skipn 1 (skipn k (USISR_rd s))
                         = skipn (S k) (USISR_rd s)).
  { intros k. rewrite skipn_skipn. reflexivity. }
  rewrite S1, S2.
  destruct (Z.testbit (nth 1 (USISR_rd s) 0) USIPF); [reflexivity|].
  unfold bind at 1. unfold read_USISR at 1.
  cbn [USISR_rd set_USISR_rd set_TWI_state set_trace].
  rewrite !bit_test by (unfold USISIF, USIPF, USIDC, TWI_READ_BIT; lia).
  destruct (N (skipn 2 (USISR_rd s))) as [-> ->].
  rewrite S1, S2.
  destruct (Z.testbit (nth 2 (USISR_rd s) 0) USIDC); [reflexivity|].
  unfold bind at 1.
  destruct (Z.testbit (sel 0 buf) TWI_READ_BIT); cbn [negb];
    [unfold ret at 1 | cbv beta];
    repeat (unfold bind at 1; unfold modify at 1);
    unfold wait_SCL at 1;
    cbn [PIN_TWI_rd set_PORT_TWI set_TWI_state set_USISR_rd set_trace];
    (destruct (SCL_high (PIN_TWI_rd s)) as [pins|]; [|reflexivity]);
    repeat (unfold bind at 1; unfold modify at 1);
    unfold read_USISR at 1;
    cbn [USISR_rd set_USISR_rd set_PIN_TWI_rd set_PORT_TWI set_TWI_state
         set_trace];
    rewrite !bit_test by (unfold USISIF; lia);
    (destruct (N (skipn 3 (USISR_rd s))) as [-> ->]);
    rewrite S1, S2;
    (destruct (Z.testbit (nth 3 (USISR_rd s) 0) USISIF); cbn [negb];
     reflexivity).
Qed.

End BusEntry.

(** ** The bus layer: transfers that go through *)

Section BusCompletes.
Context {tgt : target}.

Lemma TWI_master_stop_done (s : machine) (pins : list Z) :
  SCL_high (PIN_TWI_rd s) = Some pins ->
  exists s' : machine,
    TWI_master_stop s =
      Done (if Z.testbit (nth 0 (USISR_rd s) 0) USIPF then 1 else 0) s' /\
    TWI_state s' =
      (if Z.testbit (nth 0 (USISR_rd s) 0) USIPF then TWI_state s
       else TWI_MISSING_STOP_CON) /\
    trace s' = trace s ++ [EvStop] /\
    USIDR_rd s' = USIDR_rd s /\
    PIN_TWI_rd s' = pins /\
    USISR_rd s' = skipn 1 (USISR_rd s).
Proof.
  intros H.
  assert (N : fst (next (USISR_rd s)) = nth 0 (USISR_rd s) 0 /\
              snd (next (USISR_rd s)) = skipn 1 (USISR_rd s))
    by (destruct (USISR_rd s); split; reflexivity).
  destruct N as [N1 N2].
  unfold TWI_master_stop, log, PORT_TWI_and, PORT_TWI_or, wait_SCL,
    read_USISR, bind, modify.
  cbn [PIN_TWI_rd USISR_rd set_PORT_TWI set_trace set_PIN_TWI_rd
       set_USISR_rd].
  rewrite H. cbn [PIN_TWI_rd USISR_rd set_PORT_TWI set_trace set_PIN_TWI_rd
       set_USISR_rd].
  rewrite bit_test by (unfold USIPF; lia).
  rewrite N1, N2.
  destruct (Z.testbit (nth 0 (USISR_rd s) 0) USIPF); cbn [negb];
    unfold ret; eexists; (split; [reflexivity|]);
    cbn; repeat split.
Qed.

(** A turn that receives a byte, when both of its transfers are
    clocked through. *)
Lemma TWI_turn_receive (msg : list Z) (i : nat) (n : Z) (s : machine)
  (f1 p1 f2 p2 : list Z) :
  addressMode (TWI_state s) || masterWrite (TWI_state s) = false ->
  clock_edges (USISR_rd s) (PIN_TWI_rd s) = Some (f1, p1) ->
  clock_edges f1 p1 = Some (f2, p2) ->
  exists s' o1 d1 d2 g,
    TWI_turn msg i n s = Done (inr (upd i (fst (next (USIDR_rd s))) msg)) s' /\
    USISR_rd s' = f2 /\ PIN_TWI_rd s' = p2 /\
    USIDR_rd s' = skipn 2 (USIDR_rd s) /\
    TWI_state s' = TWI_state s /\
    trace s' = trace s ++
      [EvTransfer tempUSISR_8bit o1 d1 (fst (next (USIDR_rd s)));
       EvTransfer tempUSISR_1bit (if n =? 1 then 0xFF else 0x00) d2 g].
Proof.
  intros Hw H1 H2.
  destruct (next_next (USIDR_rd s)) as [_ Hrest].
  unfold TWI_turn. unfold bind at 1. unfold get at 1. rewrite Hw.
  unfold DDR_TWI_and.
  unfold bind at 1. unfold modify at 1.
  set (s1 := set_DDR_TWI _ _).
  assert (E1 : clock_edges (USISR_rd s1) (PIN_TWI_rd s1) = Some (f1, p1))
    by exact H1.
  destruct (TWI_master_transfer_done tempUSISR_8bit s1 f1 p1 E1)
    as (s2 & R2 & F2 & P2 & D2 & S2 & T2 & _).
  unfold bind at 1. rewrite R2.
  unfold bind at 1.
  set (s3 := set_USIDR (if n =? 1 then 0xFF else 0x00) s2).
  assert (E0 : (if n =? 1 then modify (set_USIDR 0xFF)
                else modify (set_USIDR 0x00)) s2 = Done tt s3).
  { subst s3. destruct (n =? 1); reflexivity. }
  rewrite E0.
  assert (E3 : clock_edges (USISR_rd s3) (PIN_TWI_rd s3) = Some (f2, p2)).
  { subst s3. cbn. rewrite F2, P2. exact H2. }
  destruct (TWI_master_transfer_done tempUSISR_1bit s3 f2 p2 E3)
    as (s4 & R4 & F4 & P4 & D4 & S4 & T4 & _).
  unfold bind at 1. rewrite R4. unfold ret.
  exists s4, (USIDR s1), (DDR_TWI s1), (DDR_TWI s3),
    (fst (next (USIDR_rd s3))).
  split; [reflexivity|]. split; [exact F4|]. split; [exact P4|].
  split.
  { rewrite D4. subst s3. cbn. rewrite D2. subst s1. cbn. exact Hrest. }
  split.
  { rewrite S4. subst s3. cbn. rewrite S2. reflexivity. }
  rewrite T4. subst s3. cbn. rewrite T2. subst s1. cbn.
  rewrite <- app_assoc. reflexivity.
Qed.

(** The loop when every one of the [m] bytes still to send is
    acknowledged. *)
Lemma TWI_loop_sends (m : nat) :
  forall (turns : nat) (msg : list Z) (i : nat) (s : machine)
         (flags pins pins' : list Z),
    (m < turns)%nat -> (m < 255)%nat ->
    TWI_state s = 3 \/ TWI_state s = 2 ->
    clockings (2 * S m) (USISR_rd s) (PIN_TWI_rd s) = Some (flags, pins) ->
    SCL_high pins = Some pins' ->
    (forall j, (j <= m)%nat ->
       Z.testbit (nth (2 * j + 1) (USIDR_rd s) 0) TWI_NACK_BIT = false) ->
    exists (s' : machine) (evs : list event),
      TWI_loop turns msg i (Z.of_nat (S m)) s = Done (1, msg) s' /\
      TWI_state s' =
        (if Z.testbit (nth 0 flags 0) USIPF then 2
         else TWI_MISSING_STOP_CON) /\
      trace s' = trace s ++ evs ++ [EvStop] /\
      bytes_out evs = map (fun j => sel j msg) (seq i (S m)) /\
      length evs = (2 * S m)%nat /\
      existsb is_stop evs = false.
Proof.
  induction m as [|m IH];
    intros turns msg i s flags pins pins' Ht Hm Hst Hc Hscl Hack.
  - destruct turns as [|t]; [lia|].
    cbn [clockings Nat.mul Nat.add] in Hc.
    destruct (clock_edges (USISR_rd s) (PIN_TWI_rd s)) as [[f1 p1]|] eqn:C1;
      [|discriminate].
    destruct (clock_edges f1 p1) as [[f2 p2]|] eqn:C2; [|discriminate].
    inversion Hc; subst f2 p2.
    assert (Hw : addressMode (TWI_state s) || masterWrite (TWI_state s) = true)
      by (destruct Hst as [-> | ->]; reflexivity).
    destruct (TWI_turn_send msg i 1 s f1 p1 flags pins Hw C1 C2)
      as (s1 & d1 & d2 & g & R & F1 & P1 & D1 & St & Tr).
    assert (A0 : Z.testbit (nth 1 (USIDR_rd s) 0) TWI_NACK_BIT = false)
      by (apply (Hack 0%nat); lia).
    rewrite A0 in R, St.
    assert (Hs1 : SCL_high (PIN_TWI_rd s1) = Some pins')
      by (rewrite P1; exact Hscl).
    destruct (TWI_master_stop_done s1 pins' Hs1)
      as (s2 & R2 & St2 & Tr2 & _).
    exists s2.
    exists [EvTransfer tempUSISR_8bit (sel i msg) d1 g;
            EvTransfer tempUSISR_1bit 0xFF d2 (nth 1 (USIDR_rd s) 0)].
    cbn [TWI_loop]. unfold bind at 1.
    change (Z.of_nat 1) with 1. rewrite R.
    change (to_bool (u8 (1 - 1))) with false. cbv iota.
    unfold bind. rewrite R2. unfold ret.
    split; [reflexivity|]. split.
    { rewrite St2, F1, St.
      destruct (Z.testbit (nth 0 flags 0) USIPF); [|reflexivity].
      destruct Hst as [-> | ->]; reflexivity. }
    split.
    { rewrite Tr2, Tr, <- app_assoc. reflexivity. }
    repeat split.
  - destruct turns as [|t]; [lia|].
    replace (2 * S (S m))%nat with (S (S (2 * S m))) in Hc by lia.
    cbn [clockings] in Hc.
    destruct (clock_edges (USISR_rd s) (PIN_TWI_rd s)) as [[f1 p1]|] eqn:C1;
      [|discriminate].
    destruct (clock_edges f1 p1) as [[f2 p2]|] eqn:C2; [|discriminate].
    assert (Hw : addressMode (TWI_state s) || masterWrite (TWI_state s) = true)
      by (destruct Hst as [-> | ->]; reflexivity).
    destruct (TWI_turn_send msg i (Z.of_nat (S (S m))) s f1 p1 f2 p2 Hw C1 C2)
      as (s1 & d1 & d2 & g & R & F1 & P1 & D1 & St & Tr).
    assert (A0 : Z.testbit (nth 1 (USIDR_rd s) 0) TWI_NACK_BIT = false)
      by (apply (Hack 0%nat); lia).
    rewrite A0 in R, St.
    assert (Hn1 : u8 (Z.of_nat (S (S m)) - 1) = Z.of_nat (S m))
      by (unfold u8; rewrite Z.mod_small; lia).
    destruct (IH t msg (S i) s1 flags pins pins')
      as (s' & evs & R' & St' & Tr' & B' & L' & S').
    + lia.
    + lia.
    + right. rewrite St. destruct Hst as [-> | ->]; reflexivity.
    + rewrite F1, P1. exact Hc.
    + exact Hscl.
    + intros j Hj. rewrite D1, nth_skipn_2.
      replace (2 + (2 * j + 1))%nat with (2 * S j + 1)%nat by lia.
      apply Hack. lia.
    + exists s'.
      exists (EvTransfer tempUSISR_8bit (sel i msg) d1 g
              :: EvTransfer tempUSISR_1bit 0xFF d2 (nth 1 (USIDR_rd s) 0)
              :: evs).
      cbn [TWI_loop]. unfold bind at 1. rewrite R.
      rewrite Hn1.
      replace (to_bool (Z.of_nat (S m))) with true
        by (symmetry; apply to_bool_nonzero; lia).
      split; [exact R'|]. split; [exact St'|]. split.
      { rewrite Tr', Tr, <- app_assoc. reflexivity. }
      split.
      { cbn [app bytes_out]. rewrite Z.eqb_refl.
        change (tempUSISR_1bit =? tempUSISR_8bit) with false. cbv iota.
        rewrite B'. reflexivity. }
      split.
      { cbn [app length]. rewrite L'. lia. }
      cbn [app existsb is_stop orb]. exact S'.
Qed.

(** The loop when the [m + 1] bytes still to come are received. *)
Lemma TWI_loop_receives (m : nat) :
  forall (turns : nat) (msg : list Z) (i : nat) (s : machine)
         (flags pins pins' : list Z),
    (m < turns)%nat -> (m < 255)%nat ->
    TWI_state s = 0 ->
    clockings (2 * S m) (USISR_rd s) (PIN_TWI_rd s) = Some (flags, pins) ->
    SCL_high pins = Some pins' ->
    exists (s' : machine) (evs : list event),
      TWI_loop turns msg i (Z.of_nat (S m)) s
        = Done (1, received (S m) i (USIDR_rd s) msg) s' /\
      TWI_state s' =
        (if Z.testbit (nth 0 flags 0) USIPF then 0
         else TWI_MISSING_STOP_CON) /\
      trace s' = trace s ++ evs ++ [EvStop] /\
      bits_out evs = repeat 0x00 m ++ [0xFF] /\
      length evs = (2 * S m)%nat /\
      existsb is_stop evs = false.
Proof.
  induction m as [|m IH];
    intros turns msg i s flags pins pins' Ht Hm Hst Hc Hscl.
  - destruct turns as [|t]; [lia|].
    cbn [clockings Nat.mul Nat.add] in Hc.
    destruct (clock_edges (USISR_rd s) (PIN_TWI_rd s)) as [[f1 p1]|] eqn:C1;
      [|discriminate].
    destruct (clock_edges f1 p1) as [[f2 p2]|] eqn:C2; [|discriminate].
    inversion Hc; subst f2 p2.
    assert (Hw : addressMode (TWI_state s) || masterWrite (TWI_state s)
                 = false) by (rewrite Hst; reflexivity).
    destruct (TWI_turn_receive msg i 1 s f1 p1 flags pins Hw C1 C2)
      as (s1 & o1 & d1 & d2 & g & R & F1 & P1 & D1 & St & Tr).
    assert (Hs1 : SCL_high (PIN_TWI_rd s1) = Some pins')
      by (rewrite P1; exact Hscl).
    destruct (TWI_master_stop_done s1 pins' Hs1)
      as (s2 & R2 & St2 & Tr2 & _).
    exists s2.
    exists [EvTransfer tempUSISR_8bit o1 d1 (fst (next (USIDR_rd s)));
            EvTransfer tempUSISR_1bit (if 1 =? 1 then 0xFF else 0x00) d2 g].
    cbn [TWI_loop received]. unfold bind at 1.
    change (Z.of_nat 1) with 1. rewrite R.
    change (to_bool (u8 (1 - 1))) with false. cbv iota.
    unfold bind. rewrite R2. unfold ret.
    split; [reflexivity|]. split.
    { rewrite St2, F1, St, Hst. reflexivity. }
    split.
    { rewrite Tr2, Tr, <- app_assoc. reflexivity. }
    repeat split.
  - destruct turns as [|t]; [lia|].
    replace (2 * S (S m))%nat with (S (S (2 * S m))) in Hc by lia.
    cbn [clockings] in Hc.
    destruct (clock_edges (USISR_rd s) (PIN_TWI_rd s)) as [[f1 p1]|] eqn:C1;
      [|discriminate].
    destruct (clock_edges f1 p1) as [[f2 p2]|] eqn:C2; [|discriminate].
    assert (Hw : addressMode (TWI_state s) || masterWrite (TWI_state s)
                 = false) by (rewrite Hst; reflexivity).
    destruct (TWI_turn_receive msg i (Z.of_nat (S (S m))) s f1 p1 f2 p2
                Hw C1 C2)
      as (s1 & o1 & d1 & d2 & g & R & F1 & P1 & D1 & St & Tr).
    assert (Hn1 : u8 (Z.of_nat (S (S m)) - 1) = Z.of_nat (S m))
      by (unfold u8; rewrite Z.mod_small; lia).
    destruct (IH t (upd i (fst (next (USIDR_rd s))) msg) (S i) s1
                flags pins pins')
      as (s' & evs & R' & St' & Tr' & B' & L' & S').
    + lia.
    + lia.
    + rewrite St. exact Hst.
    + rewrite F1, P1. exact Hc.
    + exact Hscl.
    + exists s'.
      exists (EvTransfer tempUSISR_8bit o1 d1 (fst (next (USIDR_rd s)))
              :: EvTransfer tempUSISR_1bit
                   (if Z.of_nat (S (S m)) =? 1 then 0xFF else 0x00) d2 g
              :: evs).
      cbn [TWI_loop]. unfold bind at 1. rewrite R.
      rewrite Hn1.
      replace (to_bool (Z.of_nat (S m))) with true
        by (symmetry; apply to_bool_nonzero; lia).
      split.
      { rewrite R', D1. reflexivity. }
      split; [exact St'|]. split.
      { rewrite Tr', Tr, <- app_assoc. reflexivity. }
      split.
      { cbn [app bits_out].
        change (tempUSISR_8bit =? tempUSISR_1bit) with false. cbv iota.
        rewrite Z.eqb_refl.
        replace (Z.of_nat (S (S m)) =? 1) with false
          by (symmetry; apply Z.eqb_neq; lia).
        rewrite B'. reflexivity. }
      split.
      { cbn [app length]. rewrite L'. lia. }
      cbn [app existsb is_stop orb]. exact S'.
Qed.

End BusCompletes.

(** ** The bus layer: what a caller of the transfer can rely on *)

Lemma upd_length (i : nat) (v : Z) (l : list Z) :
  length (upd i v l) = length l.
Proof.
  revert i. induction l as [|h t IH]; intros [|i]; cbn [upd length];
    try reflexivity.
  rewrite IH. reflexivity.
Qed.

Lemma sel_upd (i j : nat) (v : Z) (l : list Z) :
  (i < length l)%nat ->
  sel j (upd i v l) = if (j =? i)%nat then v else sel j l.
Proof.
  unfold sel. revert i j.
  induction l as [|h t IH]; intros i j Hi; cbn [length] in Hi; [lia|].
  destruct i as [|i]; destruct j as [|j]; cbn [upd nth Nat.eqb];
    try reflexivity.
  apply IH. lia.
Qed.

Lemma received_length (count : nat) :
  forall (i : nat) (data msg : list Z),
    length (received count i data msg) = length msg.
Proof.
  induction count as [|c IH]; intros i data msg; cbn [received];
    [reflexivity|].
  rewrite IH. apply upd_length.
Qed.

(** The bytes of a read: byte [i + k] of the buffer is value [2 * k] of
    the [USIDR] script, the rest of the buffer is as before. *)
Lemma received_sel (count : nat) :
  forall (i : nat) (data msg : list Z) (j : nat),
    (i + count <= length msg)%nat ->
    sel j (received count i data msg) =
      if (i <=? j)%nat && (j <? i + count)%nat
      then nth (2 * (j - i)) data 0 else sel j msg.
Proof.
  induction count as [|c IH]; intros i data msg j Hlen; cbn [received].
  - replace ((i <=? j)%nat && (j <? i + 0)%nat) with false; [reflexivity|].
    symmetry. apply andb_false_iff.
    destruct (Nat.leb_spec i j); [right|left; reflexivity].
    apply Nat.ltb_ge. lia.
  - rewrite IH by (rewrite upd_length; lia).
    rewrite sel_upd by lia.
    destruct (Nat.leb_spec (S i) j) as [H1|H1];
      destruct (Nat.ltb_spec j (S i + c)) as [H2|H2]; cbn [andb].
    + replace (i <=? j)%nat with true by (symmetry; apply Nat.leb_le; lia).
      replace (j <? i + S c)%nat with true
        by (symmetry; apply Nat.ltb_lt; lia).
      cbn [andb]. rewrite nth_skipn_2. f_equal. lia.
    + replace (j =? i)%nat with false by (symmetry; apply Nat.eqb_neq; lia).
      replace (j <? i + S c)%nat with false
        by (symmetry; apply Nat.ltb_ge; lia).
      rewrite andb_false_r. reflexivity.
    + destruct (Nat.eqb_spec j i) as [E|E].
      * subst j. rewrite Nat.leb_refl.
        replace (i <? i + S c)%nat with true
          by (symmetry; apply Nat.ltb_lt; lia).
        cbn [andb]. rewrite Nat.sub_diag.
        destruct data; reflexivity.
      * replace (i <=? j)%nat with false
          by (symmetry; apply Nat.leb_gt; lia).
        reflexivity.
    + destruct (Nat.eqb_spec j i) as [E|E]; [lia|].
      replace (i <=? j)%nat with false by (symmetry; apply Nat.leb_gt; lia).
      reflexivity.
Qed.

Section BusUse.
Context {tgt : target}.

Lemma TWI_loop_turn (turns : nat) (msg : list Z) (i : nat) (n : Z) :
  TWI_loop (S turns) msg i n =
  (r <- TWI_turn msg i n ;;
   match r with
   | inl v => ret (v, msg)
   | inr msg' =>
     if to_bool (u8 (n - 1)) then TWI_loop turns msg' (S i) (u8 (n - 1))
     else TWI_master_stop ;; ret (1, msg')
   end).
Proof. reflexivity. Qed.

(** X14.  A transfer whose parameters fail the verification is refused
    before anything is done on the bus: a buffer address above [RAMEND]
    gives [TWI_DATA_OUT_OF_BOUND], and otherwise a size of at most one
    byte (as a [uint8_t], so that 256 counts as 0) gives [TWI_NO_DATA].
    The function returns FALSE with the buffer as it was; the port and
    its direction register, [USIDR], [USISR] and [USICR] hold what they
    held, no flag, pin or data register has been read, no start
    condition is attempted and the driver's data is untouched: the
    state byte is all that has changed. *)
Theorem TWI_parameters_refused (msg : Z) (buf : list Z) (n : Z)
  (s : machine) :
  msg > RAMEND \/ u8 n <= 1 ->
  exists s' : machine,
    TWI_start_transceiver_with_data msg buf n s = Done (0, buf) s' /\
    TWI_get_state_info s' =
      Done (if msg >? RAMEND then TWI_DATA_OUT_OF_BOUND else TWI_NO_DATA)
           s' /\
    PORT_TWI s' = PORT_TWI s /\ DDR_TWI s' = DDR_TWI s /\
    USISR_rd s' = USISR_rd s /\ USIDR_rd s' = USIDR_rd s /\
    PIN_TWI_rd s' = PIN_TWI_rd s /\
    trace s' = trace s ++ [EvCall buf (u8 n)] /\
    USIDR s' = USIDR s /\ USISR s' = USISR s /\ USICR s' = USICR s /\
    same_data s s'.
Proof.
  intros H. rewrite TWI_entry.
  destruct (msg >? RAMEND) eqn:E.
  - eexists. split; [reflexivity|]. cbn. repeat split.
  - destruct H as [H|H]; [rewrite Z.gtb_ltb in E; apply Z.ltb_ge in E; lia|].
    replace (u8 n <=? 1) with true by (symmetry; apply Z.leb_le; exact H).
    eexists. split; [reflexivity|]. cbn. repeat split.
Qed.

(** X15.  With sound parameters, a flag left pending in [USISR] makes the
    transfer return FALSE without a start condition: the start flag
    gives [TWI_UE_START_CON], else the stop flag of the next read gives
    [TWI_UE_STOP_CON], else the collision flag of the third read gives
    [TWI_UE_DATA_COL].  The port is not touched. *)
Theorem TWI_pending_flag_refused (msg : Z) (buf : list Z) (n : Z)
  (s : machine) :
  msg <= RAMEND ->
  1 < u8 n ->
  Z.testbit (nth 0 (USISR_rd s) 0) USISIF
  || Z.testbit (nth 1 (USISR_rd s) 0) USIPF
  || Z.testbit (nth 2 (USISR_rd s) 0) USIDC = true ->
  exists s' : machine,
    TWI_start_transceiver_with_data msg buf n s = Done (0, buf) s' /\
    TWI_get_state_info s' =
      Done (if Z.testbit (nth 0 (USISR_rd s) 0) USISIF
            then TWI_UE_START_CON
            else if Z.testbit (nth 1 (USISR_rd s) 0) USIPF
            then TWI_UE_STOP_CON else TWI_UE_DATA_COL) s' /\
    PORT_TWI s' = PORT_TWI s /\ DDR_TWI s' = DDR_TWI s /\
    USIDR_rd s' = USIDR_rd s /\ PIN_TWI_rd s' = PIN_TWI_rd s /\
    trace s' = trace s ++ [EvCall buf (u8 n)].
Proof.
  intros Hram Hn Hf. rewrite TWI_entry.
  replace (msg >? RAMEND) with false
    by (symmetry; rewrite Z.gtb_ltb; apply Z.ltb_ge; lia).
  replace (u8 n <=? 1) with false by (symmetry; apply Z.leb_gt; lia).
  destruct (Z.testbit (nth 0 (USISR_rd s) 0) USISIF).
  { eexists. split; [reflexivity|]. cbn. repeat split. }
  destruct (Z.testbit (nth 1 (USISR_rd s) 0) USIPF).
  { eexists. split; [reflexivity|]. cbn. repeat split. }
  destruct (Z.testbit (nth 2 (USISR_rd s) 0) USIDC); [|discriminate].
  eexists. split; [reflexivity|]. cbn. repeat split.
Qed.

(** X16.  When the start condition the transfer generates is not seen in
    [USISR], the error [TWI_MISSING_START_CON] is recorded but the
    function returns TRUE: nothing has been clocked, no byte of the
    buffer was sent or received, and no stop condition follows. *)
Theorem TWI_missing_start_returns_true (msg : Z) (buf : list Z) (n : Z)
  (s : machine) (f1 f2 f3 f4 : Z) (flags pins : list Z) :
  msg <= RAMEND ->
  1 < u8 n ->
  USISR_rd s = f1 :: f2 :: f3 :: f4 :: flags ->
  Z.testbit f1 USISIF = false ->
  Z.testbit f2 USIPF = false ->
  Z.testbit f3 USIDC = false ->
  Z.testbit f4 USISIF = false ->
  SCL_high (PIN_TWI_rd s) = Some pins ->
  exists s' : machine,
    TWI_start_transceiver_with_data msg buf n s = Done (1, buf) s' /\
    TWI_get_state_info s' = Done TWI_MISSING_START_CON s' /\
    trace s' = trace s ++ [EvCall buf (u8 n); EvStart] /\
    USIDR_rd s' = USIDR_rd s /\ USISR_rd s' = flags.
Proof.
  intros Hram Hn Hflags F1 F2 F3 F4 Hscl. rewrite TWI_entry.
  replace (msg >? RAMEND) with false
    by (symmetry; rewrite Z.gtb_ltb; apply Z.ltb_ge; lia).
  replace (u8 n <=? 1) with false by (symmetry; apply Z.leb_gt; lia).
  rewrite Hflags. cbn [nth]. rewrite F1, F2, F3, Hscl, F4.
  eexists. split; [reflexivity|].
  unfold TWI_started. cbn. rewrite Hflags, <- app_assoc. repeat split.
Qed.

(** The run of an acknowledged write transfer. *)
Lemma TWI_write_run (msg : Z) (buf : list Z) (n : Z) (s : machine)
  (f1 f2 f3 f4 : Z) (flags pins flags' pins' pins'' : list Z) :
  msg <= RAMEND ->
  1 < u8 n ->
  USISR_rd s = f1 :: f2 :: f3 :: f4 :: flags ->
  Z.testbit f1 USISIF = false ->
  Z.testbit f2 USIPF = false ->
  Z.testbit f3 USIDC = false ->
  Z.testbit f4 USISIF = true ->
  SCL_high (PIN_TWI_rd s) = Some pins ->
  Z.testbit (sel 0 buf) TWI_READ_BIT = false ->
  clockings (2 * Z.to_nat (u8 n)) flags pins = Some (flags', pins') ->
  SCL_high pins' = Some pins'' ->
  (forall j, (j < Z.to_nat (u8 n))%nat ->
     Z.testbit (nth (2 * j + 1) (USIDR_rd s) 0) TWI_NACK_BIT = false) ->
  exists (s' : machine) (evs : list event),
    TWI_start_transceiver_with_data msg buf n s = Done (1, buf) s' /\
    TWI_get_state_info s' =
      Done (if Z.testbit (nth 0 flags' 0) USIPF then TWI_UE_START_CON
            else TWI_MISSING_STOP_CON) s' /\
    trace s' = trace s ++ EvCall buf (u8 n) :: EvStart :: evs ++ [EvStop] /\
    bytes_out evs = map (fun j => sel j buf) (seq 0 (Z.to_nat (u8 n))) /\
    length evs = (2 * Z.to_nat (u8 n))%nat /\
    existsb is_stop evs = false.
Proof.
  intros Hram Hn Hflags F1 F2 F3 F4 Hscl Hwr Hclk Hstop Hack.
  pose proof (u8_range n) as Un.
  rewrite TWI_entry.
  replace (msg >? RAMEND) with false
    by (symmetry; rewrite Z.gtb_ltb; apply Z.ltb_ge; lia).
  replace (u8 n <=? 1) with false by (symmetry; apply Z.leb_gt; lia).
  rewrite Hflags. cbn [nth]. rewrite F1, F2, F3, Hscl, F4.
  destruct (Z.to_nat (u8 n)) as [|m] eqn:Em; [lia|].
  assert (En : u8 n = Z.of_nat (S m)) by lia.
  set (s0 := TWI_started buf n pins s).
  assert (St0 : TWI_state s0 = 3).
  { change (TWI_state s0)
      with (if Z.testbit (sel 0 buf) TWI_READ_BIT then 1 else 3).
    rewrite Hwr. reflexivity. }
  assert (Fl0 : USISR_rd s0 = flags).
  { change (USISR_rd s0) with (skipn 4 (USISR_rd s)).
    rewrite Hflags. reflexivity. }
  assert (Pi0 : PIN_TWI_rd s0 = pins) by reflexivity.
  assert (Da0 : USIDR_rd s0 = USIDR_rd s) by reflexivity.
  assert (Tr0 : trace s0 = (trace s ++ [EvCall buf (u8 n)]) ++ [EvStart])
    by reflexivity.
  destruct (TWI_loop_sends m 256 buf 0 s0 flags' pins' pins'')
    as (s' & evs & R & St & Tr & B & L & S').
  - lia.
  - lia.
  - left. exact St0.
  - rewrite Fl0, Pi0. exact Hclk.
  - exact Hstop.
  - intros j Hj. rewrite Da0. apply Hack. lia.
  - exists s', evs. rewrite En. split; [exact R|]. split.
    { unfold TWI_get_state_info, get. rewrite St. reflexivity. }
    split.
    { rewrite Tr, Tr0, <- !app_assoc. rewrite En. reflexivity. }
    split; [exact B|]. split; [exact L|exact S'].
Qed.

(** X17.  A write transfer in which the remote device acknowledges the
    address and every data byte: the function returns TRUE with the
    buffer as it was, the bytes shifted out are exactly the [msgSize]
    bytes of the buffer in order, and one stop condition follows the
    last acknowledgement.  The state byte then reads 2 (the write-mode
    bit of the union, the value of [TWI_UE_START_CON]), or
    [TWI_MISSING_STOP_CON] when the stop condition is not seen in
    [USISR]; the function returns TRUE in both cases. *)
Theorem TWI_write_completes (msg : Z) (buf : list Z) (n : Z) (s : machine)
  (f1 f2 f3 f4 : Z) (flags pins flags' pins' pins'' : list Z) :
  msg <= RAMEND ->
  1 < u8 n ->
  USISR_rd s = f1 :: f2 :: f3 :: f4 :: flags ->
  Z.testbit f1 USISIF = false ->
  Z.testbit f2 USIPF = false ->
  Z.testbit f3 USIDC = false ->
  Z.testbit f4 USISIF = true ->
  SCL_high (PIN_TWI_rd s) = Some pins ->
  Z.testbit (sel 0 buf) TWI_READ_BIT = false ->
  clockings (2 * Z.to_nat (u8 n)) flags pins = Some (flags', pins') ->
  SCL_high pins' = Some pins'' ->
  (forall j, (j < Z.to_nat (u8 n))%nat ->
     Z.testbit (nth (2 * j + 1) (USIDR_rd s) 0) TWI_NACK_BIT = false) ->
  exists (s' : machine) (evs : list event),
    TWI_start_transceiver_with_data msg buf n s = Done (1, buf) s' /\
    TWI_get_state_info s' =
      Done (if Z.testbit (nth 0 flags' 0) USIPF then TWI_UE_START_CON
            else TWI_MISSING_STOP_CON) s' /\
    trace s' = trace s ++ EvCall buf (u8 n) :: EvStart :: evs ++ [EvStop] /\
    bytes_out evs = map (fun j => sel j buf) (seq 0 (Z.to_nat (u8 n))) /\
    length evs = (2 * Z.to_nat (u8 n))%nat /\
    existsb is_stop evs = false.
Proof.
  exact (TWI_write_run msg buf n s f1 f2 f3 f4 flags pins flags' pins'
           pins'').
Qed.

(** X18.  A read transfer of [msgSize] bytes whose address byte is
    acknowledged: the function returns TRUE, byte 0 of the buffer keeps
    the address and bytes 1 to [msgSize - 1] hold what the shift
    register gave at each 8-bit transfer, in order; the rest of the
    buffer is as before.  In the acknowledgement slots the master
    leaves SDA released (0xFF) after the address, where the device
    answers, drives an acknowledgement (0x00) after every received byte
    but the last and a not-acknowledgement (0xFF) after the last; one
    stop condition follows. *)
Theorem TWI_read_completes (msg : Z) (buf : list Z) (n : Z) (s : machine)
  (f1 f2 f3 f4 : Z) (flags pins flags' pins' pins'' : list Z) :
  msg <= RAMEND ->
  1 < u8 n ->
  (Z.to_nat (u8 n) <= length buf)%nat ->
  USISR_rd s = f1 :: f2 :: f3 :: f4 :: flags ->
  Z.testbit f1 USISIF = false ->
  Z.testbit f2 USIPF = false ->
  Z.testbit f3 USIDC = false ->
  Z.testbit f4 USISIF = true ->
  SCL_high (PIN_TWI_rd s) = Some pins ->
  Z.testbit (sel 0 buf) TWI_READ_BIT = true ->
  clockings (2 * Z.to_nat (u8 n)) flags pins = Some (flags', pins') ->
  SCL_high pins' = Some pins'' ->
  Z.testbit (nth 1 (USIDR_rd s) 0) TWI_NACK_BIT = false ->
  exists (s' : machine) (buf' : list Z) (evs : list event),
    TWI_start_transceiver_with_data msg buf n s = Done (1, buf') s' /\
    length buf' = length buf /\
    (forall j : nat,
       sel j buf' =
         if (1 <=? j)%nat && (j <? Z.to_nat (u8 n))%nat
         then nth (2 * j) (USIDR_rd s) 0 else sel j buf) /\
    TWI_get_state_info s' =
      Done (if Z.testbit (nth 0 flags' 0) USIPF then 0
            else TWI_MISSING_STOP_CON) s' /\
    trace s' = trace s ++ EvCall buf (u8 n) :: EvStart :: evs ++ [EvStop] /\
    bits_out evs =
      0xFF :: repeat 0x00 (Z.to_nat (u8 n) - 2) ++ [0xFF] /\
    length evs = (2 * Z.to_nat (u8 n))%nat /\
    existsb is_stop evs = false.
Proof.
  intros Hram Hn Hlen Hflags F1 F2 F3 F4 Hscl Hrd Hclk Hstop Hack.
  pose proof (u8_range n) as Un.
  rewrite TWI_entry.
  replace (msg >? RAMEND) with false
    by (symmetry; rewrite Z.gtb_ltb; apply Z.ltb_ge; lia).
  replace (u8 n <=? 1) with false by (symmetry; apply Z.leb_gt; lia).
  rewrite Hflags. cbn [nth]. rewrite F1, F2, F3, Hscl, F4.
  destruct (Z.to_nat (u8 n)) as [|[|m]] eqn:Em; [lia|lia|].
  assert (En : u8 n = Z.of_nat (S (S m))) by lia.
  set (s0 := TWI_started buf n pins s).
  assert (St0 : TWI_state s0 = 1).
  { change (TWI_state s0)
      with (if Z.testbit (sel 0 buf) TWI_READ_BIT then 1 else 3).
    rewrite Hrd. reflexivity. }
  assert (Fl0 : USISR_rd s0 = flags).
  { change (USISR_rd s0) with (skipn 4 (USISR_rd s)).
    rewrite Hflags. reflexivity. }
  assert (Pi0 : PIN_TWI_rd s0 = pins) by reflexivity.
  assert (Da0 : USIDR_rd s0 = USIDR_rd s) by reflexivity.
  assert (Tr0 : trace s0 = (trace s ++ [EvCall buf (u8 n)]) ++ [EvStart])
    by reflexivity.
  replace (2 * S (S m))%nat with (S (S (2 * S m))) in Hclk by lia.
  cbn [clockings] in Hclk.
  destruct (clock_edges flags pins) as [[g1 p1]|] eqn:C1; [|discriminate].
  destruct (clock_edges g1 p1) as [[g2 p2]|] eqn:C2; [|discriminate].
  assert (Hw : addressMode (TWI_state s0) || masterWrite (TWI_state s0)
               = true) by (rewrite St0; reflexivity).
  rewrite <- Fl0, <- Pi0 in C1.
  destruct (TWI_turn_send buf 0 (u8 n) s0 g1 p1 g2 p2 Hw C1 C2)
    as (s1 & d1 & d2 & g & R1 & Fl1 & Pi1 & Da1 & St1 & Tr1).
  rewrite Da0, Hack in R1, St1. rewrite Da0 in Da1, Tr1.
  rewrite St0 in St1. change (with_addressMode false 1) with 0 in St1.
  destruct (TWI_loop_receives m 255 buf 1 s1 flags' pins' pins'')
    as (s' & evs & R & St & Tr & B & L & S').
  - lia.
  - lia.
  - exact St1.
  - rewrite Fl1, Pi1. exact Hclk.
  - exact Hstop.
  - exists s', (received (S m) 1 (USIDR_rd s1) buf).
    exists (EvTransfer tempUSISR_8bit (sel 0 buf) d1 g
            :: EvTransfer tempUSISR_1bit 0xFF d2 (nth 1 (USIDR_rd s) 0)
            :: evs).
    split.
    { assert (E1 : u8 (u8 n - 1) = Z.of_nat (S m))
        by (rewrite En; unfold u8; rewrite Z.mod_small; lia).
      assert (E2 : to_bool (Z.of_nat (S m)) = true)
        by (apply to_bool_nonzero; lia).
      rewrite (TWI_loop_turn 255). unfold bind at 1.
      rewrite R1, E1, E2. exact R. }
    split; [apply received_length|]. split.
    { intros j. rewrite received_sel by lia. rewrite Da1.
      change (1 + S m)%nat with (S (S m)).
      destruct ((1 <=? j)%nat && (j <? S (S m))%nat) eqn:E; [|reflexivity].
      apply andb_true_iff in E. destruct E as [E _].
      apply Nat.leb_le in E.
      rewrite nth_skipn_2. f_equal. lia. }
    split.
    { unfold TWI_get_state_info, get. rewrite St. reflexivity. }
    split.
    { rewrite Tr, Tr1, Tr0, <- !app_assoc. reflexivity. }
    split.
    { cbn [bits_out].
      change (tempUSISR_8bit =? tempUSISR_1bit) with false. cbv iota.
      rewrite Z.eqb_refl. rewrite B.
      replace (S (S m) - 2)%nat with m by lia. reflexivity. }
    split.
    { cbn [length]. rewrite L. lia. }
    cbn [existsb is_stop orb]. exact S'.
Qed.

(** X19.  Whatever the bus does, a transfer that returns FALSE hands the
    buffer back as it received it: no byte was stored into it. *)
Theorem TWI_failed_transfer_keeps_buffer (msg : Z) (buf : list Z) (n : Z)
  (s s' : machine) (buf' : list Z) :
  TWI_start_transceiver_with_data msg buf n s = Done (0, buf') s' ->
  buf' = buf.
Proof. exact (TWI_failure_keeps_buffer msg buf n s s' buf'). Qed.

End BusUse.

(** ** The bus layer and the pins of the port *)

Lemma latch_or_bits (x k i : Z) :
  0 <= k ->
  Z.testbit (u8 (Z.lor x (Z.shiftl 1 k))) i =
    (i <? 8) && (Z.testbit x i || (k =? i)).
Proof.
  intros Hk. rewrite u8_bits, Z.lor_spec, shiftl_1_bits by exact Hk.
  reflexivity.
Qed.

Lemma latch_and_bits (x k i : Z) :
  0 <= k -> 0 <= i ->
  Z.testbit (u8 (Z.land x (Z.lnot (Z.shiftl 1 k)))) i =
    (i <? 8) && (Z.testbit x i && negb (k =? i)).
Proof.
  intros Hk Hi.
  rewrite u8_bits, Z.land_spec, Z.lnot_spec, shiftl_1_bits by assumption.
  reflexivity.
Qed.

Section Frames.
Context {tgt : target}.
Variable R : machine -> machine -> Prop.
Hypothesis R_trans : forall a b c, R a b -> R b c -> R a c.
Hypothesis R_ports :
  forall s s', PORT_TWI s' = PORT_TWI s -> DDR_TWI s' = DDR_TWI s -> R s s'.

Lemma framed_ret {A : Type} (a : A) : respects R (ret a).
Proof. intros s. apply R_ports; reflexivity. Qed.

Lemma framed_get {A : Type} (f : machine -> A) : respects R (get f).
Proof. intros s. apply R_ports; reflexivity. Qed.

Lemma framed_bind {A B : Type} (m : M A) (k : A -> M B) :
  respects R m -> (forall a, respects R (k a)) -> respects R (bind m k).
Proof.
  intros Hm Hk s. unfold bind. specialize (Hm s).
  destruct (m s) as [a s1| |]; [|exact I|exact Hm].
  specialize (Hk a s1). destruct (k a s1); [|exact I|exact Hk].
  eapply R_trans; eassumption.
Qed.

Lemma framed_modify (f : machine -> machine) :
  (forall s, R s (f s)) -> respects R (modify f).
Proof. intros Hf s. apply Hf. Qed.

Lemma framed_read_USISR : respects R read_USISR.
Proof. intros s. apply R_ports; reflexivity. Qed.

Lemma framed_read_USIDR : respects R read_USIDR.
Proof. intros s. apply R_ports; reflexivity. Qed.

Lemma framed_wait_SCL : respects R wait_SCL.
Proof.
  intros s. unfold wait_SCL.
  destruct (SCL_high (PIN_TWI_rd s)); [apply R_ports; reflexivity | exact I].
Qed.

Lemma framed_pulse_clock (temp : Z) : respects R (pulse_clock temp).
Proof.
  intros s. unfold pulse_clock.
  destruct (clock_edges (USISR_rd s) (PIN_TWI_rd s)) as [[f p]|];
    [apply R_ports; reflexivity | exact I].
Qed.

End Frames.

(** [ports_frame tr po fin]: the frame rule for a relation with
    transitivity [tr] that holds when both port registers are kept
    ([po]); [fin] settles the writes to the port registers. *)
Ltac ports_frame tr po fin :=
  repeat first
    [ lazymatch goal with
      | |- respects _ (bind _ _) => apply (framed_bind _ tr); [| intros ]
      | |- respects _ (ret _) => apply (framed_ret _ po)
      | |- respects _ (get _) => apply (framed_get _ po)
      | |- respects _ read_USISR => apply (framed_read_USISR _ po)
      | |- respects _ read_USIDR => apply (framed_read_USIDR _ po)
      | |- respects _ wait_SCL => apply (framed_wait_SCL _ po)
      | |- respects _ (pulse_clock _) => apply (framed_pulse_clock _ po)
      | |- respects _ (modify _) =>
        apply framed_modify; intros;
        first [ apply po; reflexivity | fin ]
      | |- respects _ (if ?c then _ else _) => destruct c
      | |- respects _ (match ?x with _ => _ end) => destruct x
      end
    | solve [fin] ].

Section Pins.
Context {tgt : target}.
Hypothesis SDA_pin : 0 <= PIN_TWI_SDA < 8.
Hypothesis SCL_pin : 0 <= PIN_TWI_SCL < 8.

Lemma other_pins_trans (a b c : machine) :
  other_pins_kept a b -> other_pins_kept b c -> other_pins_kept a c.
Proof.
  intros H1 H2 i Hi Hd Hc.
  destruct (H1 i Hi Hd Hc) as [P1 D1].
  destruct (H2 i Hi Hd Hc) as [P2 D2].
  split; congruence.
Qed.

Lemma other_pins_ports (s s' : machine) :
  PORT_TWI s' = PORT_TWI s -> DDR_TWI s' = DDR_TWI s ->
  other_pins_kept s s'.
Proof. intros HP HD i _ _ _. rewrite HP, HD. split; reflexivity. Qed.

Lemma other_pins_PORT_TWI_or (k : Z) :
  k = PIN_TWI_SDA \/ k = PIN_TWI_SCL ->
  respects other_pins_kept (PORT_TWI_or (Z.shiftl 1 k)).
Proof.
  intros Hk s i Hi Hd Hc. cbn. split; [|reflexivity].
  rewrite latch_or_bits by (destruct Hk; subst k; lia).
  replace (i <? 8) with true by (symmetry; apply Z.ltb_lt; lia).
  replace (k =? i) with false
    by (symmetry; apply Z.eqb_neq; destruct Hk; subst k; lia).
  rewrite orb_false_r. reflexivity.
Qed.

Lemma other_pins_PORT_TWI_and (k : Z) :
  k = PIN_TWI_SDA \/ k = PIN_TWI_SCL ->
  respects other_pins_kept (PORT_TWI_and (Z.lnot (Z.shiftl 1 k))).
Proof.
  intros Hk s i Hi Hd Hc. cbn. split; [|reflexivity].
  rewrite latch_and_bits by (destruct Hk; subst k; lia).
  replace (i <? 8) with true by (symmetry; apply Z.ltb_lt; lia).
  replace (k =? i) with false
    by (symmetry; apply Z.eqb_neq; destruct Hk; subst k; lia).
  cbn [negb andb]. rewrite andb_true_r. reflexivity.
Qed.

Lemma other_pins_DDR_TWI_or (k : Z) :
  k = PIN_TWI_SDA \/ k = PIN_TWI_SCL ->
  respects other_pins_kept (DDR_TWI_or (Z.shiftl 1 k)).
Proof.
  intros Hk s i Hi Hd Hc. cbn. split; [reflexivity|].
  rewrite latch_or_bits by (destruct Hk; subst k; lia).
  replace (i <? 8) with true by (symmetry; apply Z.ltb_lt; lia).
  replace (k =? i) with false
    by (symmetry; apply Z.eqb_neq; destruct Hk; subst k; lia).
  rewrite orb_false_r. reflexivity.
Qed.

Lemma other_pins_DDR_TWI_and (k : Z) :
  k = PIN_TWI_SDA \/ k = PIN_TWI_SCL ->
  respects other_pins_kept (DDR_TWI_and (Z.lnot (Z.shiftl 1 k))).
Proof.
  intros Hk s i Hi Hd Hc. cbn. split; [reflexivity|].
  rewrite latch_and_bits by (destruct Hk; subst k; lia).
  replace (i <? 8) with true by (symmetry; apply Z.ltb_lt; lia).
  replace (k =? i) with false
    by (symmetry; apply Z.eqb_neq; destruct Hk; subst k; lia).
  cbn [negb andb]. rewrite andb_true_r. reflexivity.
Qed.

Ltac pin_write :=
  first [ apply other_pins_PORT_TWI_or | apply other_pins_PORT_TWI_and
        | apply other_pins_DDR_TWI_or | apply other_pins_DDR_TWI_and ];
  first [ left; reflexivity | right; reflexivity ].

Ltac pins_frame :=
  ports_frame other_pins_trans other_pins_ports pin_write.

Lemma other_pins_TWI_master_transfer (temp : Z) :
  respects other_pins_kept (TWI_master_transfer temp).
Proof. unfold TWI_master_transfer, log. pins_frame. Qed.

Lemma other_pins_TWI_master_stop :
  respects other_pins_kept TWI_master_stop.
Proof. unfold TWI_master_stop, log. pins_frame. Qed.

Lemma other_pins_TWI_turn (msg : list Z) (i : nat) (n : Z) :
  respects other_pins_kept (TWI_turn msg i n).
Proof.
  unfold TWI_turn.
  ports_frame other_pins_trans other_pins_ports
    ltac:(first [ apply other_pins_TWI_master_transfer | pin_write ]).
Qed.

Lemma other_pins_TWI_loop (turns : nat) :
  forall msg i n, respects other_pins_kept (TWI_loop turns msg i n).
Proof.
  induction turns as [|k IH]; intros msg i n; cbn [TWI_loop].
  - intros s. exact I.
  - ports_frame other_pins_trans other_pins_ports
      ltac:(first [ apply other_pins_TWI_turn | apply IH
                  | apply other_pins_TWI_master_stop ]).
Qed.

Lemma other_pins_TWI_start_transceiver_with_data (msg : Z) (buf : list Z)
  (n : Z) :
  respects other_pins_kept (TWI_start_transceiver_with_data msg buf n).
Proof.
  unfold TWI_start_transceiver_with_data, log.
  ports_frame other_pins_trans other_pins_ports
    ltac:(first [ apply other_pins_TWI_loop | pin_write ]).
Qed.

(** X20.  Whatever the bus answers, a transfer that returns has changed no
    bit of the output latch or of the direction register of the port
    other than those of SDA and SCL, and none of the driver's data. *)
Theorem TWI_keeps_other_pins (msg : Z) (buf : list Z) (n : Z)
  (s s' : machine) (x : Z * list Z) :
  TWI_start_transceiver_with_data msg buf n s = Done x s' ->
  other_pins_kept s s' /\ same_data s s'.
Proof.
  intros H. split.
  - pose proof (other_pins_TWI_start_transceiver_with_data msg buf n s) as R.
    rewrite H in R. exact R.
  - exact (TWI_keeps_data msg buf n s s' x H).
Qed.

(** X21.  [TWI_master_initialize] always returns; afterwards SDA and SCL are
    outputs with their latch bits set (the released level), the other
    pins of the port are as before, the shift register holds 0xFF, the
    USI is in two-wire mode with the software clock strobe
    ([USICR] = 0x3A), the four flags of [USISR] are cleared and its
    counter reset ([USISR] = 0xF0).  The state byte and the driver's
    data are not touched. *)
Theorem TWI_master_initialize_releases_bus (s : machine) :
  exists s' : machine,
    TWI_master_initialize s = Done tt s' /\
    Z.testbit (PORT_TWI s') PIN_TWI_SDA = true /\
    Z.testbit (PORT_TWI s') PIN_TWI_SCL = true /\
    Z.testbit (DDR_TWI s') PIN_TWI_SDA = true /\
    Z.testbit (DDR_TWI s') PIN_TWI_SCL = true /\
    other_pins_kept s s' /\
    USIDR s' = 0xFF /\ USICR s' = 0x3A /\ USISR s' = 0xF0 /\
    TWI_state s' = TWI_state s /\ same_data s s' /\ trace s' = trace s.
Proof.
  eexists. split; [reflexivity|].
  assert (B : forall x k,
            0 <= k < 8 -> (k <? 8) && (x || (k =? k)) = true).
  { intros x k Hk. rewrite Z.eqb_refl, orb_true_r.
    apply andb_true_iff. split; [apply Z.ltb_lt; lia | reflexivity]. }
  assert (C : forall x k j,
            0 <= k < 8 -> 0 <= j ->
            Z.testbit x k = true ->
            Z.testbit (u8 (Z.lor x (Z.shiftl 1 j))) k = true).
  { intros x k j Hk Hj Hx. rewrite latch_or_bits, Hx by lia.
    apply andb_true_iff. split; [apply Z.ltb_lt; lia | reflexivity]. }
  cbn [PORT_TWI DDR_TWI USIDR USICR USISR TWI_state trace
       set_PORT_TWI set_DDR_TWI set_USIDR set_USICR set_USISR].
  split. { apply C; [lia|lia|]. rewrite latch_or_bits by lia. apply B. lia. }
  split. { rewrite latch_or_bits by lia. apply B. lia. }
  split. { apply C; [lia|lia|]. rewrite latch_or_bits by lia. apply B. lia. }
  split. { rewrite latch_or_bits by lia. apply B. lia. }
  split.
  { intros i Hi Hd Hc.
    cbn [PORT_TWI DDR_TWI set_PORT_TWI set_DDR_TWI set_USIDR set_USICR
         set_USISR].
    rewrite !latch_or_bits by lia.
    replace (i <? 8) with true by (symmetry; apply Z.ltb_lt; lia).
    replace (PIN_TWI_SDA =? i) with false
      by (symmetry; apply Z.eqb_neq; lia).
    replace (PIN_TWI_SCL =? i) with false
      by (symmetry; apply Z.eqb_neq; lia).
    rewrite !orb_false_r. cbn [andb]. split; reflexivity. }
  repeat split.
Qed.

Lemma TWI_master_transfer_port (temp : Z) (s s' : machine) (a : Z) :
  TWI_master_transfer temp s = Done a s' ->
  PORT_TWI s' = PORT_TWI s /\ TWI_state s' = TWI_state s.
Proof.
  intros H.
  destruct (clock_edges (USISR_rd s) (PIN_TWI_rd s)) as [[f p]|] eqn:E.
  - revert H.
    unfold TWI_master_transfer, bind, get, modify, pulse_clock,
      read_USIDR, DDR_TWI_or, log, modify, ret.
    cbn. rewrite E. cbn. intros H. inversion H. split; reflexivity.
  - rewrite (TWI_master_transfer_hang temp s E) in H. discriminate.
Qed.

(** A turn of the loop and the output latch: a turn that sends pulls
    SCL low first, and nothing else in a turn writes the latch; a turn
    that gives up has recorded which acknowledgement was missing. *)
Lemma TWI_turn_port (msg : list Z) (i : nat) (n : Z) (s s' : machine)
  (r : Z + list Z) :
  TWI_turn msg i n s = Done r s' ->
  PORT_TWI s' =
    (if addressMode (TWI_state s) || masterWrite (TWI_state s)
     then u8 (Z.land (PORT_TWI s) (Z.lnot (Z.shiftl 1 PIN_TWI_SCL)))
     else PORT_TWI s) /\
  match r with
  | inl _ =>
    addressMode (TWI_state s) || masterWrite (TWI_state s) = true /\
    (TWI_state s' = TWI_NO_ACK_ON_DATA \/
     TWI_state s' = TWI_NO_ACK_ON_ADDRESS)
  | inr _ => True
  end.
Proof.
  unfold TWI_turn. unfold bind at 1. unfold get at 1.
  destruct (addressMode (TWI_state s) || masterWrite (TWI_state s)) eqn:Hw.
  - unfold PORT_TWI_and, DDR_TWI_and.
    unfold bind at 1. unfold modify at 1.
    unfold bind at 1. unfold modify at 1.
    set (s1 := set_USIDR _ _).
    unfold bind at 1.
    destruct (TWI_master_transfer tempUSISR_8bit s1) as [g s2| |] eqn:R2;
      try discriminate.
    unfold bind at 1. unfold modify at 1.
    set (s3 := set_DDR_TWI _ s2).
    unfold bind at 1.
    destruct (TWI_master_transfer tempUSISR_1bit s3) as [a s4| |] eqn:R4;
      try discriminate.
    apply TWI_master_transfer_port in R2. destruct R2 as (P2 & _).
    apply TWI_master_transfer_port in R4. destruct R4 as (P4 & _).
    assert (HP : PORT_TWI s4 =
                 u8 (Z.land (PORT_TWI s) (Z.lnot (Z.shiftl 1 PIN_TWI_SCL)))).
    { rewrite P4. subst s3. cbn. rewrite P2. reflexivity. }
    destruct (to_bool (Z.land a (Z.shiftl 1 TWI_NACK_BIT))).
    + unfold bind, get, modify, ret.
      destruct (addressMode (TWI_state s4)); intros H; inversion H; subst;
        cbn; auto.
    + unfold bind, modify, ret. intros H. inversion H; subst.
      cbn. auto.
  - unfold DDR_TWI_and.
    unfold bind at 1. unfold modify at 1.
    set (s1 := set_DDR_TWI _ _).
    unfold bind at 1.
    destruct (TWI_master_transfer tempUSISR_8bit s1) as [g s2| |] eqn:R2;
      try discriminate.
    apply TWI_master_transfer_port in R2. destruct R2 as (P2 & _).
    unfold bind at 1.
    assert (Hm : forall v, exists s3, modify (set_USIDR v) s2 = Done tt s3 /\
                   PORT_TWI s3 = PORT_TWI s).
    { intros v. eexists. split; [reflexivity|]. cbn. rewrite P2. reflexivity. }
    destruct (n =? 1).
    + destruct (Hm 0xFF) as (s3 & -> & P3).
      unfold bind at 1.
      destruct (TWI_master_transfer tempUSISR_1bit s3) as [a s4| |] eqn:R4;
        try discriminate.
      apply TWI_master_transfer_port in R4. destruct R4 as (P4 & _).
      unfold ret. intros H. inversion H; subst. split; [congruence|exact I].
    + destruct (Hm 0x00) as (s3 & -> & P3).
      unfold bind at 1.
      destruct (TWI_master_transfer tempUSISR_1bit s3) as [a s4| |] eqn:R4;
        try discriminate.
      apply TWI_master_transfer_port in R4. destruct R4 as (P4 & _).
      unfold ret. intros H. inversion H; subst. split; [congruence|exact I].
Qed.

Lemma TWI_master_stop_port (s s' : machine) (v : Z) :
  TWI_master_stop s = Done v s' ->
  Z.testbit (PORT_TWI s') PIN_TWI_SDA = true /\
  Z.testbit (PORT_TWI s') PIN_TWI_SCL = true /\
  (TWI_state s' = TWI_state s \/ TWI_state s' = TWI_MISSING_STOP_CON).
Proof.
  unfold TWI_master_stop, log, PORT_TWI_and, PORT_TWI_or, wait_SCL,
    read_USISR, bind, modify.
  cbn [PIN_TWI_rd USISR_rd set_PORT_TWI set_trace set_PIN_TWI_rd
       set_USISR_rd].
  destruct (SCL_high (PIN_TWI_rd s)) as [pins|]; [|discriminate].
  assert (A : forall t : machine,
    Z.testbit (PORT_TWI
      (set_PORT_TWI
         (u8 (Z.lor (u8 (Z.lor (u8 (Z.land (PORT_TWI s)
                (Z.lnot (Z.shiftl 1 PIN_TWI_SDA))))
              (Z.shiftl 1 PIN_TWI_SCL))) (Z.shiftl 1 PIN_TWI_SDA))) t))
      PIN_TWI_SDA = true /\
    Z.testbit (PORT_TWI
      (set_PORT_TWI
         (u8 (Z.lor (u8 (Z.lor (u8 (Z.land (PORT_TWI s)
                (Z.lnot (Z.shiftl 1 PIN_TWI_SDA))))
              (Z.shiftl 1 PIN_TWI_SCL))) (Z.shiftl 1 PIN_TWI_SDA))) t))
      PIN_TWI_SCL = true).
  { intros t. cbn [PORT_TWI set_PORT_TWI].
    rewrite !latch_or_bits by lia. rewrite !Z.eqb_refl.
    replace (PIN_TWI_SDA <? 8) with true by (symmetry; apply Z.ltb_lt; lia).
    replace (PIN_TWI_SCL <? 8) with true by (symmetry; apply Z.ltb_lt; lia).
    rewrite !orb_true_r. cbn [andb orb]. split; reflexivity. }
  cbn [PIN_TWI_rd USISR_rd PORT_TWI set_PORT_TWI set_trace set_PIN_TWI_rd
       set_USISR_rd].
  destruct (negb _); unfold ret; intros H; inversion H; subst;
    (split; [|split]); try apply A; cbn; auto.
Qed.

(** The loop and the output latch, from a machine in which the SDA
    latch bit is set and the state byte holds mode bits only. *)
Lemma TWI_loop_lines (SDA_SCL : PIN_TWI_SDA <> PIN_TWI_SCL) (turns : nat) :
  forall (msg : list Z) (i : nat) (n : Z) (s s' : machine) (r : Z)
         (b : list Z),
    Z.testbit (PORT_TWI s) PIN_TWI_SDA = true ->
    0 <= TWI_state s <= 3 ->
    TWI_loop turns msg i n s = Done (r, b) s' ->
    Z.testbit (PORT_TWI s') PIN_TWI_SDA = true /\
    ((r = 0 /\ Z.testbit (PORT_TWI s') PIN_TWI_SCL = false /\
      5 <= TWI_state s' <= 6) \/
     (r = 1 /\ Z.testbit (PORT_TWI s') PIN_TWI_SCL = true /\
      (0 <= TWI_state s' <= 3 \/ TWI_state s' = TWI_MISSING_STOP_CON))).
Proof.
  induction turns as [|k IH]; intros msg i n s s' r b Hsda Hst;
    cbn [TWI_loop]; [discriminate|].
  unfold bind at 1.
  destruct (TWI_turn msg i n s) as [x s1| |] eqn:T; try discriminate.
  pose proof (TWI_turn_port _ _ _ _ _ _ T) as [HP HR].
  pose proof (TWI_turn_inv _ _ _ _ _ _ T) as HI.
  assert (Hsda1 : Z.testbit (PORT_TWI s1) PIN_TWI_SDA = true).
  { rewrite HP.
    destruct (addressMode (TWI_state s) || masterWrite (TWI_state s));
      [|exact Hsda].
    rewrite latch_and_bits, Hsda by lia.
    replace (PIN_TWI_SDA <? 8) with true by (symmetry; apply Z.ltb_lt; lia).
    replace (PIN_TWI_SCL =? PIN_TWI_SDA) with false
      by (symmetry; apply Z.eqb_neq; lia).
    reflexivity. }
  destruct x as [v|msg1].
  - destruct HR as [Hw HS]. destruct HI as [-> _].
    unfold ret. intros H. inversion H; subst.
    split; [exact Hsda1|]. left. split; [reflexivity|]. split.
    + rewrite HP, Hw, latch_and_bits by lia.
      rewrite Z.eqb_refl. cbn [negb]. rewrite andb_false_r.
      apply andb_false_r.
    + unfold TWI_NO_ACK_ON_DATA, TWI_NO_ACK_ON_ADDRESS in HS. lia.
  - assert (Hst1 : 0 <= TWI_state s1 <= 3).
    { destruct (addressMode (TWI_state s) || masterWrite (TWI_state s)).
      - destruct HI as [_ ->].
        assert (E : TWI_state s = 0 \/ TWI_state s = 1 \/ TWI_state s = 2 \/
                    TWI_state s = 3) by lia.
        destruct E as [-> | [-> | [-> | ->]]]; cbv; split; discriminate.
      - rewrite HI. exact Hst. }
    destruct (to_bool (u8 (n - 1))).
    + apply IH; assumption.
    + unfold bind.
      destruct (TWI_master_stop s1) as [v s2| |] eqn:P; try discriminate.
      apply TWI_master_stop_port in P. destruct P as (A1 & A2 & A3).
      unfold ret. intros H. inversion H; subst.
      split; [exact A1|]. right. split; [reflexivity|]. split; [exact A2|].
      destruct A3 as [A3|A3]; [left; rewrite A3; exact Hst1 | right; exact A3].
Qed.

(** X22.  The output latch after a transfer.  When the transfer has run to
    its stop condition (it returned TRUE and the state byte is not
    [TWI_MISSING_START_CON]) both lines are released.  When it was
    given up, after a byte that was not acknowledged or a start
    condition that was not detected (state byte 5, 6 or 7), no stop
    condition was sent: SDA is released but SCL is left pulled low. *)
Theorem TWI_lines_after_transfer (msg : Z) (buf : list Z) (n : Z)
  (s s' : machine) (r : Z) (buf' : list Z) :
  PIN_TWI_SDA <> PIN_TWI_SCL ->
  TWI_start_transceiver_with_data msg buf n s = Done (r, buf') s' ->
  (r = 1 -> TWI_state s' <> TWI_MISSING_START_CON ->
   Z.testbit (PORT_TWI s') PIN_TWI_SDA = true /\
   Z.testbit (PORT_TWI s') PIN_TWI_SCL = true) /\
  (TWI_NO_ACK_ON_DATA <= TWI_state s' <= TWI_MISSING_START_CON ->
   Z.testbit (PORT_TWI s') PIN_TWI_SDA = true /\
   Z.testbit (PORT_TWI s') PIN_TWI_SCL = false).
Proof.
  intros Hne. rewrite TWI_entry.
  unfold TWI_NO_ACK_ON_DATA, TWI_MISSING_START_CON.
  assert (Rf : forall code k t,
            0 <= code <= 4 ->
            Done (0, buf) (TWI_refused code k buf n s) = Done (r, buf') t ->
            (r = 1 -> TWI_state t <> 7 ->
             Z.testbit (PORT_TWI t) PIN_TWI_SDA = true /\
             Z.testbit (PORT_TWI t) PIN_TWI_SCL = true) /\
            (5 <= TWI_state t <= 7 ->
             Z.testbit (PORT_TWI t) PIN_TWI_SDA = true /\
             Z.testbit (PORT_TWI t) PIN_TWI_SCL = false)).
  { intros code k t Hc H. inversion H; subst. split.
    - intros C. discriminate C.
    - cbn [TWI_refused TWI_state set_TWI_state]. unfold TWI_refused.
      cbn [TWI_state set_TWI_state]. lia. }
  destruct (msg >? RAMEND); [apply Rf; cbv; split; discriminate|].
  destruct (u8 n <=? 1); [apply Rf; cbv; split; discriminate|].
  destruct (Z.testbit (nth 0 (USISR_rd s) 0) USISIF);
    [apply Rf; cbv; split; discriminate|].
  destruct (Z.testbit (nth 1 (USISR_rd s) 0) USIPF);
    [apply Rf; cbv; split; discriminate|].
  destruct (Z.testbit (nth 2 (USISR_rd s) 0) USIDC);
    [apply Rf; cbv; split; discriminate|].
  destruct (SCL_high (PIN_TWI_rd s)) as [pins|]; [|discriminate].
  set (s0 := TWI_started buf n pins s).
  assert (Hsda0 : Z.testbit (PORT_TWI s0) PIN_TWI_SDA = true).
  { subst s0. unfold TWI_started. cbv zeta.
    cbn [PORT_TWI set_PORT_TWI set_USISR_rd].
    rewrite latch_or_bits by lia. rewrite Z.eqb_refl, orb_true_r.
    apply andb_true_iff. split; [apply Z.ltb_lt; lia|reflexivity]. }
  assert (Hscl0 : Z.testbit (PORT_TWI s0) PIN_TWI_SCL = false).
  { subst s0. unfold TWI_started. cbv zeta.
    cbn [PORT_TWI set_PORT_TWI set_USISR_rd].
    rewrite latch_or_bits, latch_and_bits by lia.
    rewrite Z.eqb_refl. cbn [negb].
    replace (PIN_TWI_SDA =? PIN_TWI_SCL) with false
      by (symmetry; apply Z.eqb_neq; lia).
    rewrite !andb_false_r. reflexivity. }
  assert (Hst0 : 0 <= TWI_state s0 <= 3).
  { change (TWI_state s0)
      with (if Z.testbit (sel 0 buf) TWI_READ_BIT then 1 else 3).
    destruct (Z.testbit (sel 0 buf) TWI_READ_BIT); lia. }
  destruct (Z.testbit (nth 3 (USISR_rd s) 0) USISIF).
  - intros H.
    destruct (TWI_loop_lines Hne _ _ _ _ _ _ _ _ Hsda0 Hst0 H)
      as [A [(-> & B & C) | (-> & B & C)]].
    + split; [intros D; discriminate D|]. intros _. split; assumption.
    + split; [intros _ _; split; assumption|].
      unfold TWI_MISSING_STOP_CON in C. lia.
  - intros H. inversion H; subst. split.
    + intros _ C. exfalso. apply C. reflexivity.
    + intros _. split; assumption.
Qed.

End Pins.

(** ** The driver on a bus that answers *)

Lemma sel_seq (l : list Z) :
  map (fun j => sel j l) (seq 0 (length l)) = l.
Proof.
  unfold sel. induction l as [|a l IH]; [reflexivity|].
  cbn [length seq map nth]. rewrite <- seq_shift, map_map.
  cbn [nth]. rewrite IH. reflexivity.
Qed.

Section DriverOnBus.
Context {tgt : target}.

(** X23.  [ds3231_set_time] on a bus where the device acknowledges the
    address and the eight bytes after it: the nine bytes go out in
    register order (seconds, minutes, hours, weekday, date, month with
    the century flag, year, each in BCD, after the address and the
    register pointer 0) and a stop condition follows, so the device has
    the new time; yet the function returns FALSE, because it takes the
    TRUE of the transfer for an error. *)
Theorem ds3231_set_time_on_answering_bus (time_ : time) (s : machine) :
  frame s <= RAMEND ->
  bus_answers 9 9 s ->
  let century := fst (reduce_year time_) in
  let t := snd (reduce_year time_) in
  exists (s' : machine) (m : list Z) (evs : list event),
    ds3231_set_time time_ s = Done (0, t) s' /\
    trace s' = trace s ++ EvCall m 9 :: EvStart :: evs ++ [EvStop] /\
    bytes_out evs = m /\
    m = [WRITE_ADD; SECDR; dec2bcd (sec t); dec2bcd (min t);
         dec2bcd (hour t); dec2bcd (wday t); dec2bcd (mday t);
         u8 (dec2bcd (mon t) + century); dec2bcd (year t)] /\
    existsb is_stop evs = false.
Proof.
  intros Hram (f1 & f2 & f3 & f4 & flags & pins & flags' & pins' & pins''
               & Hf & F1 & F2 & F3 & F4 & Hscl & Hclk & Hstop & Hack)
         century t.
  pose proof (local_array_length 9 s) as L.
  destruct (local_array 9 s)
    as [|x0 [|x1 [|x2 [|x3 [|x4 [|x5 [|x6 [|x7 [|x8 [|x9 l]]]]]]]]]] eqn:A;
    try discriminate.
  set (m := [WRITE_ADD; SECDR; dec2bcd (sec t); dec2bcd (min t);
             dec2bcd (hour t); dec2bcd (wday t); dec2bcd (mday t);
             u8 (dec2bcd (mon t) + century); dec2bcd (year t)]).
  destruct (TWI_write_run (frame s) m 9 s f1 f2 f3 f4 flags pins flags'
              pins' pins'' Hram eq_refl Hf F1 F2 F3 F4 Hscl eq_refl Hclk
              Hstop Hack)
    as (s' & evs & R & _ & T & B & _ & S').
  exists s', m, evs. split.
  - unfold ds3231_set_time.
    unfold bind at 1. unfold get at 1. unfold bind at 1. unfold alloca at 1.
    unfold get at 1. rewrite A.
    subst century t. destruct (reduce_year time_) as [c t'].
    cbn [fst snd] in *. unfold bind.
    change (time_msg c t' [x0; x1; x2; x3; x4; x5; x6; x7; x8]) with m.
    rewrite R. reflexivity.
  - split; [exact T|]. split; [|split; [reflexivity|exact S']].
    rewrite B. exact (sel_seq m).
Qed.

(** X24.  [ds3231_get_temp_int] on a bus where the device acknowledges the
    address and the register pointer: the pointer [TMPDR] is written
    and the transfer is closed by its stop condition, but the function
    returns FALSE at once, taking the TRUE of the transfer for an
    error.  The read of the two temperature bytes is never started and
    nothing is stored through [i] or [f], null or not. *)
Theorem ds3231_get_temp_int_on_answering_bus (i f : Z) (s : machine) :
  frame s <= RAMEND ->
  bus_answers 2 2 s ->
  exists (s' : machine) (evs : list event),
    ds3231_get_temp_int i f s = Done 0 s' /\
    mem s' = mem s /\
    trace s' = trace s ++
      EvCall (WRITE_ADD :: TMPDR :: skipn 2 (local_array 3 s)) 2
      :: EvStart :: evs ++ [EvStop] /\
    bytes_out evs = [WRITE_ADD; TMPDR] /\
    length evs = 4%nat.
Proof.
  intros Hram (f1 & f2 & f3 & f4 & flags & pins & flags' & pins' & pins''
               & Hf & F1 & F2 & F3 & F4 & Hscl & Hclk & Hstop & Hack).
  pose proof (local_array_length 3 s) as L.
  destruct (local_array 3 s) as [|x0 [|x1 [|x2 [|x3 l]]]] eqn:A;
    try discriminate.
  destruct (TWI_write_run (frame s) [WRITE_ADD; TMPDR; x2] 2 s f1 f2 f3 f4
              flags pins flags' pins' pins'' Hram eq_refl Hf F1 F2 F3 F4
              Hscl eq_refl Hclk Hstop Hack)
    as (s' & evs & R & _ & T & B & Len & _).
  pose proof (TWI_keeps_data _ _ _ _ _ _ R) as (_ & K & _).
  exists s', evs. split.
  - unfold ds3231_get_temp_int.
    unfold bind at 1. unfold get at 1. unfold bind at 1. unfold alloca at 1.
    unfold get at 1. rewrite A. cbn [upd]. unfold bind. rewrite R.
    reflexivity.
  - split; [exact K|]. split; [exact T|]. split; [exact B|exact Len].
Qed.

End DriverOnBus.

(** ** The out-parameters of [ds3231_get_time_s] *)

Lemma to_bool_false (r : Z) : to_bool r = false -> r = 0.
Proof.
  unfold to_bool. destruct (Z.eqb_spec r 0); [auto | discriminate].
Qed.

(** The three guarded assignments that end [ds3231_get_time_s]. *)
Lemma guarded_stores (hour min sec : Z) (b2 : list Z) (s2 : machine) :
  exists s',
    ((if to_bool sec then store8 sec (bcd2dec (sel 1 b2)) else ret tt) ;;
     (if to_bool min then store8 min (bcd2dec (sel 2 b2)) else ret tt) ;;
     (if to_bool hour then store8 hour (bcd2dec (sel 3 b2)) else ret tt) ;;
     ret 1) s2 = Done 1 s' /\
    s' = set_mem (mem s') s2 /\
    mem s' 0 = mem s2 0 /\
    (forall a, a <> hour -> a <> min -> a <> sec -> mem s' a = mem s2 a) /\
    (sec <> 0 -> sec <> min -> sec <> hour ->
     mem s' sec = bcd2dec (sel 1 b2)) /\
    (min <> 0 -> min <> hour -> mem s' min = bcd2dec (sel 2 b2)) /\
    (hour <> 0 -> mem s' hour = bcd2dec (sel 3 b2)).
Proof.
  destruct (guarded_store sec (bcd2dec (sel 1 b2)) s2)
    as (sa & Ra & Ea & Va & Fa & Za).
  destruct (guarded_store min (bcd2dec (sel 2 b2)) sa)
    as (sb & Rb & Eb & Vb & Fb & Zb).
  destruct (guarded_store hour (bcd2dec (sel 3 b2)) sb)
    as (sc & Rc & Ec & Vc & Fc & Zc).
  exists sc. unfold bind. rewrite Ra, Rb, Rc. unfold ret.
  split; [reflexivity|]. split.
  { rewrite Ec at 1. rewrite Eb at 1. rewrite Ea at 1. reflexivity. }
  split; [congruence|]. split.
  { intros a H1 H2 H3. rewrite Fc, Fb, Fa by assumption. reflexivity. }
  split.
  { intros H0 H1 H2. rewrite Fc, Fb by assumption. auto. }
  split.
  { intros H0 H1. rewrite Fc by assumption. auto. }
  exact Vc.
Qed.

Section DriverPointers.
Context {tgt : target}.

(** C10 (the code departs from the claim).  The guard half of the
    claim holds: [ds3231_get_time_s] never stores through a null
    [hour], [min] or [sec]; whatever subset of them is null the call
    does not fault, address 0 and every cell other than the three
    targets keep their contents, and a call that returns FALSE changes
    no cell at all.  The other half does not.  On a bus where the
    device acknowledges the address and the register pointer, the
    function makes that one transfer, takes its TRUE for an error and
    returns FALSE: the read of the three registers is never started and
    no pointer, null or not, receives anything.  It returns TRUE only
    when both of its transfers have returned FALSE, and the values it
    then assigns ([sec] from byte 1, [min] from byte 2, [hour] from
    byte 3, in this order) are decoded from a buffer nothing was read
    into: byte 1 is the register pointer [SECDR], bytes 2 and 3 are
    what the stack held. *)
Theorem ds3231_get_time_s_guards_null_inverts_status (hour min sec : Z)
  (s : machine) :
  ds3231_get_time_s hour min sec s <> Fault /\
  (forall (r : Z) (s' : machine),
     ds3231_get_time_s hour min sec s = Done r s' ->
     mem s' 0 = mem s 0 /\
     (forall a, a <> hour -> a <> min -> a <> sec -> mem s' a = mem s a) /\
     (r = 0 -> mem s' = mem s)) /\
  (frame s <= RAMEND -> bus_answers 2 2 s ->
   exists (s' : machine) (evs : list event),
     ds3231_get_time_s hour min sec s = Done 0 s' /\
     mem s' = mem s /\
     trace s' = trace s ++
       EvCall (WRITE_ADD :: SECDR :: skipn 2 (local_array 4 s)) 2
       :: EvStart :: evs ++ [EvStop] /\
     bytes_out evs = [WRITE_ADD; SECDR] /\
     length evs = 4%nat) /\
  (forall (r : Z) (s' : machine),
     ds3231_get_time_s hour min sec s = Done r s' -> r <> 0 ->
     r = 1 /\
     exists (b1 b2 : list Z) (s1 s2 : machine),
       TWI_start_transceiver_with_data (frame s)
         (upd 1 SECDR (upd 0 WRITE_ADD (local_array 4 s))) 2 s
         = Done (0, b1) s1 /\
       TWI_start_transceiver_with_data (frame s) (upd 0 READ_ADD b1) 4 s1
         = Done (0, b2) s2) /\
  (forall (b1 b2 : list Z) (s1 s2 : machine),
     TWI_start_transceiver_with_data (frame s)
       (upd 1 SECDR (upd 0 WRITE_ADD (local_array 4 s))) 2 s
       = Done (0, b1) s1 ->
     TWI_start_transceiver_with_data (frame s) (upd 0 READ_ADD b1) 4 s1
       = Done (0, b2) s2 ->
     b2 = READ_ADD :: SECDR :: skipn 2 (local_array 4 s) /\
     exists s' : machine,
       ds3231_get_time_s hour min sec s = Done 1 s' /\
       s' = set_mem (mem s') s2 /\
       (sec <> 0 -> sec <> min -> sec <> hour ->
        mem s' sec = bcd2dec (sel 1 b2)) /\
       (min <> 0 -> min <> hour -> mem s' min = bcd2dec (sel 2 b2)) /\
       (hour <> 0 -> mem s' hour = bcd2dec (sel 3 b2))).
Proof.
  pose proof (local_array_length 4 s) as L.
  destruct (local_array 4 s) as [|x0 [|x1 [|x2 [|x3 [|x4 l]]]]] eqn:A;
    try discriminate.
  change (upd 1 SECDR (upd 0 WRITE_ADD [x0; x1; x2; x3]))
    with [WRITE_ADD; SECDR; x2; x3].
  change (skipn 2 [x0; x1; x2; x3]) with [x2; x3].
  assert (E : ds3231_get_time_s hour min sec s =
    ('(r, msgBuf) <- TWI_start_transceiver_with_data (frame s)
                       [WRITE_ADD; SECDR; x2; x3] 2 ;;
     if to_bool r then ret 0 else
     '(r, msgBuf) <- TWI_start_transceiver_with_data (frame s)
                       (upd 0 READ_ADD msgBuf) 4 ;;
     if to_bool r then ret 0 else
     (if to_bool sec then store8 sec (bcd2dec (sel 1 msgBuf)) else ret tt) ;;
     (if to_bool min then store8 min (bcd2dec (sel 2 msgBuf)) else ret tt) ;;
     (if to_bool hour then store8 hour (bcd2dec (sel 3 msgBuf))
      else ret tt) ;;
     ret 1) s).
  { unfold ds3231_get_time_s.
    unfold bind at 1. unfold get at 1. unfold bind at 1. unfold alloca at 1.
    unfold get at 1. rewrite A. reflexivity. }
  rewrite E. clear E.
  split; [|split; [|split; [|split]]].
  - unfold bind at 1.
    destruct (TWI_start_transceiver_with_data (frame s) _ 2 s)
      as [[r1 b1] s1| |] eqn:H1;
      [| discriminate | exfalso; exact (TWI_no_fault _ _ _ _ H1)].
    destruct (to_bool r1); [discriminate|].
    unfold bind at 1.
    destruct (TWI_start_transceiver_with_data (frame s) _ 4 s1)
      as [[r2 b2] s2| |] eqn:H2;
      [| discriminate | exfalso; exact (TWI_no_fault _ _ _ _ H2)].
    destruct (to_bool r2); [discriminate|].
    destruct (guarded_stores hour min sec b2 s2) as (s' & Rs & _).
    rewrite Rs. discriminate.
  - intros r s'. unfold bind at 1.
    destruct (TWI_start_transceiver_with_data (frame s) _ 2 s)
      as [[r1 b1] s1| |] eqn:H1; [| discriminate | discriminate].
    destruct (TWI_keeps_data _ _ _ _ _ _ H1) as (_ & M1 & _).
    destruct (to_bool r1).
    { intros Hd. inversion Hd; subst. rewrite M1. auto. }
    unfold bind at 1.
    destruct (TWI_start_transceiver_with_data (frame s) _ 4 s1)
      as [[r2 b2] s2| |] eqn:H2; [| discriminate | discriminate].
    destruct (TWI_keeps_data _ _ _ _ _ _ H2) as (_ & M2 & _).
    destruct (to_bool r2).
    { intros Hd. inversion Hd; subst. rewrite M2, M1. auto. }
    destruct (guarded_stores hour min sec b2 s2)
      as (s3 & R3 & _ & Z3 & F3 & _).
    rewrite R3. intros Hd. inversion Hd; subst.
    rewrite Z3, M2, M1. split; [reflexivity|]. split.
    + intros a Ha Hb Hc. rewrite F3 by assumption.
      rewrite M2, M1. reflexivity.
    + discriminate.
  - intros Hram (f1 & f2 & f3 & f4 & flags & pins & flags' & pins' & pins''
                 & Hf & F1 & F2 & F3 & F4 & Hscl & Hclk & Hstop & Hack).
    destruct (TWI_write_run (frame s) [WRITE_ADD; SECDR; x2; x3] 2 s
                f1 f2 f3 f4 flags pins flags' pins' pins'' Hram eq_refl Hf
                F1 F2 F3 F4 Hscl eq_refl Hclk Hstop Hack)
      as (s' & evs & R & _ & T & B & Len & _).
    pose proof (TWI_keeps_data _ _ _ _ _ _ R) as (_ & K & _).
    exists s', evs. split.
    + unfold bind. rewrite R. reflexivity.
    + split; [exact K|]. split; [exact T|]. split; [exact B|exact Len].
  - intros r s'. unfold bind at 1.
    destruct (TWI_start_transceiver_with_data (frame s) _ 2 s)
      as [[r1 b1] s1| |] eqn:H1; [| discriminate | discriminate].
    destruct (to_bool r1) eqn:T1.
    { intros Hd Hr. inversion Hd; subst. contradiction. }
    apply to_bool_false in T1. subst r1.
    unfold bind at 1.
    destruct (TWI_start_transceiver_with_data (frame s) _ 4 s1)
      as [[r2 b2] s2| |] eqn:H2; [| discriminate | discriminate].
    destruct (to_bool r2) eqn:T2.
    { intros Hd Hr. inversion Hd; subst. contradiction. }
    apply to_bool_false in T2. subst r2.
    destruct (guarded_stores hour min sec b2 s2) as (s3 & R3 & _).
    rewrite R3. intros Hd _. inversion Hd; subst.
    split; [reflexivity|]. exists b1, b2, s1, s2. auto.
  - intros b1 b2 s1 s2 H1 H2. split.
    + apply TWI_failure_keeps_buffer in H1, H2. subst b2 b1. reflexivity.
    + destruct (guarded_stores hour min sec b2 s2)
        as (s' & Rs & Es & _ & _ & Vs & Vm & Vh).
      exists s'. split; [|auto].
      unfold bind. rewrite H1. cbv beta iota.
      change (to_bool 0) with false. cbv beta iota.
      rewrite H2. cbv beta iota. change (to_bool 0) with false.
      cbv beta iota. exact Rs.
Qed.

End DriverPointers.

(** ** The further properties on concrete machines *)

Lemma ds3231_set_alarm_s_interrupt_enable_witness :
  let s := silent_bus 3 [] in
  Z.testbit (intrpt_update true ALARM_1 0x04) 0 = true /\
  Z.testbit (intrpt_update true ALARM_1 0x04) 2 = true /\
  exists (b2 rest : list Z) (s2 : machine),
    ds3231_set_alarm_s 5 12 30 0 ALARM_1 ALARM_MDAY_M true s =
      ('(r, msgBuf) <- TWI_start_transceiver_with_data (frame s)
                         (WRITE_ADD :: CTRDR ::
                          intrpt_update true ALARM_1 (sel 1 b2) :: rest) 3 ;;
       if to_bool r then ret 0 else
       '(r, _) <- TWI_start_transceiver_with_data (frame s)
                    (alarm_msg 5 12 30 0 ALARM_1 ALARM_MDAY_M msgBuf)
                    (if ALARM_1 =? ALARM_1 then 6 else 5) ;;
       if to_bool r then ret 0 else ret 1) s2.
Proof.
  intros s.
  assert (Ha : 0 <= ALARM_1 <= 1) by (unfold ALARM_1; lia).
  assert (Hh : 12 <= 23) by lia.
  assert (Hm : 30 <= 59) by lia.
  assert (Hs : 0 <= 59) by lia.
  assert (Hw : ALARM_MDAY_M = ALARM_WDAY_M -> 5 <= 7) by (intros _; lia).
  assert (Hd : ALARM_MDAY_M = ALARM_MDAY_M -> 5 <= 31) by (intros _; lia).
  eassert (H1 : TWI_start_transceiver_with_data (frame s)
                  (upd 1 CTRDR (upd 0 WRITE_ADD
                     (local_array (if ALARM_1 =? ALARM_1 then 6 else 5) s)))
                  2 s
                = Done (0, _) _) by (vm_compute; reflexivity).
  match type of H1 with
  | _ = Done (_, ?b1) ?s1 =>
    eassert (H2 : TWI_start_transceiver_with_data (frame s)
                    (upd 0 READ_ADD b1) 2 s1 = Done (0, _) _)
      by (vm_compute; reflexivity)
  end.
  destruct (ds3231_set_alarm_s_interrupt_enable 5 12 30 0 ALARM_1
              ALARM_MDAY_M true s Ha Hh Hm Hs Hw Hd) as (B & F).
  destruct (F _ _ _ _ H1 H2) as (rest & E).
  split; [rewrite B by lia; reflexivity|].
  split; [rewrite B by lia; reflexivity|].
  match type of H2 with
  | _ = Done (_, ?b2) ?s2 => exists b2, rest, s2
  end.
  exact E.
Defined.

Lemma ds3231_osc32kHz_enable_write_back_witness :
  let s := silent_bus 3 [] in
  exists (b2 : list Z) (s2 : machine),
    osc32kHz_update false (sel 1 b2) = 0x07 /\
    ds3231_osc32kHz_enable false s =
      ('(r, _) <- TWI_start_transceiver_with_data (frame s)
                    [WRITE_ADD; STSDR; osc32kHz_update false (sel 1 b2)] 3 ;;
       if to_bool r then ret 0 else ret 1) s2.
Proof.
  intros s.
  eassert (H1 : TWI_start_transceiver_with_data (frame s)
                  (upd 1 STSDR (upd 0 WRITE_ADD (local_array 3 s))) 2 s
                = Done (0, _) _) by (vm_compute; reflexivity).
  match type of H1 with
  | _ = Done (_, ?b1) ?s1 =>
    eassert (H2 : TWI_start_transceiver_with_data (frame s)
                    (upd 0 READ_ADD b1) 2 s1 = Done (0, _) _)
      by (vm_compute; reflexivity)
  end.
  destruct (ds3231_osc32kHz_enable_write_back false s) as (_ & F).
  pose proof (F _ _ _ _ H1 H2) as E.
  match type of H2 with
  | _ = Done (_, ?b2) ?s2 => exists b2, s2
  end.
  split; [reflexivity|exact E].
Defined.

Lemma alarm_parameters_verified_witness :
  let s := silent_bus 1 [] in
  ds3231_set_alarm_s 1 24 0 0 2 ALARM_MDAY_M false s = Done 0 s /\
  ds3231_get_alarm_s 0 0 0 0 2 0 0 s = Done 0 s /\
  ds3231_check_alarm 0 2 s = Done 0 s.
Proof.
  intros s.
  destruct (alarm_parameters_verified 1 24 0 0 2 ALARM_MDAY_M false
              0 0 0 0 0 0 0 s) as [A B].
  split.
  - apply A. right. right. left. lia.
  - apply B. lia.
Defined.

Lemma ds3231_set_time_s_registers_witness :
  let t := mk_time 58 59 23 1 1 0 1 true 0 in
  let m := [WRITE_ADD; SECDR; dec2bcd 58; dec2bcd 59; dec2bcd 23] in
  firstn 5 (time_msg 0 t [0; 0; 0; 0; 0; 0; 0; 0; 0]) = m /\
  bcd2dec (sel 1 (read_back m)) = 58 /\
  bcd2dec (sel 2 (read_back m)) = 59 /\
  bcd2dec (sel 3 (read_back m)) = 23.
Proof.
  intros t m.
  pose proof (ds3231_set_time_s_registers 23 59 58 (silent_bus 1 [])) as T.
  cbv zeta in T. destruct T as (_ & B & C).
  split.
  - exact (B t 0 0 0 0 0 0 0 0 0 0 eq_refl eq_refl eq_refl).
  - apply C; lia.
Defined.

Lemma ds3231_get_temp_int_value_witness :
  let s := silent_bus 2 [0; 0x19; 0x40] in
  exists s' : machine,
    ds3231_get_temp_int 0x100 0x101 s = Done 1 s' /\
    4 * mem s' 0x100 + mem s' 0x101 = 69.
Proof.
  intros s.
  eassert (H1 : TWI_start_transceiver_with_data (frame s)
                  (upd 1 TMPDR (upd 0 WRITE_ADD (local_array 3 s))) 2 s
                = Done (0, _) _) by (vm_compute; reflexivity).
  match type of H1 with
  | _ = Done (_, ?b1) ?s1 =>
    eassert (H2 : TWI_start_transceiver_with_data (frame s)
                    (upd 0 READ_ADD b1) 3 s1 = Done (0, _) _)
      by (vm_compute; reflexivity)
  end.
  match type of H2 with
  | _ = Done (_, ?b2) ?s2 =>
    assert (Hm : 0 <= sel 1 b2 < 256)
      by (vm_compute; split; [discriminate | reflexivity]);
    assert (Hl : 0 <= sel 2 b2 < 256)
      by (vm_compute; split; [discriminate | reflexivity])
  end.
  destruct (ds3231_get_temp_int_value 0x100 0x101 s _ _ _ _ H1 H2 Hm Hl)
    as (_ & F).
  destruct F as (s' & R & _ & _ & _ & E); [lia | lia | lia |].
  exists s'. split; [exact R|exact E].
Defined.

Lemma ds3231_set_time_rewrites_year_witness :
  let s := silent_bus 1 [] in
  exists (r : Z) (t' : time) (s' s2 : machine),
    _time s = midnight /\ year midnight = 0 /\
    ds3231_set_time midnight s = Done (r, t') s' /\
    t' = mk_time 0 0 0 1 1 148 1 true 0 /\
    ds3231_set_time_stored s = Done r s2 /\
    year (_time s2) = 148.
Proof.
  intros s.
  assert (Hy : 0 <= year midnight < 256) by (cbn; lia).
  eassert (H : ds3231_set_time midnight s = Done (_, _) _)
    by (vm_compute; reflexivity).
  destruct (ds3231_set_time_rewrites_year midnight _ s _ _ Hy H)
    as (E & _ & _ & F).
  destruct (F eq_refl) as (G & _ & _).
  match type of H with
  | _ = Done (?r, ?t') ?s' => exists r, t', s', (set__time t' s')
  end.
  split; [reflexivity|]. split; [reflexivity|]. split; [exact H|].
  split; [exact E|]. split; [exact G|reflexivity].
Defined.

Lemma TWI_parameters_refused_witness :
  let s := silent_bus 1 [] in
  exists s' : machine,
    TWI_start_transceiver_with_data 0x200 [WRITE_ADD; CTRDR] 256 s
      = Done (0, [WRITE_ADD; CTRDR]) s' /\
    TWI_get_state_info s' = Done TWI_NO_DATA s' /\
    USISR_rd s' = USISR_rd s /\
    trace s' = [EvCall [WRITE_ADD; CTRDR] 0] /\
    USIDR s' = 0xFF /\ USISR s' = 0 /\ USICR s' = 0 /\
    PORT_TWI s' = 0x05 /\ DDR_TWI s' = 0x05.
Proof.
  intros s.
  assert (H : 0x200 > RAMEND \/ u8 256 <= 1)
    by (right; vm_compute; discriminate).
  destruct (TWI_parameters_refused 0x200 [WRITE_ADD; CTRDR] 256 s H)
    as (s' & R & I & P & D & F & _ & _ & T & U1 & U2 & U3 & _).
  exists s'. split; [exact R|]. split; [exact I|]. split; [exact F|].
  split; [exact T|]. split; [exact U1|]. split; [exact U2|].
  split; [exact U3|]. split; [exact P|exact D].
Defined.

Lemma TWI_pending_flag_refused_witness :
  let s := machine_on [] [0; 0x20] [] [] in
  exists s' : machine,
    TWI_start_transceiver_with_data 0x200 [WRITE_ADD; CTRDR] 2 s
      = Done (0, [WRITE_ADD; CTRDR]) s' /\
    TWI_get_state_info s' = Done TWI_UE_STOP_CON s' /\
    PORT_TWI s' = PORT_TWI s.
Proof.
  intros s.
  assert (H1 : 0x200 <= RAMEND) by (vm_compute; discriminate).
  assert (H2 : 1 < u8 2) by reflexivity.
  assert (H3 : Z.testbit (nth 0 (USISR_rd s) 0) USISIF
               || Z.testbit (nth 1 (USISR_rd s) 0) USIPF
               || Z.testbit (nth 2 (USISR_rd s) 0) USIDC = true)
    by reflexivity.
  destruct (TWI_pending_flag_refused 0x200 [WRITE_ADD; CTRDR] 2 s H1 H2 H3)
    as (s' & R & I & P & _).
  exists s'. split; [exact R|]. split; [exact I|exact P].
Defined.

Lemma TWI_missing_start_returns_true_witness :
  let s := machine_on [0xFF] [0; 0; 0; 0] [] [] in
  exists s' : machine,
    TWI_start_transceiver_with_data 0x200 [WRITE_ADD; CTRDR] 2 s
      = Done (1, [WRITE_ADD; CTRDR]) s' /\
    TWI_get_state_info s' = Done TWI_MISSING_START_CON s' /\
    trace s' = [EvCall [WRITE_ADD; CTRDR] 2; EvStart].
Proof.
  intros s.
  assert (H1 : 0x200 <= RAMEND) by (vm_compute; discriminate).
  assert (H2 : 1 < u8 2) by reflexivity.
  destruct (TWI_missing_start_returns_true 0x200 [WRITE_ADD; CTRDR] 2 s
              0 0 0 0 [] [] H1 H2 eq_refl eq_refl eq_refl eq_refl eq_refl
              eq_refl)
    as (s' & R & I & T & _).
  exists s'. split; [exact R|]. split; [exact I|exact T].
Defined.

Lemma TWI_write_completes_witness :
  let buf := [WRITE_ADD; CTRDR; 0x40] in
  let s := machine_on (repeat 0xFF 8) (flags_of_transfer 3) (repeat 0 6) [] in
  exists (s' : machine) (evs : list event),
    TWI_start_transceiver_with_data 0x200 buf 3 s = Done (1, buf) s' /\
    TWI_get_state_info s' = Done 2 s' /\
    trace s' = EvCall buf 3 :: EvStart :: evs ++ [EvStop] /\
    bytes_out evs = buf.
Proof.
  intros buf s.
  assert (H1 : 0x200 <= RAMEND) by (vm_compute; discriminate).
  assert (H2 : 1 < u8 3) by reflexivity.
  assert (Hc : clockings (2 * Z.to_nat (u8 3))
                 (repeat 0x40 6 ++ [0x20]) (repeat 0xFF 7)
               = Some ([0x20], [0xFF])) by reflexivity.
  assert (Ha : forall j, (j < Z.to_nat (u8 3))%nat ->
            Z.testbit (nth (2 * j + 1) (USIDR_rd s) 0) TWI_NACK_BIT = false).
  { intros j Hj. change (Z.to_nat (u8 3)) with 3%nat in Hj.
    destruct j as [|[|[|j]]]; [reflexivity | reflexivity | reflexivity | lia]. }
  destruct (TWI_write_completes 0x200 buf 3 s 0 0 0 0x80
              (repeat 0x40 6 ++ [0x20]) (repeat 0xFF 7) [0x20] [0xFF] []
              H1 H2 eq_refl eq_refl eq_refl eq_refl eq_refl eq_refl eq_refl
              Hc eq_refl Ha)
    as (s' & evs & R & I & T & B & _).
  exists s', evs. split; [exact R|]. split; [exact I|].
  split; [exact T|exact B].
Defined.

Lemma TWI_read_completes_witness :
  let buf := [READ_ADD; 0; 0] in
  let s := machine_on (repeat 0xFF 8) (flags_of_transfer 3)
             [0xD1; 0x00; 0x25; 0xFF; 0x59; 0xFF] [] in
  exists (s' : machine) (buf' : list Z) (evs : list event),
    TWI_start_transceiver_with_data 0x200 buf 3 s = Done (1, buf') s' /\
    sel 0 buf' = READ_ADD /\ sel 1 buf' = 0x25 /\ sel 2 buf' = 0x59 /\
    bits_out evs = [0xFF; 0x00; 0xFF].
Proof.
  intros buf s.
  assert (H1 : 0x200 <= RAMEND) by (vm_compute; discriminate).
  assert (H2 : 1 < u8 3) by reflexivity.
  assert (H3 : (Z.to_nat (u8 3) <= length buf)%nat)
    by (change (Z.to_nat (u8 3)) with 3%nat; cbn; lia).
  assert (Hc : clockings (2 * Z.to_nat (u8 3))
                 (repeat 0x40 6 ++ [0x20]) (repeat 0xFF 7)
               = Some ([0x20], [0xFF])) by reflexivity.
  destruct (TWI_read_completes 0x200 buf 3 s 0 0 0 0x80
              (repeat 0x40 6 ++ [0x20]) (repeat 0xFF 7) [0x20] [0xFF] []
              H1 H2 H3 eq_refl eq_refl eq_refl eq_refl eq_refl eq_refl
              eq_refl Hc eq_refl eq_refl)
    as (s' & buf' & evs & R & _ & S & _ & _ & B & _).
  exists s', buf', evs. split; [exact R|].
  split; [rewrite (S 0%nat); reflexivity|].
  split; [rewrite (S 1%nat); reflexivity|].
  split; [rewrite (S 2%nat); reflexivity|exact B].
Defined.

Lemma TWI_failed_transfer_keeps_buffer_witness :
  let s := silent_bus 1 [] in
  exists (buf' : list Z) (s' : machine),
    TWI_start_transceiver_with_data 0x200 [READ_ADD; 0x11; 0x22] 3 s
      = Done (0, buf') s' /\
    buf' = [READ_ADD; 0x11; 0x22].
Proof.
  intros s.
  eassert (H : TWI_start_transceiver_with_data 0x200 [READ_ADD; 0x11; 0x22]
                 3 s = Done (0, _) _) by (vm_compute; reflexivity).
  match type of H with
  | _ = Done (_, ?b) ?s' => exists b, s'
  end.
  split; [exact H|].
  exact (TWI_failed_transfer_keeps_buffer _ _ _ _ _ _ H).
Defined.

Lemma TWI_keeps_other_pins_witness :
  let s := set_PORT_TWI 0x1D (set_DDR_TWI 0x0D (silent_bus 1 [])) in
  exists (x : Z * list Z) (s' : machine),
    TWI_start_transceiver_with_data 0x200 [WRITE_ADD; CTRDR] 2 s
      = Done x s' /\
    other_pins_kept s s' /\ same_data s s'.
Proof.
  intros s.
  assert (Hd : 0 <= PIN_TWI_SDA < 8) by (cbn; lia).
  assert (Hc : 0 <= PIN_TWI_SCL < 8) by (cbn; lia).
  eassert (H : TWI_start_transceiver_with_data 0x200 [WRITE_ADD; CTRDR]
                 2 s = Done _ _) by (vm_compute; reflexivity).
  match type of H with
  | _ = Done ?x ?s' => exists x, s'
  end.
  split; [exact H|].
  exact (TWI_keeps_other_pins Hd Hc _ _ _ _ _ _ H).
Defined.

Lemma TWI_master_initialize_releases_bus_witness :
  let s := set_PORT_TWI 0x18 (set_DDR_TWI 0x08 (silent_bus 1 [])) in
  exists s' : machine,
    TWI_master_initialize s = Done tt s' /\
    Z.testbit (PORT_TWI s') PIN_TWI_SDA = true /\
    Z.testbit (PORT_TWI s') PIN_TWI_SCL = true /\
    other_pins_kept s s'.
Proof.
  intros s.
  assert (Hd : 0 <= PIN_TWI_SDA < 8) by (cbn; lia).
  assert (Hc : 0 <= PIN_TWI_SCL < 8) by (cbn; lia).
  destruct (TWI_master_initialize_releases_bus Hd Hc s)
    as (s' & R & A & B & _ & _ & K & _).
  exists s'. split; [exact R|]. split; [exact A|]. split; [exact B|exact K].
Defined.

Lemma TWI_lines_after_transfer_witness :
  let s := silent_bus 1 [] in
  exists s' : machine,
    TWI_start_transceiver_with_data 0x200 [WRITE_ADD; CTRDR] 2 s
      = Done (0, [WRITE_ADD; CTRDR]) s' /\
    TWI_get_state_info s' = Done TWI_NO_ACK_ON_ADDRESS s' /\
    Z.testbit (PORT_TWI s') PIN_TWI_SDA = true /\
    Z.testbit (PORT_TWI s') PIN_TWI_SCL = false.
Proof.
  intros s.
  assert (Hd : 0 <= PIN_TWI_SDA < 8) by (cbn; lia).
  assert (Hc : 0 <= PIN_TWI_SCL < 8) by (cbn; lia).
  assert (Hn : PIN_TWI_SDA <> PIN_TWI_SCL) by (cbn; lia).
  eassert (H : TWI_start_transceiver_with_data 0x200 [WRITE_ADD; CTRDR]
                 2 s = Done (0, _) _) by (vm_compute; reflexivity).
  destruct (TWI_lines_after_transfer Hd Hc _ _ _ _ _ _ _ Hn H) as (_ & F).
  match type of H with
  | _ = Done _ ?s' => exists s'
  end.
  split; [exact H|]. split; [reflexivity|].
  apply F. vm_compute. split; discriminate.
Defined.

Lemma ds3231_set_time_on_answering_bus_witness :
  let s := machine_on (repeat 0xFF 20) (flags_of_transfer 9) (repeat 0 18)
             [] in
  let t := mk_time 30 59 23 31 12 116 5 false 11 in
  exists (s' : machine) (evs : list event),
    ds3231_set_time t s = Done (0, mk_time 30 59 23 31 12 8 5 false 11) s' /\
    bytes_out evs = [0xD0; 0x00; 0x30; 0x59; 0x23; 0x05; 0x31; 0x12; 0x08] /\
    trace s' =
      EvCall [0xD0; 0x00; 0x30; 0x59; 0x23; 0x05; 0x31; 0x12; 0x08] 9
      :: EvStart :: evs ++ [EvStop].
Proof.
  intros s t.
  assert (H1 : frame s <= RAMEND) by (vm_compute; discriminate).
  assert (H2 : bus_answers 9 9 s).
  { exists 0, 0, 0, 0x80, (repeat 0x40 18 ++ [0x20]), (repeat 0xFF 19),
      [0x20], [0xFF], [].
    repeat split; try reflexivity.
    intros j Hj. do 9 (destruct j as [|j]; [reflexivity|]). lia. }
  pose proof (ds3231_set_time_on_answering_bus t s H1 H2) as T.
  cbv zeta in T. destruct T as (s' & m & evs & R & Tr & B & M & _).
  exists s', evs. split; [exact R|]. split.
  - rewrite B, M. reflexivity.
  - rewrite Tr, M. reflexivity.
Defined.

Lemma ds3231_get_temp_int_on_answering_bus_witness :
  let s := machine_on (repeat 0xFF 6) (flags_of_transfer 2) (repeat 0 4)
             [] in
  exists (s' : machine) (evs : list event),
    ds3231_get_temp_int 0x100 0x101 s = Done 0 s' /\
    mem s' = mem s /\
    bytes_out evs = [WRITE_ADD; TMPDR].
Proof.
  intros s.
  assert (H1 : frame s <= RAMEND) by (vm_compute; discriminate).
  assert (H2 : bus_answers 2 2 s).
  { exists 0, 0, 0, 0x80, (repeat 0x40 4 ++ [0x20]), (repeat 0xFF 5),
      [0x20], [0xFF], [].
    repeat split; try reflexivity.
    intros j Hj. do 2 (destruct j as [|j]; [reflexivity|]). lia. }
  destruct (ds3231_get_temp_int_on_answering_bus 0x100 0x101 s H1 H2)
    as (s' & evs & R & K & _ & B & _).
  exists s', evs. split; [exact R|]. split; [exact K|exact B].
Defined.

Lemma ds3231_get_time_s_guards_null_inverts_status_witness :
  let answering := machine_on (repeat 0xFF 6) (flags_of_transfer 2)
                     (repeat 0 4) [0; 0; 0x59; 0x23] in
  let silent := silent_bus 2 [0; 0; 0x59; 0x23] in
  (exists s' : machine,
     ds3231_get_time_s 0x102 0x101 0x100 answering = Done 0 s' /\
     mem s' = mem answering) /\
  (exists s' : machine,
     ds3231_get_time_s 0 0x101 0x100 silent = Done 1 s' /\
     mem s' 0x100 = 0 /\ mem s' 0x101 = 59 /\ mem s' 0 = 0).
Proof.
  intros answering silent. split.
  - assert (H1 : frame answering <= RAMEND) by (vm_compute; discriminate).
    assert (H2 : bus_answers 2 2 answering).
    { exists 0, 0, 0, 0x80, (repeat 0x40 4 ++ [0x20]), (repeat 0xFF 5),
        [0x20], [0xFF], [].
      repeat split; try reflexivity.
      intros j Hj. do 2 (destruct j as [|j]; [reflexivity|]). lia. }
    destruct (ds3231_get_time_s_guards_null_inverts_status 0x102 0x101 0x100
                answering) as (_ & _ & A & _).
    destruct (A H1 H2) as (s' & evs & R & K & _).
    exists s'. split; [exact R|exact K].
  - destruct (ds3231_get_time_s_guards_null_inverts_status 0 0x101 0x100
                silent) as (_ & Fr & _ & _ & G).
    eassert (H1 : TWI_start_transceiver_with_data (frame silent)
                    (upd 1 SECDR (upd 0 WRITE_ADD (local_array 4 silent)))
                    2 silent
                  = Done (0, _) _) by (vm_compute; reflexivity).
    match type of H1 with
    | _ = Done (_, ?b1) ?s1 =>
      eassert (H2 : TWI_start_transceiver_with_data (frame silent)
                      (upd 0 READ_ADD b1) 4 s1 = Done (0, _) _)
        by (vm_compute; reflexivity)
    end.
    destruct (G _ _ _ _ H1 H2) as (_ & s' & R & _ & Vs & Vm & _).
    exists s'. split; [exact R|]. split; [|split].
    + apply Vs; discriminate.
    + apply Vm; discriminate.
    + exact (proj1 (Fr 1 s' R)).
Defined.
